(** * Question-paper generator: recovery engine, diagram compiler, validator
      and orchestrator, embedded from the Python sources

    The development follows the source files one module at a time:
    - [PyStr]              the [str] operations the sources call;
    - [Schemas]            [src/schemas.py] (the records that travel between stages);
    - [SolvabilityChecker] [src/validator.py];
    - [Eff]                the effects the renderer and the orchestrator perform
                           (clock, files, external compiler, rasteriser, collaborators);
    - [Renderer]           [src/robust_tikz_renderer.py];
    - [Pipeline]           [src/pipeline.py];
    - [LlmUtils]           [src/llm_utils.py].

    Python [str] is modelled by [string] (one [ascii] per character; the
    sources' literals are ASCII), [int] by [Z], [dict] by [gmap] or, where the
    order of keys matters, by an association list, durations by whole
    milliseconds. *)

From Stdlib Require Import ZArith Lia Ascii String List.
From stdpp Require Import base option list strings gmap pretty.

#[local] Set Warnings "-register-all".
Local Open Scope string_scope.
Local Open Scope list_scope.

(** ** Python strings *)

Module PyStr.

Definition code (c : ascii) : N := N_of_ascii c.

(** [str.isspace] on one ASCII character: TAB..CR, FS..US and the blank. *)
Definition isspace (c : ascii) : bool :=
  let n := code c in
  (((9 <=? n) && (n <=? 13)) || ((28 <=? n) && (n <=? 32)))%N.

Definition isupper (c : ascii) : bool :=
  let n := code c in ((65 <=? n) && (n <=? 90))%N.

Definition lower_char (c : ascii) : ascii :=
  if isupper c then ascii_of_N (code c + 32) else c.

(** [s.lower()] *)
Fixpoint lower (s : string) : string :=
  match s with
  | EmptyString => EmptyString
  | String c s' => String (lower_char c) (lower s')
  end.

Fixpoint lstrip (s : string) : string :=
  match s with
  | EmptyString => EmptyString
  | String c s' => if isspace c then lstrip s' else s
  end.

Fixpoint rstrip (s : string) : string :=
  match s with
  | EmptyString => EmptyString
  | String c s' =>
      match rstrip s' with
      | EmptyString => if isspace c then EmptyString else String c EmptyString
      | r => String c r
      end
  end.

(** [s.strip()] *)
Definition strip (s : string) : string := lstrip (rstrip s).

(** [len(s)] *)
Definition len (s : string) : nat := String.length s.

(** [s.startswith(p)] *)
Fixpoint startswith (p s : string) : bool :=
  match p, s with
  | EmptyString, _ => true
  | String _ _, EmptyString => false
  | String a p', String b s' => if Ascii.eqb a b then startswith p' s' else false
  end.

(** [sub in s] *)
Fixpoint contains (sub s : string) : bool :=
  startswith sub s ||
  match s with
  | EmptyString => false
  | String _ s' => contains sub s'
  end.

(** [s.count(c)] for a one-character [c] *)
Fixpoint count (c : ascii) (s : string) : nat :=
  match s with
  | EmptyString => 0
  | String b s' => (if Ascii.eqb c b then 1 else 0) + count c s'
  end.

(** [s[:n]] *)
Fixpoint take (n : nat) (s : string) : string :=
  match n, s with
  | S n', String c s' => String c (take n' s')
  | _, _ => EmptyString
  end.

(** [s[n:]] *)
Fixpoint drop (n : nat) (s : string) : string :=
  match n, s with
  | S n', String _ s' => drop n' s'
  | _, _ => s
  end.

(** [s[a:b]] for [0 <= a], [0 <= b] *)
Definition slice (a b : nat) (s : string) : string := take (b - a) (drop a s).

(** [s.replace(old, new)] for a non-empty [old]: leftmost occurrences, not
    overlapping. The recursion consumes one character of [s] per step and
    carries the number of characters still to skip after a match. *)
Fixpoint replace_from (skip : nat) (old new s : string) : string :=
  match s with
  | EmptyString => EmptyString
  | String c s' =>
      match skip with
      | S k => replace_from k old new s'
      | O =>
          if startswith old s
          then new +:+ replace_from (len old - 1) old new s'
          else String c (replace_from 0 old new s')
      end
  end.

Definition replace (old new s : string) : string := replace_from 0 old new s.

(** [sep.join(l)] *)
Fixpoint join (sep : string) (l : list string) : string :=
  match l with
  | [] => ""
  | [x] => x
  | x :: rest => x +:+ sep +:+ join sep rest
  end.

(** [s.find(sub)]: the first index at which [sub] starts, if any. *)
Fixpoint find (sub s : string) : option nat :=
  if startswith sub s then Some 0
  else match s with
       | EmptyString => None
       | String _ s' => S <$> find sub s'
       end.

(** [s.split(sep)] for a non-empty [sep]: [cur] holds, reversed, the
    characters of the piece being read. *)
Fixpoint split_from (skip : nat) (sep : string) (cur : list ascii) (s : string)
  : list string :=
  match s with
  | EmptyString => [string_of_list_ascii (rev cur)]
  | String c s' =>
      match skip with
      | S k => split_from k sep cur s'
      | O =>
          if startswith sep s
          then string_of_list_ascii (rev cur) :: split_from (len sep - 1) sep [] s'
          else split_from 0 sep (c :: cur) s'
      end
  end.

Definition split (sep s : string) : list string := split_from 0 sep [] s.

End PyStr.

(** ** Values and records ([src/schemas.py]) *)

(** A value of Python's [Any] as the sources meet it: what a JSON document
    decodes to. A [dict] keeps its keys in insertion order. *)
Inductive pyval : Type :=
| PNone
| PBool (b : bool)
| PInt (z : Z)
| PFloat (lexeme : string)
| PStr (s : string)
| PList (items : list pyval)
| PDict (fields : list (string * pyval)).

Module Schemas.

(** [class Question(BaseModel)], alias [QuestionInstance] *)
Record QuestionInstance : Type := mkQuestion {
  instance_id : Z;
  q_pattern_id : Z;
  q_topic : string;
  question_text : string;
  correct_answer : string;
  tikz_code : string;
  difficulty : string;
  solvability_check : string;
  variables : gmap string pyval
}.

(** [class QuestionSet(BaseModel)] *)
Record QuestionSet : Type := mkQuestionSet {
  qs_pattern_id : Z;
  qs_pattern_name : string;
  questions : list QuestionInstance;
  qs_topic : string
}.

(** [class RenderedDiagram(BaseModel)]; [render_time] in milliseconds. *)
Record RenderedDiagram : Type := mkRenderedDiagram {
  rd_tikz_code : string;
  pdf_path : string;
  png_path : string;
  render_time : Z;
  success : bool;
  error_message : option string
}.

(** [class PDFPage(BaseModel)] *)
Record PDFPage : Type := mkPDFPage {
  page_number : Z;
  question_id : Z;
  page_question_text : string;
  page_tikz_code : string;
  answer : string;
  image_path : string
}.

(** [class PatternPDF(BaseModel)] *)
Record PatternPDF : Type := mkPatternPDF {
  pp_pattern_id : Z;
  pp_pattern_name : string;
  pp_pdf_path : string;
  pages : list PDFPage
}.

(** [class QuestionPattern(BaseModel)]: the fields the orchestrator reads. *)
Record QuestionPattern : Type := mkQuestionPattern {
  pattern_id : Z;
  pattern_name : string
}.

(** [class PatternCollection(BaseModel)] *)
Record PatternCollection : Type := mkPatternCollection {
  pc_topic : string;
  patterns : list QuestionPattern
}.

(** [class OutputManifest(BaseModel)] *)
Record OutputManifest : Type := mkOutputManifest {
  om_topic : string;
  total_patterns : Z;
  total_questions : Z;
  pdfs : list PatternPDF;
  diagrams_dir : string;
  om_output_dir : string;
  generation_timestamp : string
}.

End Schemas.

(** ** Solvability heuristic ([src/validator.py]) *)

Module SolvabilityChecker.
Import PyStr Schemas.

(** [SolvabilityChecker.check]: the returned pair [(status, error_message)].
    The two [logger.warning] calls of the source do not change the result
    and are left out. *)
Definition check (question : QuestionInstance) : string * option string :=
  let answer := strip (correct_answer question) in
  if (len answer =? 0)%nat || (lower answer =? "unknown") || (lower answer =? "n/a")
  then ("invalid", Some "Answer is empty or trivial")
  else
    let question_text := strip (question_text question) in
    if (len question_text =? 0)%nat
    then ("invalid", Some "Question text is empty")
    else if (size (variables question) =? 0)%nat
    then ("invalid", Some "No variables defined")
    else if (len answer <? 2)%nat
    then ("invalid", Some "Answer too short")
    else ("valid", None).



End SolvabilityChecker.


(** ** Effects

    The renderer and the orchestrator talk to the clock, the file system, the
    external compiler, the rasteriser and the generation collaborators. A
    Python block is a tree of such calls ([prog]); what each call answers is
    the environment's choice, so a statement about every run of a block
    quantifies over every answer. *)

Module Eff.
Import Schemas.

(** Exception classes the sources raise or name in an [except] clause; every
    one is a subclass of [Exception]. *)
Inductive exn_class : Type :=
| ValueError | RuntimeError | TimeoutExpired | JSONDecodeError | OSError
| OtherException (name : string).

(** An exception value: its class and [str(e)]. *)
Record exn : Type := mkExn { exn_cls : exn_class; exn_msg : string }.

(** What a call gives back: a value, or the exception it raised. *)
Inductive result (A : Type) : Type :=
| Ok (a : A)
| Err (e : exn).
Arguments Ok {A} a.
Arguments Err {A} e.

(** [subprocess.CompletedProcess] *)
Record CompletedProcess : Type := mkCompleted {
  returncode : Z;
  stdout : string;
  stderr : string
}.

(** A [PIL.Image]: [size] and [mode]. *)
Record Image : Type := mkImage {
  img_width : Z;
  img_height : Z;
  img_mode : string
}.

(** A [pathlib.Path] of the scratch directory: [parent / name]. *)
Record Path : Type := mkPath { parent : string; name : string }.

Definition path_str (p : Path) : string := parent p +:+ "/" +:+ name p.

(** What [Pipeline._save_json] is asked to write. *)
Inductive json_payload : Type :=
| PatternsPayload (pc : PatternCollection)
| QuestionsPayload (sets : list QuestionSet)
| ManifestPayload (m : OutputManifest).

(** Handles of the rasteriser's objects. *)
Definition handle : Type := nat.

Inductive Event : Type -> Type :=
(* time *)
| Now : Event Z                                  (* time.time(), in ms *)
| Sleep (ms : Z) : Event unit                    (* time.sleep *)
| UtcNowIso : Event string                       (* datetime.utcnow().isoformat() *)
(* files *)
| FileWrite (path content : string) : Event (result unit)
| PathExists (path : string) : Event (result bool)
| StatSize (path : string) : Event (result Z)
| Unlink (path : string) : Event (result unit)
| MkdirParents (dir : string) : Event (result unit)
(* external compiler: subprocess.run([tectonic, tex_name], cwd=..., timeout=60) *)
| RunTectonic (tectonic tex_name cwd : string) : Event (result CompletedProcess)
(* pypdfium2 and PIL *)
| PdfOpen (path : string) : Event (result handle)
| PdfGetPage (doc : handle) (index : nat) : Event (result handle)
| PageRender (page : handle) (dpi : Z) (base_dpi : Z) : Event (result handle)
| BitmapToPil (bitmap : handle) : Event (result Image)
| ImageSave (img : Image) (path : string) : Event (result unit)
| PdfClose (doc : handle) : Event (result unit)
| ImageOpen (path : string) : Event (result Image)
(* collaborators of the orchestrator *)
| GeneratePatterns (topic grade_level : string) (num_patterns : Z)
    : Event (result PatternCollection)
| ValidatePatterns (pc : PatternCollection) : Event (result (list string))
| GenerateQuestions (pattern : QuestionPattern) (topic : string)
    : Event (result QuestionSet)
| ValidateQuestions (qs : QuestionSet) : Event (result (list string))
(* reportlab: SimpleDocTemplate, the story and doc.build(story) *)
| BuildDocument (output_pdf : string) (qs : QuestionSet)
    (diagrams : list (option RenderedDiagram)) : Event (result unit)
| JsonDump (filepath : string) (data : json_payload) : Event (result unit)
(* the order in which the worker pool completes the [n] submitted tasks *)
| AsCompleted (n : nat) : Event (list nat).

(** A tree of calls ending in a value. *)
Inductive prog (A : Type) : Type :=
| Ret (a : A)
| Vis {X : Type} (ev : Event X) (k : X -> prog A).
Arguments Ret {A} a.
Arguments Vis {A X} ev k.

Fixpoint pbind {A B : Type} (p : prog A) (f : A -> prog B) : prog B :=
  match p with
  | Ret a => f a
  | Vis ev k => Vis ev (fun x => pbind (k x) f)
  end.

(** A Python block with mutable locals [S]: it ends in a value or in a raised
    exception, and the locals keep what was written before the raise. *)
Definition py (St A : Type) : Type := St -> prog (St * result A).

Definition ret {St A} (a : A) : py St A := fun s => Ret (s, Ok a).
Definition raise {St A} (e : exn) : py St A := fun s => Ret (s, Err e).

Definition bind {St A B} (m : py St A) (f : A -> py St B) : py St B :=
  fun s => pbind (m s) (fun '(s', r) =>
    match r with
    | Ok a => f a s'
    | Err e => Ret (s', Err e)
    end).

Definition get {St} : py St St := fun s => Ret (s, Ok s).
Definition put {St} (s' : St) : py St unit := fun _ => Ret (s', Ok tt).
Definition modify {St} (f : St -> St) : py St unit := fun s => Ret (f s, Ok tt).

(** A library call that may raise. *)
Definition call {St X} (ev : Event (result X)) : py St X :=
  fun s => Vis ev (fun r => Ret (s, r)).

(** A library call that does not raise. *)
Definition trigger {St X} (ev : Event X) : py St X :=
  fun s => Vis ev (fun x => Ret (s, Ok x)).

(** [try: body except Exception as e: handler e] *)
Definition try_except {St A} (body : py St A) (handler : exn -> py St A) : py St A :=
  fun s => pbind (body s) (fun '(s', r) =>
    match r with
    | Ok a => Ret (s', Ok a)
    | Err e => handler e s'
    end).

(** [try: body finally: fin]: [fin] runs on both exits; the exit of [body]
    stands unless [fin] raises. *)
Definition try_finally {St A} (body : py St A) (fin : py St unit) : py St A :=
  fun s => pbind (body s) (fun '(s', r) =>
    pbind (fin s') (fun '(s'', r') =>
      match r' with
      | Ok _ => Ret (s'', r)
      | Err e' => Ret (s'', Err e')
      end)).

(** Run a block that has locals of its own inside a caller. *)
Definition scope {St T A} (init : T) (body : py T A) : py St (T * A) :=
  fun s => pbind (body init) (fun '(t, r) =>
    match r with
    | Ok a => Ret (s, Ok (t, a))
    | Err e => Ret (s, Err e)
    end).

Declare Scope py_scope.
Delimit Scope py_scope with py.
Notation "x <~ m ;; k" := (bind m (fun x => k))
  (at level 100, m at next level, right associativity) : py_scope.
Notation "m ;; k" := (bind m (fun _ => k))
  (at level 100, right associativity) : py_scope.

(** [when b m]: [if b: m] *)
Definition when {St} (b : bool) (m : py St unit) : py St unit :=
  if b then m else ret tt.

(** [for attempt in range(n): body attempt], where an iteration may [return]
    a value ([Some]) or fall through to the next one ([None]). [attempt] is
    the index of the first iteration still to run. *)
Fixpoint for_range {St A} (n : nat) (attempt : nat) (body : nat -> py St (option A))
  : py St (option A) :=
  match n with
  | O => ret None
  | S n' =>
      bind (body attempt) (fun r =>
        match r with
        | Some a => ret (Some a)
        | None => for_range n' (S attempt) body
        end)
  end.

(** [for x in l: body x] *)
Fixpoint for_each {St X} (l : list X) (body : X -> py St unit) : py St unit :=
  match l with
  | [] => ret tt
  | x :: rest => bind (body x) (fun _ => for_each rest body)
  end.

(** *** Running a block against an environment *)

(** One call and its answer. *)
Record answered : Type := Answered {
  ans_type : Type;
  ans_event : Event ans_type;
  ans_value : ans_type
}.

(** An environment answers every call and moves to its next state. *)
Definition handler (W : Type) : Type := forall X, Event X -> W -> X * W.

Fixpoint exec {W A} (h : handler W) (p : prog A) (w : W) : A * W * list answered :=
  match p with
  | Ret a => (a, w, [])
  | Vis ev k =>
      let '(x, w1) := h _ ev w in
      let '(a, w2, tr) := exec h (k x) w1 in
      (a, w2, Answered _ ev x :: tr)
  end.

(** [always Q p]: the block [p] ends in a value satisfying [Q], whatever the
    environment answers to its calls. *)
Inductive always {A} (Q : A -> Prop) : prog A -> Prop :=
| always_ret a : Q a -> always Q (Ret a)
| always_vis X (ev : Event X) k : (forall x, always Q (k x)) -> always Q (Vis ev k).

(** [post m s Q]: started with locals [s], the block [m] ends with locals and
    an exit satisfying [Q], whatever the environment answers. *)
Definition post {St A} (m : py St A) (s : St) (Q : St -> result A -> Prop) : Prop :=
  always (fun out => Q out.1 out.2) (m s).

(** The Python block started with locals [s] ends without an exception. *)
Definition never_raises {St A} (m : py St A) (s : St) : Prop :=
  post m s (fun _ r => exists a, r = Ok a).

(** A block is [safe] when it raises from no state. *)
Definition safe {St A} (m : py St A) : Prop := forall s, never_raises m s.

Definition is_tectonic_call (c : answered) : bool :=
  match ans_event c with
  | RunTectonic _ _ _ => true
  | _ => false
  end.

(** How many times the external compiler was invoked in a run. *)
Definition compiler_invocations (tr : list answered) : nat :=
  length (filter (fun c => is_tectonic_call c = true) tr).

End Eff.

(** ** Diagram compiler ([src/robust_tikz_renderer.py]) *)

Module Renderer.
Import PyStr Schemas Eff.
Local Open Scope py_scope.

(** The attributes [__init__] stores on [self]. *)
Record RobustTikZRenderer : Type := mkRenderer {
  temp_dir : string;
  dpi : Z;
  tectonic_path : string;
  keep_intermediate : bool;
  max_retries : Z
}.

(** The dictionary [render] builds and returns. Its eight keys are fixed when
    it is created; [intermediate_files] is the inner dictionary, in insertion
    order; [execution_time] is in milliseconds. *)
Record RenderMetadata : Type := mkMetadata {
  md_success : bool;
  output_png : string;
  md_tikz_code : string;
  steps_completed : list string;
  errors : list string;
  warnings : list string;
  execution_time : Z;
  intermediate_files : list (string * string)
}.

(** A value stored under a key of the returned dictionary. *)
Inductive md_value : Type :=
| MBool (b : bool)
| MStr (s : string)
| MStrList (l : list string)
| MMillis (t : Z)
| MFiles (files : list (string * string)).

(** [render_metadata.get(key)]: the dictionary read by key. *)
Definition md_get (key : string) (md : RenderMetadata) : option md_value :=
  if key =? "success" then Some (MBool (md_success md))
  else if key =? "output_png" then Some (MStr (output_png md))
  else if key =? "tikz_code" then Some (MStr (md_tikz_code md))
  else if key =? "steps_completed" then Some (MStrList (steps_completed md))
  else if key =? "errors" then Some (MStrList (errors md))
  else if key =? "warnings" then Some (MStrList (warnings md))
  else if key =? "execution_time" then Some (MMillis (execution_time md))
  else if key =? "intermediate_files" then Some (MFiles (intermediate_files md))
  else None.

Definition set_success (b : bool) (md : RenderMetadata) : RenderMetadata :=
  mkMetadata b (output_png md) (md_tikz_code md) (steps_completed md) (errors md)
    (warnings md) (execution_time md) (intermediate_files md).
Definition add_step (step : string) (md : RenderMetadata) : RenderMetadata :=
  mkMetadata (md_success md) (output_png md) (md_tikz_code md)
    (steps_completed md ++ [step]) (errors md) (warnings md) (execution_time md)
    (intermediate_files md).
Definition extend_errors (l : list string) (md : RenderMetadata) : RenderMetadata :=
  mkMetadata (md_success md) (output_png md) (md_tikz_code md) (steps_completed md)
    (errors md ++ l) (warnings md) (execution_time md) (intermediate_files md).
Definition extend_warnings (l : list string) (md : RenderMetadata) : RenderMetadata :=
  mkMetadata (md_success md) (output_png md) (md_tikz_code md) (steps_completed md)
    (errors md) (warnings md ++ l) (execution_time md) (intermediate_files md).
Definition set_execution_time (t : Z) (md : RenderMetadata) : RenderMetadata :=
  mkMetadata (md_success md) (output_png md) (md_tikz_code md) (steps_completed md)
    (errors md) (warnings md) t (intermediate_files md).

(** [d[key] = value] on a dictionary kept in insertion order. *)
Fixpoint dict_set (key value : string) (d : list (string * string))
  : list (string * string) :=
  match d with
  | [] => [(key, value)]
  | (k, v) :: rest =>
      if k =? key then (k, value) :: rest else (k, v) :: dict_set key value rest
  end.

Definition set_file (key value : string) (md : RenderMetadata) : RenderMetadata :=
  mkMetadata (md_success md) (output_png md) (md_tikz_code md) (steps_completed md)
    (errors md) (warnings md) (execution_time md)
    (dict_set key value (intermediate_files md)).

Definition newline : string := String (ascii_of_nat 10) EmptyString.

Definition LATEX_TEMPLATE : string := "
\documentclass[tikz,border=2pt,12pt]{standalone}
\usepackage{tikz}
\usepackage{amssymb}
\usepackage{amsmath}
\usepackage{unicode-math}
\usepackage{fontspec}
\usetikzlibrary{arrows.meta,positioning,shapes.geometric,calc}

\begin{document}

\begin{tikzpicture}
%TIKZ_CODE%
\end{tikzpicture}

\end{document}
".

(** [p.with_suffix(suffix)]: the name up to its last dot (the whole name when
    it has none, or only a leading one), followed by [suffix]. *)
Fixpoint stem_rev (l : list ascii) : option (list ascii) :=
  match l with
  | [] => None
  | c :: rest =>
      if Ascii.eqb c "."%char
      then match rest with [] => None | _ => Some rest end
      else stem_rev rest
  end.

Definition with_suffix (p : Path) (suffix : string) : Path :=
  let chars := list_ascii_of_string (name p) in
  let stem := match stem_rev (rev chars) with
              | Some r => string_of_list_ascii (rev r)
              | None => name p
              end in
  mkPath (parent p) (stem +:+ suffix).

(** [str(Path(p).parent)]: [p] up to its last slash. *)
Fixpoint dirname_rev (l : list ascii) : option (list ascii) :=
  match l with
  | [] => None
  | c :: rest => if Ascii.eqb c "/"%char then Some rest else dirname_rev rest
  end.

Definition dirname (p : string) : string :=
  match dirname_rev (rev (list_ascii_of_string p)) with
  | Some [] => "/"
  | Some r => string_of_list_ascii (rev r)
  | None => "."
  end.

(** The deny-list of [RobustTikZRenderer._validate_tikz_code]. *)
Definition renderer_forbidden_patterns : list string :=
  ["\input"; "\include"; "\write"; "\read"; "\openout";
   "\closeout"; "\shell"; "\immediate"; "\def"; "\xdef";
   "\edef"; "\let"; "\newcommand"; "\renewcommand"].

(** [not tikz_code or len(tikz_code.strip()) < 5] *)
Definition empty_or_too_short (tikz_code : string) : bool :=
  (len tikz_code =? 0)%nat || (len (strip tikz_code) <? 5)%nat.

(** The first deny-listed pattern found in the lower-cased code. *)
Definition first_forbidden (patterns : list string) (tikz_code : string)
  : option string :=
  let code_lower := lower tikz_code in
  List.find (fun pattern => contains pattern code_lower) patterns.

(** [RobustTikZRenderer._validate_tikz_code] *)
Definition _validate_tikz_code (tikz_code : string) : bool * option string :=
  if empty_or_too_short tikz_code
  then (false, Some "TikZ code is empty or too short")
  else if negb (count "{"%char tikz_code =? count "}"%char tikz_code)%nat
  then (false, Some "Mismatched braces in TikZ code")
  else match first_forbidden renderer_forbidden_patterns tikz_code with
       | Some pattern => (false, Some ("Forbidden pattern detected: " +:+ pattern))
       | None => (true, None)
       end.

(** [f"...(attempt {attempt + 1})..."] *)
Definition attempt_no (attempt : nat) : string := pretty (attempt + 1)%nat.

(** [if attempt < self.max_retries - 1: time.sleep(unit * (attempt + 1))] *)
Definition backoff {St} (self : RobustTikZRenderer) (attempt : nat) (unit_ms : Z)
  : py St unit :=
  when (Z.of_nat attempt <? max_retries self - 1)%Z
       (trigger (Sleep (unit_ms * (Z.of_nat attempt + 1)))).

Definition append_error (msg : string) : py (list string) unit :=
  modify (fun errors : list string => app errors [msg]).

Section WithHelpers.

(** [RobustTikZRenderer._clean_tikz_code], a total rewriting of the source
    string ([strip], [replace] and [re.sub] with fixed patterns) that raises
    nothing; what exactly it rewrites decides no property below, so it is
    kept as any function from strings to strings. *)
Variable _clean_tikz_code : string -> string.

(** [f"{x:.1f}"] of a file size in megabytes. *)
Variable format_mb : Z -> string.

(** Step 1, [_generate_clean_tikz_code]: the pair [(code, errors)]. The
    [ValueError] raised on an empty or short source is caught by the
    function's own [except]. *)
Definition _generate_clean_tikz_code (tikz_code : string) : string * list string :=
  if empty_or_too_short tikz_code
  then (tikz_code, ["TikZ code cleaning failed: " +:+ "TikZ code is empty or too short"])
  else
    let cleaned := _clean_tikz_code tikz_code in
    match _validate_tikz_code cleaned with
    | (false, Some validation_error) =>
        (cleaned, ["TikZ validation warning: " +:+ validation_error])
    | (false, None) => (cleaned, ["TikZ validation warning: None"])
    | (true, _) => (cleaned, [])
    end.

(** One iteration of the loop of [_write_standalone_tex_file]; the local
    [errors] is the state. *)
Definition write_attempt (self : RobustTikZRenderer) (tikz_code : string)
  (attempt : nat) : py (list string) (option Path) :=
    try_except
      (let latex_source := replace "%TIKZ_CODE%" tikz_code LATEX_TEMPLATE in
       timestamp <~ trigger Now ;;
       let tex_filename :=
         "tikz_render_" +:+ pretty timestamp +:+ "_" +:+ pretty attempt +:+ ".tex" in
       let tex_path := mkPath (temp_dir self) tex_filename in
       call (FileWrite (path_str tex_path) latex_source) ;;
       present <~ call (PathExists (path_str tex_path)) ;;
       missing <~ (if negb present then ret true
                   else size <~ call (StatSize (path_str tex_path)) ;;
                        ret (size =? 0)%Z) ;;
       if missing : bool
       then raise (mkExn RuntimeError "TEX file creation failed")
       else ret (Some tex_path))
      (fun e =>
         append_error ("TEX file creation (attempt " +:+ attempt_no attempt +:+ "): "
                       +:+ exn_msg e) ;;
         backoff self attempt 100 ;;
         ret None).

(** Step 2, [_write_standalone_tex_file] *)
Definition _write_standalone_tex_file (self : RobustTikZRenderer) (tikz_code : string)
  : py (list string) (option Path) :=
  for_range (Z.to_nat (max_retries self)) 0 (write_attempt self tikz_code).

(** [[line for line in stderr.split('\n') if 'Error:' in line]] *)
Definition error_lines (stderr : string) : list string :=
  List.filter (fun line => contains "Error:" line) (split newline stderr).

(** One iteration of the loop of [_compile_with_tectonic]; the local
    [errors] is the state. An iteration that ends in [continue] gives [None]. *)
Definition compile_attempt (self : RobustTikZRenderer) (tex_file pdf_file : Path)
  (attempt : nat) : py (list string) (option Path) :=
    try_except
      (stale <~ call (PathExists (path_str pdf_file)) ;;
       when stale (call (Unlink (path_str pdf_file))) ;;
       result <~ call (RunTectonic (tectonic_path self) (name tex_file)
                                   (parent tex_file)) ;;
       if negb (returncode result =? 0)%Z
       then
         append_error ("Tectonic failed (attempt " +:+ attempt_no attempt +:+ "): "
                       +:+ stderr result) ;;
         when (contains "Error:" (stderr result))
              (match error_lines (stderr result) with
               | first :: _ => append_error ("Specific error: " +:+ strip first)
               | [] => ret tt
               end) ;;
         backoff self attempt 200 ;;
         ret None
       else
         created <~ call (PathExists (path_str pdf_file)) ;;
         if negb created
         then
           append_error ("Tectonic completed but PDF not created (attempt "
                         +:+ attempt_no attempt +:+ ")") ;;
           ret None
         else
           size <~ call (StatSize (path_str pdf_file)) ;;
           if (size =? 0)%Z
           then
             append_error ("PDF created but empty (attempt "
                           +:+ attempt_no attempt +:+ ")") ;;
             call (Unlink (path_str pdf_file)) ;;
             ret None
           else ret (Some pdf_file))
      (fun e =>
         match exn_cls e with
         | TimeoutExpired =>
             append_error ("Tectonic timeout (attempt " +:+ attempt_no attempt +:+ ")") ;;
             backoff self attempt 1000 ;;
             ret None
         | _ =>
             append_error ("Tectonic execution failed (attempt "
                           +:+ attempt_no attempt +:+ "): " +:+ exn_msg e) ;;
             backoff self attempt 100 ;;
             ret None
         end).

(** Step 3, [_compile_with_tectonic] *)
Definition _compile_with_tectonic (self : RobustTikZRenderer) (tex_file : Path)
  : py (list string) (option Path) :=
  let pdf_file := with_suffix tex_file ".pdf" in
  for_range (Z.to_nat (max_retries self)) 0 (compile_attempt self tex_file pdf_file).

(** The locals of [_convert_to_png_with_pypdfium2] that live across the
    iterations: [errors] and [pdf_doc]. *)
Record ConvertLocals : Type := mkConvert {
  cv_errors : list string;
  cv_pdf_doc : option handle
}.

Definition convert_error (msg : string) : py ConvertLocals unit :=
  modify (fun st => mkConvert (app (cv_errors st) [msg]) (cv_pdf_doc st)).

Definition set_pdf_doc (doc : option handle) : py ConvertLocals unit :=
  modify (fun st => mkConvert (cv_errors st) doc).

(** The [finally] clause of one conversion attempt. *)
Definition close_pdf_doc : py ConvertLocals unit :=
  st <~ get ;;
  match cv_pdf_doc st with
  | Some doc =>
      try_except (call (PdfClose doc)) (fun _ => ret tt) ;;
      set_pdf_doc None
  | None => ret tt
  end.

(** One guarded step of the conversion: [try: x = step except Exception as e:
    errors.append(...); sleep; continue]. [None] stands for the [continue]. *)
Definition guarded {X} (self : RobustTikZRenderer) (attempt : nat) (what : string)
  (step : py ConvertLocals X) : py ConvertLocals (option X) :=
  try_except (x <~ step ;; ret (Some x))
    (fun e =>
       convert_error (what +:+ " (attempt " +:+ attempt_no attempt +:+ "): "
                      +:+ exn_msg e) ;;
       backoff self attempt 100 ;;
       ret None).

(** One iteration of the loop of [_convert_to_png_with_pypdfium2]. *)
Definition convert_attempt (self : RobustTikZRenderer) (pdf_file : Path)
  (output_png : string) (attempt : nat) : py ConvertLocals (option bool) :=
    try_finally
      (try_except
         (call (MkdirParents (dirname output_png)) ;;
          opened <~ guarded self attempt "Failed to open PDF"
                      (doc <~ call (PdfOpen (path_str pdf_file)) ;;
                       set_pdf_doc (Some doc) ;;
                       ret doc) ;;
          match opened with
          | None => ret None
          | Some pdf_doc =>
          got <~ guarded self attempt "Failed to get PDF page"
                   (call (PdfGetPage pdf_doc 0)) ;;
          match got with
          | None => ret None
          | Some page =>
          rendered <~ guarded self attempt "Failed to render PDF page"
                        (call (PageRender page (dpi self) 72)) ;;
          match rendered with
          | None => ret None
          | Some bitmap =>
          guarded self attempt "Failed to save PNG"
            (pil_image <~ call (BitmapToPil bitmap) ;;
             if ((img_width pil_image =? 0) || (img_height pil_image =? 0))%Z
             then raise (mkExn RuntimeError "Rendered image has zero dimensions")
             else
               call (ImageSave pil_image output_png) ;;
               saved <~ call (PathExists output_png) ;;
               if negb saved
               then raise (mkExn RuntimeError "PNG file was not saved")
               else
                 size <~ call (StatSize output_png) ;;
                 if (size =? 0)%Z
                 then raise (mkExn RuntimeError "PNG file is empty")
                 else ret true)
          end end end)
         (fun e =>
            convert_error ("PDF to PNG conversion failed (attempt "
                           +:+ attempt_no attempt +:+ "): " +:+ exn_msg e) ;;
            backoff self attempt 100 ;;
            ret None))
      close_pdf_doc.

(** Step 4, [_convert_to_png_with_pypdfium2] *)
Definition _convert_to_png_with_pypdfium2 (self : RobustTikZRenderer)
  (pdf_file : Path) (output_png : string) : py ConvertLocals bool :=
  done <~ for_range (Z.to_nat (max_retries self)) 0
            (convert_attempt self pdf_file output_png) ;;
  ret (match done with Some b => b | None => false end).

(** [f"{img.size}"] *)
Definition format_size (img : Image) : string :=
  "(" +:+ pretty (img_width img) +:+ ", " +:+ pretty (img_height img) +:+ ")".

Definition accepted_modes : list string := ["RGB"; "RGBA"; "L"].

(** Step 5, [_validate_final_png]; the local [errors] is the state. *)
Definition _validate_final_png (output_png : string) : py (list string) bool :=
  try_except
    (present <~ call (PathExists output_png) ;;
     if negb present
     then append_error "PNG file does not exist" ;; ret false
     else
       file_size <~ call (StatSize output_png) ;;
       if (file_size =? 0)%Z
       then append_error "PNG file is empty" ;; ret false
       else
         when (10 * 1024 * 1024 <? file_size)%Z
              (append_error ("PNG file too large: " +:+ format_mb file_size +:+ "MB")) ;;
         early <~ try_except
                    (img <~ call (ImageOpen output_png) ;;
                     if ((img_width img =? 0) || (img_height img =? 0))%Z
                     then
                       append_error ("Invalid image dimensions: " +:+ format_size img) ;;
                       ret (Some false)
                     else
                       when (negb (existsb (String.eqb (img_mode img)) accepted_modes))
                            (append_error ("Unexpected image mode: " +:+ img_mode img)) ;;
                       ret None)
                    (fun e =>
                       append_error ("PIL validation failed: " +:+ exn_msg e) ;;
                       ret (Some false)) ;;
         match early with
         | Some b => ret b
         | None => ret true
         end)
    (fun e =>
       append_error ("PNG validation failed: " +:+ exn_msg e) ;;
       ret false).

(** [_cleanup_intermediate_files]: a failed deletion is logged, no more. *)
Definition _cleanup_intermediate_files {St} (files : list (string * string))
  : py St unit :=
  for_each files (fun '(file_type, file_path) =>
    try_except
      (present <~ call (PathExists file_path) ;;
       when present (call (Unlink file_path)))
      (fun _ => ret tt)).

(** [str(tex_file)] where [tex_file] may be [None]. *)
Definition str_optional_path (p : option Path) : string :=
  match p with
  | Some p => path_str p
  | None => "None"
  end.

(** The [try] block of [render]; [render_metadata] is the state. *)
Definition render_steps (self : RobustTikZRenderer) (tikz_code output_png : string)
  : py RenderMetadata unit :=
  let '(cleaned_tikz, step1_errors) := _generate_clean_tikz_code tikz_code in
  modify (add_step "tikz_code_generation") ;;
  modify (extend_warnings step1_errors) ;;
  step2 <~ scope [] (_write_standalone_tex_file self cleaned_tikz) ;;
  let '(step2_errors, tex_file) := step2 in
  modify (add_step "tex_file_creation") ;;
  modify (set_file "tex" (str_optional_path tex_file)) ;;
  modify (extend_errors step2_errors) ;;
  match tex_file with
  | None => raise (mkExn RuntimeError "Failed to create TEX file")
  | Some tex_file =>
  step3 <~ scope [] (_compile_with_tectonic self tex_file) ;;
  let '(step3_errors, pdf_file) := step3 in
  modify (add_step "tectonic_compilation") ;;
  match pdf_file with
  | Some pdf => modify (set_file "pdf" (path_str pdf))
  | None => ret tt
  end ;;
  modify (extend_errors step3_errors) ;;
  match pdf_file with
  | None => raise (mkExn RuntimeError "Tectonic compilation failed")
  | Some pdf_file =>
  step4 <~ scope (mkConvert [] None)
             (_convert_to_png_with_pypdfium2 self pdf_file output_png) ;;
  let '(step4_locals, png_success) := step4 in
  modify (add_step "png_conversion") ;;
  modify (extend_errors (cv_errors step4_locals)) ;;
  if negb png_success
  then raise (mkExn RuntimeError "PDF to PNG conversion failed")
  else
    step5 <~ scope [] (_validate_final_png output_png) ;;
    let '(step5_errors, png_validated) := step5 in
    modify (add_step "png_validation") ;;
    modify (extend_errors step5_errors) ;;
    if negb png_validated
    then raise (mkExn RuntimeError "Final PNG validation failed")
    else modify (set_success true)
  end end.

(** The [finally] block of [render]. *)
Definition render_finally (self : RobustTikZRenderer) (start_time : Z)
  : py RenderMetadata unit :=
  when (negb (keep_intermediate self))
       (md <~ get ;; _cleanup_intermediate_files (intermediate_files md)) ;;
  finished <~ trigger Now ;;
  modify (set_execution_time (finished - start_time)).

(** [RobustTikZRenderer.render] *)
Definition render {St} (self : RobustTikZRenderer) (tikz_code output_png : string)
  : py St RenderMetadata :=
  start_time <~ trigger Now ;;
  let render_metadata := mkMetadata false output_png tikz_code [] [] [] 0 [] in
  done <~ scope render_metadata
    (try_finally
       (try_except
          (render_steps self tikz_code output_png)
          (fun e => modify (extend_errors ["Pipeline failed: " +:+ exn_msg e])))
       (render_finally self start_time)) ;;
  ret (fst done).

End WithHelpers.

(** *** The validator the orchestrator calls before rendering *)

Module RobustTikZValidator.

Definition forbidden_patterns : list string :=
  ["\input"; "\include"; "\write"; "\read"; "\openout";
   "\closeout"; "\shell"; "\immediate"; "\def"; "\xdef";
   "\edef"; "\let"; "\newcommand"; "\renewcommand";
   "\usepackage"; "\documentclass"; "\begin{document}"; "\end{document}"].

Definition drawing_keywords : list string :=
  ["\draw"; "\node"; "\coordinate"; "\path"].

(** [RobustTikZValidator.validate] *)
Definition validate (tikz_code : string) : bool * option string :=
  if empty_or_too_short tikz_code
  then (false, Some "TikZ code is empty or too short")
  else if negb (count "{"%char tikz_code =? count "}"%char tikz_code)%nat
  then (false, Some "Mismatched braces in TikZ code")
  else if negb (count "["%char tikz_code =? count "]"%char tikz_code)%nat
  then (false, Some "Mismatched brackets in TikZ code")
  else match first_forbidden forbidden_patterns tikz_code with
       | Some pattern => (false, Some ("Forbidden pattern detected: " +:+ pattern))
       | None =>
           if negb (existsb (fun keyword => contains keyword (lower tikz_code))
                            drawing_keywords)
           then (false, Some "No TikZ drawing commands found")
           else (true, None)
       end.

End RobustTikZValidator.

End Renderer.

(** ** Document assembler ([src/pdf_builder.py])

    What [PDFBuilder.build_pdf] returns to the orchestrator. The layout work
    (the reportlab document, the story with its paragraphs and images, and
    [doc.build]) is one call to the environment. *)

Module PDFBuilder.
Import PyStr Schemas Eff.
Local Open Scope py_scope.

(** The path recorded for a diagram: [diagram.png_path] when the diagram is
    there and successful, and [""] otherwise ([diagram_path or ""]). *)
Definition page_image_path (diagram : option RenderedDiagram) : string :=
  match diagram with
  | Some d => if success d then png_path d else ""
  | None => ""
  end.

(** The loop [for i, question in enumerate(question_set.questions)], from
    index [i]: one page per question. [rendered_diagrams[i]] fails when the
    diagrams run out ([None]). *)
Fixpoint pages_from (i : Z) (qs : list QuestionInstance)
  (rendered_diagrams : list (option RenderedDiagram)) : option (list PDFPage) :=
  match qs with
  | [] => Some []
  | question :: rest =>
      match rendered_diagrams with
      | [] => None
      | diagram :: diagrams =>
          match pages_from (i + 1) rest diagrams with
          | Some pages =>
              Some (mkPDFPage (i + 1) (instance_id question) (question_text question)
                              (tikz_code question) (correct_answer question)
                              (page_image_path diagram) :: pages)
          | None => None
          end
      end
  end.

(** [PDFBuilder.build_pdf] *)
Definition build_pdf {St} (question_set : QuestionSet)
  (rendered_diagrams : list (option RenderedDiagram)) (output_pdf : string)
  : py St PatternPDF :=
  if (length (questions question_set) <? 1)%nat
  then raise (mkExn ValueError
                ("Expected at least 1 question, got "
                 +:+ pretty (length (questions question_set))))
  else if (length rendered_diagrams <? 1)%nat
  then raise (mkExn ValueError
                ("Expected at least 1 diagram, got " +:+ pretty (length rendered_diagrams)))
  else
    match pages_from 0 (questions question_set) rendered_diagrams with
    | None => raise (mkExn (OtherException "IndexError") "list index out of range")
    | Some pages =>
        call (BuildDocument output_pdf question_set rendered_diagrams) ;;
        ret (mkPatternPDF (qs_pattern_id question_set) (qs_pattern_name question_set)
                          output_pdf pages)
    end.

End PDFBuilder.

(** ** Orchestrator ([src/pipeline.py]) *)

Module Pipeline.
Import PyStr Schemas Eff Renderer.
Local Open Scope py_scope.

(** [src/config.py] *)
Definition PATTERNS_PER_TOPIC : Z := 10.
Definition QUESTIONS_PER_PATTERN : Z := 10.

(** The attributes of [self] that the methods below read. *)
Record Pipeline : Type := mkPipeline {
  validate_solvability : bool;
  parallel_rendering : bool;
  tikz_renderer : RobustTikZRenderer;
  output_dir : string;
  diagrams_dir : string
}.

(** [f"{n:02d}"] *)
Definition pad2 (n : Z) : string :=
  if ((0 <=? n) && (n <? 10))%Z then "0" +:+ pretty n else pretty n.

(** [for x in l: acc.append(body x)] *)
Fixpoint map_py {St X Y} (body : X -> py St Y) (l : list X) : py St (list Y) :=
  match l with
  | [] => ret []
  | x :: rest =>
      y <~ body x ;;
      ys <~ map_py body rest ;;
      ret (y :: ys)
  end.

(** [for i, x in enumerate(l): acc.append(body i x)], counting from [i]. *)
Fixpoint imap_py {St X Y} (body : nat -> X -> py St Y) (i : nat) (l : list X)
  : py St (list Y) :=
  match l with
  | [] => ret []
  | x :: rest =>
      y <~ body i x ;;
      ys <~ imap_py body (S i) rest ;;
      ret (y :: ys)
  end.

(** [render_result.get(key, default)] read as a duration. Only a stored
    duration is a duration; the source asks for no other kind of key. *)
Definition get_millis (key : string) (default : Z) (md : RenderMetadata) : Z :=
  match md_get key md with
  | Some (MMillis t) => t
  | Some _ => default
  | None => default
  end.

(** The loop of [_render_diagrams_parallel] over [as_completed(futures)]:
    [done] lists, in completion order, the index [futures[future]] and the
    value [future.result()] of each completed task. *)
Definition assemble (n : nat) (done : list (nat * RenderedDiagram))
  : list (option RenderedDiagram) :=
  foldl (fun rendered '(idx, diagram) => <[idx := Some diagram]> rendered)
        (replicate n None) done.

Definition set_solvability (status : string) (q : QuestionInstance) : QuestionInstance :=
  mkQuestion (instance_id q) (q_pattern_id q) (q_topic q) (question_text q)
    (correct_answer q) (tikz_code q) (difficulty q) status (variables q).

Definition set_questions (l : list QuestionInstance) (qs : QuestionSet) : QuestionSet :=
  mkQuestionSet (qs_pattern_id qs) (qs_pattern_name qs) l (qs_topic qs).

Definition file_stem (topic : string) : string := replace " " "_" topic.

Section WithHelpers.

Variable _clean_tikz_code : string -> string.
Variable format_mb : Z -> string.

(** [Pipeline._render_single_diagram] *)
Definition _render_single_diagram {St} (self : Pipeline) (question : QuestionInstance)
  (pattern_idx : nat) : py St RenderedDiagram :=
  let output_png :=
    diagrams_dir self +:+ "/" +:+ "pattern_" +:+ pad2 (Z.of_nat pattern_idx)
    +:+ "_question_" +:+ pad2 (instance_id question) +:+ ".png" in
  let '(is_valid, error) := RobustTikZValidator.validate (tikz_code question) in
  if negb is_valid
  then ret (mkRenderedDiagram (tikz_code question) "" "" 0 false error)
  else
    render_result <~ render _clean_tikz_code format_mb (tikz_renderer self)
                       (tikz_code question) output_png ;;
    ret (mkRenderedDiagram
           (tikz_code question)
           (replace ".png" ".pdf" output_png)
           output_png
           (get_millis "render_time" 0 render_result)
           (md_success render_result)
           (if md_success render_result then None
            else Some (join "; " (errors render_result)))).

(** [Pipeline._render_diagrams_sequential] *)
Definition _render_diagrams_sequential {St} (self : Pipeline) (question_set : QuestionSet)
  (pattern_idx : nat) : py St (list (option RenderedDiagram)) :=
  rendered <~ map_py (fun question => _render_single_diagram self question pattern_idx)
                     (questions question_set) ;;
  ret (Some <$> rendered).

(** [Pipeline._render_diagrams_parallel]. The pool completes the submitted
    tasks in an order of its own choosing; each task is taken as one step. *)
Definition _render_diagrams_parallel {St} (self : Pipeline) (question_set : QuestionSet)
  (pattern_idx : nat) : py St (list (option RenderedDiagram)) :=
  let n := length (questions question_set) in
  order <~ trigger (AsCompleted n) ;;
  done <~ map_py (fun idx =>
            match questions question_set !! idx with
            | Some question =>
                diagram <~ _render_single_diagram self question pattern_idx ;;
                ret (Some (idx, diagram))
            | None => ret None
            end) order ;;
  ret (assemble n (omap id done)).

(** [Pipeline._render_diagrams] *)
Definition _render_diagrams {St} (self : Pipeline) (question_set : QuestionSet)
  (pattern_idx : nat) : py St (list (option RenderedDiagram)) :=
  if parallel_rendering self
  then _render_diagrams_parallel self question_set pattern_idx
  else _render_diagrams_sequential self question_set pattern_idx.

(** [Pipeline._generate_patterns]; an exception is logged and raised again. *)
Definition _generate_patterns {St} (topic grade_level : string) (num_patterns : option Z)
  : py St PatternCollection :=
  let num_patterns := default PATTERNS_PER_TOPIC num_patterns in
  schema <~ call (GeneratePatterns topic grade_level num_patterns) ;;
  call (ValidatePatterns schema) ;;
  ret schema.

(** [Pipeline._generate_questions] *)
Definition _generate_questions {St} (self : Pipeline) (pattern : QuestionPattern)
  (topic : string) : py St QuestionSet :=
  question_set <~ call (GenerateQuestions pattern topic) ;;
  call (ValidateQuestions question_set) ;;
  if validate_solvability self
  then ret (set_questions
              (List.map (fun question =>
                           set_solvability (fst (SolvabilityChecker.check question)) question)
                        (questions question_set))
              question_set)
  else ret question_set.

(** [Pipeline._save_json] *)
Definition _save_json {St} (data : json_payload) (filepath : string) : py St unit :=
  call (JsonDump filepath data).

(** [Pipeline._build_pdf]; an exception is logged and raised again. *)
Definition _build_pdf {St} (question_set : QuestionSet)
  (diagrams : list (option RenderedDiagram)) (output_path : string) : py St PatternPDF :=
  PDFBuilder.build_pdf question_set diagrams output_path.

(** Steps 3 to 5 of [Pipeline.run]: render the diagrams of the generated
    question sets, build the documents, create and save the manifest. *)
Definition run_steps_3_to_5 {St} (self : Pipeline) (topic : string) (num_patterns : Z)
  (all_question_sets : list QuestionSet) : py St OutputManifest :=
  (* Step 3 *)
  all_rendered_diagrams <~ imap_py (fun pattern_idx question_set =>
                                      _render_diagrams self question_set pattern_idx)
                                   0 all_question_sets ;;
  (* Step 4 *)
  all_pdfs <~ imap_py (fun pattern_idx '(question_set, diagrams) =>
                         _build_pdf question_set diagrams
                           (output_dir self +:+ "/" +:+ "pattern_"
                            +:+ pad2 (Z.of_nat pattern_idx) +:+ "_"
                            +:+ replace " " "_" (qs_pattern_name question_set) +:+ ".pdf"))
                      0 (zip all_question_sets all_rendered_diagrams) ;;
  (* Step 5 *)
  timestamp <~ trigger UtcNowIso ;;
  let manifest := mkOutputManifest topic num_patterns
                    (num_patterns * QUESTIONS_PER_PATTERN) all_pdfs
                    (diagrams_dir self) (output_dir self) timestamp in
  _save_json (ManifestPayload manifest)
             (output_dir self +:+ "/" +:+ file_stem topic +:+ "_manifest.json") ;;
  ret manifest.

(** [Pipeline.run] *)
Definition run {St} (self : Pipeline) (topic grade_level : string)
  (num_patterns : option Z) : py St OutputManifest :=
  let num_patterns := default 10%Z num_patterns in
  let num_patterns := 10%Z in
  (* Step 1 *)
  pattern_schema <~ _generate_patterns topic grade_level (Some num_patterns) ;;
  _save_json (PatternsPayload pattern_schema)
             (output_dir self +:+ "/" +:+ file_stem topic +:+ "_patterns.json") ;;
  (* Step 2 *)
  all_question_sets <~ map_py (fun pattern => _generate_questions self pattern topic)
                              (patterns pattern_schema) ;;
  _save_json (QuestionsPayload all_question_sets)
             (output_dir self +:+ "/" +:+ file_stem topic +:+ "_questions.json") ;;
  run_steps_3_to_5 self topic num_patterns all_question_sets.

End WithHelpers.

End Pipeline.

(** ** A stubbed environment

    The environment the specification's testable properties describe: a
    file system that behaves as a map from paths to sizes, a clock that only
    [sleep] advances, an external compiler whose answer to its [i]-th
    invocation is given by a table, and collaborators answering from
    tables. *)

Module Stub.
Import PyStr Schemas Eff Renderer.

(** What the external compiler does when invoked. *)
Inductive compiler_answer : Type :=
| Exits (code : Z) (stderr : string) (pdf_size : option Z)
    (* exit code, standard error, size of the PDF it writes (if any) *)
| TimesOut
| Fails (e : exn).

Record Toolchain : Type := mkToolchain {
  compiler : nat -> compiler_answer;
  raster_image : Image;                (* what the rasteriser produces *)
  png_size : Z;                        (* size of the PNG file it saves *)
  generated_patterns : string -> PatternCollection;
  generated_questions : QuestionPattern -> string -> QuestionSet;
  completion_order : nat -> list nat;
  utc_now : string
}.

Record World : Type := mkWorld {
  clock : Z;                          (* ms *)
  files : gmap string Z;              (* path |-> size *)
  compiler_runs : nat
}.

Definition set_clock (t : Z) (w : World) : World :=
  mkWorld t (files w) (compiler_runs w).
Definition set_files (fs : gmap string Z) (w : World) : World :=
  mkWorld (clock w) fs (compiler_runs w).

Definition no_such_file (path : string) : exn :=
  mkExn OSError ("[Errno 2] No such file or directory: '" +:+ path +:+ "'").

Definition exists_file (path : string) (w : World) : bool :=
  match files w !! path with Some _ => true | None => false end.

Definition stub (tc : Toolchain) : handler World :=
  fun X (ev : Event X) (w : World) =>
    match ev in Event X return X * World with
    | Now => (clock w, w)
    | Sleep ms => (tt, set_clock (clock w + ms) w)
    | UtcNowIso => (utc_now tc, w)
    | FileWrite path content =>
        (Ok tt, set_files (<[path := Z.of_nat (len content)]> (files w)) w)
    | PathExists path => (Ok (exists_file path w), w)
    | StatSize path =>
        (match files w !! path with
         | Some size => Ok size
         | None => Err (no_such_file path)
         end, w)
    | Unlink path =>
        if exists_file path w
        then (Ok tt, set_files (delete path (files w)) w)
        else (Err (no_such_file path), w)
    | MkdirParents _ => (Ok tt, w)
    | RunTectonic _ tex_name cwd =>
        let w' := mkWorld (clock w) (files w) (S (compiler_runs w)) in
        match compiler tc (compiler_runs w) with
        | Exits code err pdf_size =>
            let pdf := path_str (with_suffix (mkPath cwd tex_name) ".pdf") in
            (Ok (mkCompleted code "" err),
             match pdf_size with
             | Some size => set_files (<[pdf := size]> (files w)) w'
             | None => w'
             end)
        | TimesOut => (Err (mkExn TimeoutExpired "Command timed out after 60 seconds"), w')
        | Fails e => (Err e, w')
        end
    | PdfOpen path =>
        (if exists_file path w then Ok 1%nat else Err (no_such_file path), w)
    | PdfGetPage doc _ => (Ok (S doc), w)
    | PageRender page _ _ => (Ok (S page), w)
    | BitmapToPil _ => (Ok (raster_image tc), w)
    | ImageSave _ path => (Ok tt, set_files (<[path := png_size tc]> (files w)) w)
    | PdfClose _ => (Ok tt, w)
    | ImageOpen path =>
        (if exists_file path w then Ok (raster_image tc) else Err (no_such_file path), w)
    | GeneratePatterns topic _ _ => (Ok (generated_patterns tc topic), w)
    | ValidatePatterns _ => (Ok [], w)
    | GenerateQuestions pattern topic => (Ok (generated_questions tc pattern topic), w)
    | ValidateQuestions _ => (Ok [], w)
    | BuildDocument _ _ _ => (Ok tt, w)
    | JsonDump _ _ => (Ok tt, w)
    | AsCompleted n => (completion_order tc n, w)
    end.

Definition fresh_world : World := mkWorld 1700000000000 ∅ 0.

(** [runs_to tc m s w s' r w' n]: in the stubbed environment, the block [m]
    started with locals [s] in world [w] ends with locals [s'], exit [r] and
    world [w'], after [n] invocations of the external compiler. *)
Definition runs_to {St A} (tc : Toolchain) (m : py St A) (s : St) (w : World)
  (s' : St) (r : result A) (w' : World) (n : nat) : Prop :=
  exists tr, exec (stub tc) (m s) w = ((s', r), w', tr) /\ compiler_invocations tr = n.

End Stub.

(** The four reasons [render] gives when one of its steps 2 to 5 fails. *)
Definition stage_failures : list string :=
  ["Failed to create TEX file"; "Tectonic compilation failed";
   "PDF to PNG conversion failed"; "Final PNG validation failed"].

Definition all_steps : list string :=
  ["tikz_code_generation"; "tex_file_creation"; "tectonic_compilation";
   "png_conversion"; "png_validation"].

(** ** Sample inputs and stub toolchains *)

Module Samples.
Import Schemas Eff Renderer Stub.

Definition sample_renderer : RobustTikZRenderer :=
  mkRenderer "output/temp" 300 "tectonic" false 3.

Definition sample_pipeline : Pipeline.Pipeline :=
  Pipeline.mkPipeline true true sample_renderer "output" "output/diagrams".

Definition segment : string := "\draw (0,0) -- (1,1);".
Definition unbalanced : string := "\draw (0,0) {circle (2);".

Definition sample_question (pattern instance : Z) (code : string) : QuestionInstance :=
  mkQuestion instance pattern "Coordinate Geometry"
    "Find the distance between A and B?" "5 units" code "easy" "pending"
    {[ "x1" := PInt 0 ]}.

(** Two patterns with three instances each; one diagram has unbalanced braces. *)
Definition two_patterns (topic : string) : PatternCollection :=
  mkPatternCollection topic
    [mkQuestionPattern 0 "Distance Formula"; mkQuestionPattern 1 "Midpoint Formula"].

Definition three_questions (pattern : QuestionPattern) (topic : string) : QuestionSet :=
  mkQuestionSet (pattern_id pattern) (pattern_name pattern)
    [sample_question (pattern_id pattern) 0 segment;
     sample_question (pattern_id pattern) 1
       (if (pattern_id pattern =? 1)%Z then unbalanced else segment);
     sample_question (pattern_id pattern) 2 segment]
    topic.

Definition sample_image : Image := mkImage 600 400 "RGB".

Definition toolchain_with (compiler : nat -> compiler_answer) : Toolchain :=
  mkToolchain compiler sample_image 2048 two_patterns three_questions
    (fun n => rev (seq 0 n)) "2024-01-17T00:00:00".

(** The compiler works at once. *)
Definition working_toolchain : Toolchain :=
  toolchain_with (fun _ => Exits 0 "" (Some 1024%Z)).

(** The compiler fails twice, then succeeds. *)
Definition flaky_toolchain : Toolchain :=
  toolchain_with (fun i => if (i <? 2)%nat
                           then Exits 1 "error: boom" None
                           else Exits 0 "" (Some 1024%Z)).


(** The compiler always fails, with the given standard error. *)
Definition failing_toolchain (err : string) : Toolchain :=
  toolchain_with (fun _ => Exits 1 err None).

(** Stand-ins for the two helpers the renderer is parametric in. *)
Definition no_cleaning (s : string) : string := s.
Definition megabytes (size : Z) : string := pretty (size / 1048576)%Z +:+ ".0".

End Samples.

(** The sources that sanitation must stop: unbalanced braces, unbalanced
    brackets, or a deny-listed directive, written in any letter case. *)
Definition unsafe_source (tikz_code : string) : Prop :=
  PyStr.count "{"%char tikz_code <> PyStr.count "}"%char tikz_code \/
  PyStr.count "["%char tikz_code <> PyStr.count "]"%char tikz_code \/
  exists pattern,
    In pattern Renderer.RobustTikZValidator.forbidden_patterns /\
    (PyStr.contains pattern tikz_code = true \/
     PyStr.contains pattern (PyStr.lower tikz_code) = true).


(** A document entry of the manifest lists the instances of a question set:
    same pattern, and one page per instance, in order, under its id. *)
Definition lists_instances (qs : Schemas.QuestionSet) (pdf : Schemas.PatternPDF) : Prop :=
  Schemas.pp_pattern_id pdf = Schemas.qs_pattern_id qs /\
  map Schemas.question_id (Schemas.pages pdf)
    = map Schemas.instance_id (Schemas.questions qs).


(** ** Regular expressions ([re])

    The patterns of [src/llm_utils.py] use literals, character classes, [.]
    (always under [re.DOTALL] where it occurs), greedy [*] and [+], groups
    and the one-character negative lookbehind [(?<!c)]. The matcher below
    is the backtracking one: leftmost match, greedy repetition, first
    success. No pattern of the sources matches the empty string. *)

Module Re.
Import PyStr.

Inductive regex : Type :=
| Chr (c : ascii)                  (* a literal character *)
| Cls (p : ascii -> bool)          (* a character class *)
| Seq (r1 r2 : regex)
| Star (r : regex)                 (* r*, greedy *)
| Group (n : nat) (r : regex)      (* the n-th capturing group *)
| NotAfter (c : ascii).            (* (?<!c) *)

Definition Any : regex := Cls (fun _ => true).           (* . under DOTALL *)
Definition Space : regex := Cls isspace.                 (* \s *)
Definition Not (c : ascii) : regex := Cls (fun x => negb (Ascii.eqb x c)).  (* [^c] *)
Definition Plus (r : regex) : regex := Seq r (Star r).   (* r+ *)

(** A literal string. *)
Fixpoint Lit (s : string) (rest : regex) : regex :=
  match s with
  | EmptyString => rest
  | String c s' => Seq (Chr c) (Lit s' rest)
  end.

(** The spans of the groups matched so far: group, start, end. *)
Definition captures : Type := list (nat * (nat * nat)).

(** [go r prev s pos caps k]: match [r] against [s], which starts at
    position [pos] of the subject and follows the character [prev]; on
    success go on with [k]. *)
Fixpoint go {R} (r : regex) (prev : option ascii) (s : string) (pos : nat)
  (caps : captures)
  (k : option ascii -> string -> nat -> captures -> option R) : option R :=
  match r with
  | Chr c =>
      match s with
      | String c' s' => if Ascii.eqb c c' then k (Some c') s' (S pos) caps else None
      | EmptyString => None
      end
  | Cls p =>
      match s with
      | String c' s' => if p c' then k (Some c') s' (S pos) caps else None
      | EmptyString => None
      end
  | Seq r1 r2 =>
      go r1 prev s pos caps (fun prev' s' pos' caps' => go r2 prev' s' pos' caps' k)
  | Star r' =>
      (fix loop (fuel : nat) prev s pos caps {struct fuel} : option R :=
         match fuel with
         | O => k prev s pos caps
         | S fuel' =>
             match go r' prev s pos caps
                     (fun prev' s' pos' caps' =>
                        if (pos <? pos')%nat then loop fuel' prev' s' pos' caps' else None)
             with
             | Some x => Some x
             | None => k prev s pos caps
             end
         end) (String.length s) prev s pos caps
  | Group n r' =>
      go r' prev s pos caps
         (fun prev' s' pos' caps' => k prev' s' pos' ((n, (pos, pos')) :: caps'))
  | NotAfter c =>
      match prev with
      | Some c' => if Ascii.eqb c c' then None else k prev s pos caps
      | None => k prev s pos caps
      end
  end.

(** A match: where it starts and ends, and the spans of its groups. *)
Record found : Type := mkFound { m_start : nat; m_end : nat; m_groups : captures }.

Definition match_here (r : regex) (prev : option ascii) (s : string) (pos : nat)
  : option found :=
  go r prev s pos [] (fun _ _ pos' caps => Some (mkFound pos pos' caps)).

(** The leftmost match in [s], which starts at position [pos] of the subject. *)
Fixpoint search_from (r : regex) (prev : option ascii) (s : string) (pos : nat)
  : option found :=
  match match_here r prev s pos with
  | Some m => Some m
  | None =>
      match s with
      | EmptyString => None
      | String c s' => search_from r (Some c) s' (S pos)
      end
  end.

(** [re.search(r, text)] *)
Definition search (r : regex) (text : string) : option found :=
  search_from r None text 0.

(** [m.group(n)] on the subject [text]; an unmatched group is empty. *)
Definition group (text : string) (m : found) (n : nat) : string :=
  match List.find (fun g => (fst g =? n)%nat) (m_groups m) with
  | Some (_, (a, b)) => slice a b text
  | None => ""
  end.

(** [m.group(0)] *)
Definition whole (text : string) (m : found) : string :=
  slice (m_start m) (m_end m) text.

(** [re.sub(r, repl, text)] with a callable [repl], for patterns that match
    no empty string: [skip] counts the characters of the last match still
    to pass over. *)
Fixpoint sub_from (r : regex) (repl : found -> string) (skip : nat)
  (prev : option ascii) (s : string) (pos : nat) : string :=
  match s with
  | EmptyString => EmptyString
  | String c s' =>
      match skip with
      | S n => sub_from r repl n (Some c) s' (S pos)
      | O =>
          match match_here r prev s pos with
          | Some m =>
              repl m +:+ sub_from r repl (m_end m - pos - 1) (Some c) s' (S pos)
          | None => String c (sub_from r repl 0 (Some c) s' (S pos))
          end
      end
  end.

Definition sub_with (r : regex) (repl : string -> found -> string) (text : string)
  : string :=
  sub_from r (repl text) 0 None text 0.

(** [re.sub(r, repl, text)] with a constant replacement. *)
Definition sub (r : regex) (repl : string) (text : string) : string :=
  sub_with r (fun _ _ => repl) text.

(** [re.finditer(r, text)]: the matches, left to right, not overlapping. *)
Fixpoint finditer_from (r : regex) (skip : nat) (prev : option ascii) (s : string)
  (pos : nat) : list found :=
  match s with
  | EmptyString => []
  | String c s' =>
      match skip with
      | S n => finditer_from r n (Some c) s' (S pos)
      | O =>
          match match_here r prev s pos with
          | Some m => m :: finditer_from r (m_end m - pos - 1) (Some c) s' (S pos)
          | None => finditer_from r 0 (Some c) s' (S pos)
          end
      end
  end.

Definition finditer (r : regex) (text : string) : list found :=
  finditer_from r 0 None text 0.

End Re.

(** ** Structured-response recovery ([src/llm_utils.py]) *)

Module LlmUtils.
Import PyStr Eff Re.

Definition dq : ascii := ascii_of_nat 34.               (* the double quote *)
Definition bs : ascii := ascii_of_nat 92.               (* the backslash *)
Definition lf : ascii := ascii_of_nat 10.               (* '\n' *)
Definition cr : ascii := ascii_of_nat 13.               (* '\r' *)
Definition tab : ascii := ascii_of_nat 9.               (* '\t' *)

Definition chr (c : ascii) : string := String c EmptyString.

(** Texts with double quotes are written with apostrophes in this file:
    [quoted "{'id': 1}"] is the text [{"id": 1}]. *)
Fixpoint quoted (s : string) : string :=
  match s with
  | EmptyString => EmptyString
  | String c s' => String (if Ascii.eqb c "'"%char then dq else c) (quoted s')
  end.

(** The marker searched for in a response: the key [tikz_code] in double
    quotes, followed by a colon. *)
Definition TIKZ_KEY : string := quoted "'tikz_code':".

(** The field written back: the key, a colon, a space, and the content in
    double quotes. *)
Definition tikz_field (content : string) : string :=
  TIKZ_KEY +:+ " " +:+ chr dq +:+ content +:+ chr dq.

(** What the standard library and [json5] do is not part of the repository:
    the decoders and [repr] are parameters. A decoder returns the decoded
    value or the exception it raised. *)
Record Lib : Type := mkLib {
  json_loads : string -> result pyval;
  json5_loads : string -> result pyval;
  repr : string -> string
}.

(** How a call ends: with a value, with an exception, or not at all (the
    fuel given to its [while] loop runs out). *)
Inductive outcome (A : Type) : Type :=
| Done (a : A)
| Raised (e : exn)
| OutOfFuel.
Arguments Done {A} a.
Arguments Raised {A} e.
Arguments OutOfFuel {A}.

(** *** [clean_response_text] *)

Definition clean_char (char : ascii) : ascii :=
  if (code char <? 32)%N
     && negb (Ascii.eqb char lf || Ascii.eqb char tab || Ascii.eqb char cr)
  then " "%char else char.

Fixpoint clean_response_text (response_text : string) : string :=
  match response_text with
  | EmptyString => EmptyString
  | String char rest => String (clean_char char) (clean_response_text rest)
  end.

(** *** [extract_json_from_markdown] *)

Definition is_opening (char : ascii) : bool :=
  Ascii.eqb char "["%char || Ascii.eqb char "{"%char.
Definition is_closing (char : ascii) : bool :=
  Ascii.eqb char "]"%char || Ascii.eqb char "}"%char.

(** The loop [for i, char in enumerate(response_text[start_pos:], start_pos)]:
    the index [i] at which the bracket count returns to zero, if it does. *)
Fixpoint balanced_end (s : string) (i : nat) (brace_count : Z)
  (in_string escape_next : bool) : option nat :=
  match s with
  | EmptyString => None
  | String char rest =>
      if escape_next then balanced_end rest (S i) brace_count in_string false
      else if Ascii.eqb char bs && in_string
      then balanced_end rest (S i) brace_count in_string true
      else if Ascii.eqb char dq
      then balanced_end rest (S i) brace_count (negb in_string) false
      else if negb in_string
      then
        if is_opening char
        then balanced_end rest (S i) (brace_count + 1) in_string false
        else if is_closing char
        then if (brace_count - 1 =? 0)%Z then Some i
             else balanced_end rest (S i) (brace_count - 1) in_string false
        else balanced_end rest (S i) brace_count in_string false
      else balanced_end rest (S i) brace_count in_string false
  end.

(** An opening bracket, blanks, an opening brace; and an opening brace,
    blanks, a double quote. *)
Definition array_start : regex := Seq (Chr "["%char) (Seq (Star Space) (Chr "{"%char)).
Definition object_start : regex := Seq (Chr "{"%char) (Seq (Star Space) (Chr dq)).

(** The balanced span that starts at the leftmost match of [start]. *)
Definition balanced_span (start : regex) (response_text : string) : option string :=
  match search start response_text with
  | Some m =>
      let start_pos := m_start m in
      match balanced_end (drop start_pos response_text) start_pos 0 false false with
      | Some i => Some (strip (slice start_pos (i + 1) response_text))
      | None => None
      end
  | None => None
  end.

Definition fence : string := "```".

Definition extract_json_from_markdown (response_text : string) : string :=
  if contains "```json" response_text
  then strip (nth 0 (split fence (nth 1 (split "```json" response_text) "")) "")
  else if contains fence response_text
  then strip (nth 0 (split fence (nth 1 (split fence response_text) "")) "")
  else
    match balanced_span array_start response_text with
    | Some json => json
    | None =>
        match balanced_span object_start response_text with
        | Some json => json
        | None => strip response_text
        end
    end.

(** *** [fix_tikz_json_parsing] *)

(** A backslash, and a double quote, that no backslash precedes. *)
Definition lone_backslash : regex := Seq (NotAfter bs) (Chr bs).
Definition bare_quote : regex := Seq (NotAfter bs) (Chr dq).

(** The marker, blanks, and the quote that opens the field's content. *)
Definition tikz_open : regex := Lit TIKZ_KEY (Seq (Star Space) (Chr dq)).

(** The escaping applied to the content of a [tikz_code] field: backslashes
    that follow no backslash are doubled, then quotes, newlines, carriage
    returns and tabs are escaped. *)
Definition escape_tikz_content (tikz_content : string) : string :=
  let c1 := sub lone_backslash (chr bs +:+ chr bs) tikz_content in
  let c2 := replace (chr dq) (chr bs +:+ chr dq) c1 in
  let c3 := replace (chr lf) (chr bs +:+ "n") c2 in
  let c4 := replace (chr cr) (chr bs +:+ "r") c3 in
  replace (chr tab) (chr bs +:+ "t") c4.

(** The [while pos < len(text)] loop of [fix_single_tikz_field], one
    iteration per unit of fuel: the [end_pos] it leaves, or [None] when the
    fuel runs out. The branches for ['{'] and ['}'] change the brace count
    and leave [pos] where it is, as in the source. *)
Fixpoint scan_field_end (fuel : nat) (text : string) (pos : nat) (brace_count : Z)
  (in_escape : bool) : option nat :=
  match fuel with
  | O => None
  | S fuel' =>
      match String.get pos text with
      | None => Some (len text - 1)           (* the loop's else: end of text *)
      | Some char =>
          if Ascii.eqb char bs && negb in_escape
          then scan_field_end fuel' text (pos + 1) brace_count true
          else if Ascii.eqb char bs && in_escape
          then scan_field_end fuel' text (pos + 1) brace_count false
          else if Ascii.eqb char dq && negb in_escape
          then Some pos
          else if Ascii.eqb char "{"%char
          then scan_field_end fuel' text pos (brace_count + 1) in_escape
          else if Ascii.eqb char "}"%char
          then scan_field_end fuel' text pos (brace_count - 1) in_escape
          else if (brace_count =? 0)%Z
                  && (Ascii.eqb char ","%char || Ascii.eqb char "}"%char)
          then Some pos
          else scan_field_end fuel' text (pos + 1) brace_count in_escape
      end
  end.

(** [fix_single_tikz_field]; [None] when the fuel runs out. *)
Definition fix_single_tikz_field (fuel : nat) (text : string) : option string :=
  match search tikz_open text with
  | None => Some text
  | Some start_match =>
      let start_pos := m_end start_match in
      match scan_field_end fuel text start_pos 0 false with
      | None => None
      | Some end_pos =>
          let tikz_content := escape_tikz_content (slice start_pos end_pos text) in
          Some (take start_pos text +:+ tikz_field tikz_content
                +:+ drop (end_pos + 1) text)
      end
  end.

(** The loop [while TIKZ_KEY in fixed_response and iterations <
    max_iterations], with [remaining = max_iterations - iterations]. *)
Fixpoint fix_loop (remaining : nat) (fuel : nat) (fixed_response : string)
  : option string :=
  match remaining with
  | O => Some fixed_response
  | S remaining' =>
      if contains TIKZ_KEY fixed_response
      then match fix_single_tikz_field fuel fixed_response with
           | None => None
           | Some new_response =>
               if String.eqb new_response fixed_response
               then Some fixed_response
               else fix_loop remaining' fuel new_response
           end
      else Some fixed_response
  end.

Definition fix_tikz_json_parsing (fuel : nat) (response_text : string) : option string :=
  if negb (contains TIKZ_KEY response_text)
  then Some response_text
  else fix_loop 10 fuel response_text.

(** *** [manually_fix_tikz_quotes] *)

(** The marker, blanks, and a quoted content (group 1) in which a backslash
    takes the next character with it. *)
Definition tikz_escaped_field : regex :=
  Lit TIKZ_KEY
    (Seq (Star Space)
       (Seq (Chr dq)
          (Seq (Group 1 (Seq (Star (Not dq))
                           (Star (Seq (Chr bs) (Seq Any (Star (Not dq)))))))
             (Chr dq)))).

(** [re.sub(r'(?<!\\)QUOTE', r'\\QUOTE', s)] *)
Definition escape_bare_quotes (s : string) : string :=
  sub bare_quote (chr bs +:+ chr dq) s.

Definition fix_tikz_match (text : string) (m : found) : string :=
  tikz_field (escape_bare_quotes (group text m 1)).

(** [s.endswith(suffix)] *)
Definition endswith (suffix s : string) : bool :=
  (len suffix <=? len s)%nat && String.eqb (drop (len s - len suffix) s) suffix.

(** [s.rstrip(chars)], the characters to strip given as a test. *)
Fixpoint rstrip_chars (p : ascii -> bool) (s : string) : string :=
  match s with
  | EmptyString => EmptyString
  | String c s' =>
      match rstrip_chars p s' with
      | EmptyString => if p c then EmptyString else String c EmptyString
      | r => String c r
      end
  end.

Definition quote_comma : string := chr dq +:+ ",".
Definition quote_or_comma (c : ascii) : bool := Ascii.eqb c dq || Ascii.eqb c ","%char.

(** The line-by-line pass taken when the substitution changed nothing. *)
Fixpoint fix_lines (in_tikz : bool) (lines : list string) : list string :=
  match lines with
  | [] => []
  | line :: rest =>
      if contains TIKZ_KEY line then line :: fix_lines true rest
      else if in_tikz && endswith quote_comma (strip line)
      then (escape_bare_quotes (rstrip_chars quote_or_comma line) +:+ quote_comma)
             :: fix_lines false rest
      else if in_tikz then escape_bare_quotes line :: fix_lines in_tikz rest
      else line :: fix_lines in_tikz rest
  end.

Definition manually_fix_tikz_quotes (response_text : string) : string :=
  let fixed := sub_with tikz_escaped_field fix_tikz_match response_text in
  if String.eqb fixed response_text
  then join (chr lf) (fix_lines false (split (chr lf) response_text))
  else fixed.

(** *** [extract_simple_kv_pairs] *)

(** A quoted key (group 1), a colon, a quoted value (group 2). *)
Definition kv_pattern : regex :=
  Seq (Chr dq)
    (Seq (Group 1 (Plus (Not dq)))
       (Seq (Chr dq)
          (Seq (Star Space)
             (Seq (Chr ":"%char)
                (Seq (Star Space)
                   (Seq (Chr dq) (Seq (Group 2 (Star (Not dq))) (Chr dq)))))))).

(** [value.replace('\\QUOTE', 'QUOTE').replace('\\\\', '\\')] *)
Definition unescape (value : string) : string :=
  replace (chr bs +:+ chr bs) (chr bs) (replace (chr bs +:+ chr dq) (chr dq) value).

(** [text.find(sub, start)] *)
Definition find_at (sub : string) (start : nat) (text : string) : option nat :=
  (fun i => start + i) <$> find sub (drop start text).

Definition has_key (key : string) (d : list (string * string)) : bool :=
  existsb (fun kv => String.eqb (fst kv) key) d.

(** The special handling of [tikz_code]: the content is read between the
    first two quotes found from the marker on. *)
Definition manual_tikz_content (text : string) : option string :=
  match find TIKZ_KEY text with
  | None => None
  | Some tikz_start =>
      match find_at (chr dq) tikz_start text with
      | None => None
      | Some content_start =>
          match find_at (chr dq) (content_start + 1) text with
          | None => None
          | Some content_end =>
              let tikz_content := slice (content_start + 1) content_end text in
              let clean_tikz := unescape tikz_content in
              Some (replace (chr cr) (chr bs +:+ "r")
                      (replace (chr lf) (chr bs +:+ "n") clean_tikz))
          end
      end
  end.

(** [None] stands for Python's [None], returned for an empty result. *)
Definition extract_simple_kv_pairs (text : string) : option (list (string * string)) :=
  let result :=
    fold_left
      (fun result m => Renderer.dict_set (group text m 1) (unescape (group text m 2)) result)
      (finditer kv_pattern text) [] in
  let result :=
    if contains "tikz_code" text && negb (has_key "tikz_code" result)
    then match manual_tikz_content text with
         | Some clean_tikz => Renderer.dict_set "tikz_code" clean_tikz result
         | None => result
         end
    else result in
  match result with
  | [] => None
  | _ => Some result
  end.

Definition dict_value (d : list (string * string)) : pyval :=
  PDict (map (fun kv => (fst kv, PStr (snd kv))) d).

(** *** [reconstruct_json_from_partial] *)

(** The positions of the opening braces of [s], which starts at [pos]. *)
Fixpoint object_starts (s : string) (pos : nat) : list nat :=
  match s with
  | EmptyString => []
  | String c s' =>
      if Ascii.eqb c "{"%char then pos :: object_starts s' (S pos)
      else object_starts s' (S pos)
  end.

(** The loop [while end_pos < len(response_text)] that looks for the end of
    an object: [Some end_pos] when it breaks, [None] when it reaches the end
    of the text. A quote closes a string whether or not a backslash precedes
    it: both branches of the source's test clear [in_string]. *)
Fixpoint object_end (s : string) (end_pos : nat) (brace_count : Z) (in_string : bool)
  : option nat :=
  match s with
  | EmptyString => None
  | String char rest =>
      if Ascii.eqb char dq && negb in_string
      then object_end rest (S end_pos) brace_count true
      else if Ascii.eqb char dq && in_string
      then object_end rest (S end_pos) brace_count false
      else if Ascii.eqb char "{"%char && negb in_string
      then object_end rest (S end_pos) (brace_count + 1) in_string
      else if Ascii.eqb char "}"%char && negb in_string
      then if (brace_count - 1 =? 0)%Z then Some end_pos
           else object_end rest (S end_pos) (brace_count - 1) in_string
      else object_end rest (S end_pos) brace_count in_string
  end.

(** The marker, blanks, and a quoted content without quotes (group 1). *)
Definition tikz_pattern : regex :=
  Lit TIKZ_KEY
    (Seq (Star Space) (Seq (Chr dq) (Seq (Group 1 (Star (Not dq))) (Chr dq)))).

Definition replace_tikz_match (text : string) (m : found) : string :=
  tikz_field (escape_tikz_content (group text m 1)).

(** A comma, blanks, a closing brace; a closing brace, blanks, an opening
    brace; four backslashes; a comma, blanks, a closing bracket; and a
    bracketed span as long as can be. *)
Definition trailing_comma_brace : regex :=
  Seq (Chr ","%char) (Seq (Star Space) (Chr "}"%char)).
Definition adjacent_objects : regex :=
  Seq (Chr "}"%char) (Seq (Star Space) (Chr "{"%char)).
Definition four_backslashes : regex :=
  Seq (Chr bs) (Seq (Chr bs) (Seq (Chr bs) (Chr bs))).
Definition trailing_comma_bracket : regex :=
  Seq (Chr ","%char) (Seq (Star Space) (Chr "]"%char)).
Definition bracketed : regex :=
  Seq (Chr "["%char) (Seq (Star Any) (Chr "]"%char)).

Definition fix_object (obj_text : string) : string :=
  let fixed_obj := sub_with tikz_pattern replace_tikz_match obj_text in
  let fixed_obj := sub trailing_comma_brace "}" fixed_obj in
  let fixed_obj := sub adjacent_objects "},{" fixed_obj in
  let fixed_obj := escape_bare_quotes fixed_obj in
  sub four_backslashes (chr bs +:+ chr bs) fixed_obj.

Definition fix_array (array_text : string) : string :=
  let fixed_array := sub_with tikz_pattern replace_tikz_match array_text in
  let fixed_array := escape_bare_quotes fixed_array in
  let fixed_array := sub trailing_comma_bracket "]" fixed_array in
  sub four_backslashes (chr bs +:+ chr bs) fixed_array.

Section WithLib.
Variable L : Lib.

(** What the body of [for i, start_pos in enumerate(object_starts)] appends
    to [objects]. *)
Definition reconstruct_object (response_text : string) (start_pos : nat) : list pyval :=
  match object_end (drop (start_pos + 1) response_text) (start_pos + 1) 1 false with
  | None => []
  | Some end_pos =>
      let obj_text := slice start_pos (end_pos + 1) response_text in
      match json5_loads L (fix_object obj_text) with
      | Ok obj => [obj]
      | Err _ =>
          match extract_simple_kv_pairs obj_text with
          | Some simple_obj => [dict_value simple_obj]
          | None => []
          end
      end
  end.

Definition reconstruct_json_from_partial (response_text : string) : result pyval :=
  let objects :=
    flat_map (reconstruct_object response_text) (object_starts response_text 0) in
  let failed :=
    Err (mkExn ValueError "Failed to reconstruct any valid JSON from response") in
  match objects with
  | _ :: _ => Ok (PList objects)
  | [] =>
      match search bracketed response_text with
      | Some array_match =>
          match json5_loads L (fix_array (whole response_text array_match)) with
          | Ok result => Ok result
          | Err _ => failed
          end
      | None => failed
      end
  end.

(** *** [parse_json_response] *)

Definition is_json_decode_error (e : exn) : bool :=
  match exn_cls e with
  | JSONDecodeError => true
  | _ => false
  end.

(** The strategies after the pre-pass, on its result [response_text]. The
    first component lists the records written at level ERROR; records at
    level DEBUG are left out. *)
Definition parse_strategies (response_text : string) : list string * outcome pyval :=
  match json_loads L response_text with
  | Ok data => ([], Done data)
  | Err e =>
      if is_json_decode_error e
      then
        match json5_loads L response_text with
        | Ok data => ([], Done data)
        | Err _ =>
            match json5_loads L
                    (extract_json_from_markdown (clean_response_text response_text)) with
            | Ok data => ([], Done data)
            | Err _ =>
                match json5_loads L (manually_fix_tikz_quotes response_text) with
                | Ok data => ([], Done data)
                | Err _ =>
                    match reconstruct_json_from_partial response_text with
                    | Ok data => ([], Done data)
                    | Err _ =>
                        (["Failed to parse response. Raw content: "
                            +:+ repr L (take 500 response_text)],
                         Raised (mkExn ValueError
                                   ("Invalid JSON response from LLM: " +:+ exn_msg e)))
                    end
                end
            end
        end
      else ([], Raised e)
  end.

Definition parse_json_response (fuel : nat) (response_text : string)
  : list string * outcome pyval :=
  match strip response_text with
  | EmptyString => ([], Raised (mkExn ValueError "Empty response from LLM"))
  | _ =>
      match fix_tikz_json_parsing fuel response_text with
      | None => ([], OutOfFuel)
      | Some fixed_response => parse_strategies fixed_response
      end
  end.

(** *** [process_llm_response] *)

Definition process_llm_response (fuel : nat) (response_text : string)
  : list string * outcome pyval :=
  parse_json_response fuel
    (extract_json_from_markdown (clean_response_text response_text)).

End WithLib.

(** *** [escape_backslashes] *)

(** [str.isalpha] on one ASCII character. *)
Definition isalpha (c : ascii) : bool :=
  let n := code c in
  (((65 <=? n) && (n <=? 90)) || ((97 <=? n) && (n <=? 122)))%N.

(** The characters after which a backslash makes a JSON escape: the double
    quote, the backslash, the slash and the letters b, f, n, r, u. *)
Definition json_escapes : list ascii :=
  [dq; bs; "/"%char; "b"%char; "f"%char; "n"%char; "r"%char; "u"%char].

(** The loop [while i < len(text)] advances by one character in each of its
    branches; [rest] is [text[i+1:]], so [i + 1 < len(text)] says that
    [rest] is not empty. *)
Fixpoint escape_backslashes (text : string) : string :=
  match text with
  | EmptyString => EmptyString
  | String c rest =>
      match rest with
      | String next_char _ =>
          if Ascii.eqb c bs
          then
            if isalpha next_char
            then chr bs +:+ chr bs +:+ escape_backslashes rest
            else if existsb (Ascii.eqb next_char) json_escapes
            then chr bs +:+ chr bs +:+ escape_backslashes rest
            else chr bs +:+ chr bs +:+ escape_backslashes rest
          else String c (escape_backslashes rest)
      | EmptyString => String c EmptyString
      end
  end.

(** The pairs [extract_simple_kv_pairs] reads with its pattern, before the
    special handling of [tikz_code]. *)
Definition kv_pairs (text : string) : list (string * string) :=
  fold_left
    (fun result m => Renderer.dict_set (group text m 1) (unescape (group text m 2)) result)
    (finditer kv_pattern text) [].

End LlmUtils.

(** ** Recorded library behaviour for the response examples *)

Module Responses.
Import PyStr Eff LlmUtils.

(** An array of two records, and what [json.loads] decodes it to. *)
Definition two_records : string := quoted "[{'id': 1}, {'id': 2}]".
Definition two_records_value : pyval :=
  PList [PDict [("id", PInt 1)]; PDict [("id", PInt 2)]].

(** An array of one record whose diagram source is an opening brace. *)
Definition brace_field : string := quoted "[{'tikz_code': '{'}]".
Definition brace_field_value : pyval := PList [PDict [("tikz_code", PStr "{")]].

(** An array of one record whose diagram source is the text abc. *)
Definition plain_field : string := quoted "[{'tikz_code': 'abc'}]".

(** What [json.loads] and [json5.loads] raise on a text that starts with the
    letter h. *)
Definition expecting_value : exn :=
  mkExn JSONDecodeError "Expecting value: line 1 column 1 (char 0)".
Definition unexpected_h : exn :=
  mkExn ValueError (quoted "<string>:1 Unexpected 'h' at column 1").

(** [repr] of a text without quotes, backslashes or control characters. *)
Definition plain_repr (s : string) : string := "'" +:+ s +:+ "'".

(** The decoders on the texts of the examples; no other text is decoded in
    them. *)
Definition recorded : Lib :=
  mkLib
    (fun s =>
       if String.eqb s two_records then Ok two_records_value
       else if String.eqb s brace_field then Ok brace_field_value
       else Err expecting_value)
    (fun s =>
       if String.eqb s two_records then Ok two_records_value
       else if String.eqb s brace_field then Ok brace_field_value
       else Err unexpected_h)
    plain_repr.

End Responses.

(** A call failed: it raised. *)
Definition failed {A} (r : Eff.result A) : bool :=
  match r with
  | Eff.Ok _ => false
  | Eff.Err _ => true
  end.

(** [len(data)] of a decoded array. *)
Definition record_count (data : pyval) : option nat :=
  match data with
  | PList items => Some (length items)
  | _ => None
  end.

(** What the tasks handed back, in completion order: the task of position
    [idx] gives the pair of [idx] and a diagram of the [idx]-th question. *)
Definition completed (qs : list Schemas.QuestionInstance) (idx : nat)
  (r : option (nat * Schemas.RenderedDiagram)) : Prop :=
  match qs !! idx with
  | Some q => exists d, r = Some (idx, d) /\ Schemas.rd_tikz_code d = Schemas.tikz_code q
  | None => r = None
  end.

(** A number too long for the decoder: since Python 3.11 [json.loads] gives
    up on an integer of more than 4300 digits with a plain [ValueError],
    which is no [JSONDecodeError]. *)
Module Digits.
Import Eff LlmUtils.

Fixpoint ones (n : nat) : string :=
  match n with
  | O => EmptyString
  | S n' => String "1"%char (ones n')
  end.

Definition long_number : string := ones (N.to_nat 4301).

Definition digits_error : exn :=
  mkExn ValueError
    ("Exceeds the limit (4300 digits) for integer string conversion: "
     +:+ "value has 4301 digits; use sys.set_int_max_str_digits() to increase the limit").

Definition recorded : Lib :=
  mkLib (fun _ => Err digits_error) (fun _ => Err digits_error)
        Responses.plain_repr.

End Digits.

(** A control character other than the line feed, the tab and the carriage
    return: what [clean_response_text] replaces. *)
Definition is_stray_control (c : ascii) : bool :=
  (PyStr.code c <? 32)%N
  && negb (Ascii.eqb c LlmUtils.lf || Ascii.eqb c LlmUtils.tab || Ascii.eqb c LlmUtils.cr).

(** Some character of the text satisfies the test. *)
Fixpoint any_char (p : ascii -> bool) (s : string) : bool :=
  match s with
  | EmptyString => false
  | String c s' => p c || any_char p s'
  end.

(** ** The other validators ([src/tikz_renderer.py], [src/validator.py],
       [src/llm_questions.py]) *)

(** [FORBIDDEN_TIKZ_PATTERNS] of [src/config.py] *)
Definition FORBIDDEN_TIKZ_PATTERNS : list string :=
  ["import"; "require"; "usepackage"; "usetikzlibrary"; "documentclass";
   "begin{document}"; "tikzset"; "external"].

(** [f"{x}"] of an optional message. *)
Definition str_optional (m : option string) : string :=
  match m with
  | Some s => s
  | None => "None"
  end.

Module TikZValidator.
Import PyStr Renderer.

(** [TikZValidator.validate] of [src/tikz_renderer.py]: the deny-list is
    looked up before the braces are counted, each pattern lower-cased. *)
Definition validate (tikz_code : string) : bool * option string :=
  if empty_or_too_short tikz_code
  then (false, Some "TikZ code is empty or too short")
  else
    let code_lower := lower tikz_code in
    match List.find (fun pattern => contains (lower pattern) code_lower)
                    FORBIDDEN_TIKZ_PATTERNS with
    | Some pattern => (false, Some ("Forbidden pattern detected: " +:+ pattern))
    | None =>
        if negb (count "{"%char tikz_code =? count "}"%char tikz_code)%nat
        then (false, Some "Mismatched braces in TikZ code")
        else (true, None)
    end.

End TikZValidator.

Module QuestionValidator.
Import PyStr Schemas.

(** [not s or len(s.strip()) < n] *)
Definition missing (s : string) (n : nat) : bool :=
  (len s =? 0)%nat || (len (strip s) <? n)%nat.

(** [QuestionValidator.validate_instance]. The variables of a question are
    a dictionary by their type, so the [isinstance] branch is not taken; the
    last loop of the source only logs. *)
Definition validate_instance (question : QuestionInstance) : bool * list string :=
  let errors := [] in
  let errors :=
    if missing (question_text question) 10
    then errors ++ ["question_text is empty or too short"] else errors in
  let errors :=
    if missing (correct_answer question) 1
    then errors ++ ["correct_answer is empty"] else errors in
  let errors :=
    if (size (variables question) =? 0)%nat
    then errors ++ ["variables dictionary is empty"] else errors in
  let '(tikz_valid, tikz_error) := TikZValidator.validate (tikz_code question) in
  let errors :=
    if negb tikz_valid
    then errors ++ ["TikZ validation failed: " +:+ str_optional tikz_error] else errors in
  ((length errors =? 0)%nat, errors).

(** The body of the loop of [validate_set] for the question at position
    [i]: the errors it appends, given the instance ids seen so far. *)
Definition instance_errors (set_pattern_id : Z) (instance_ids : gset Z) (i : nat)
  (question : QuestionInstance) : list string :=
  (if bool_decide (instance_id question ∈ instance_ids)
   then ["Duplicate instance_id: " +:+ pretty (instance_id question)] else [])
  ++ (if negb (q_pattern_id question =? set_pattern_id)%Z
      then ["Instance " +:+ pretty i +:+ ": pattern_id mismatch ("
            +:+ pretty (q_pattern_id question) +:+ " vs " +:+ pretty set_pattern_id +:+ ")"]
      else [])
  ++ (let '(valid, q_errors) := validate_instance question in
      if negb valid
      then map (fun err => "Instance " +:+ pretty i +:+ ": " +:+ err) q_errors
      else []).

(** [for i, question in enumerate(question_set.questions)], from [i]. *)
Fixpoint set_errors (set_pattern_id : Z) (instance_ids : gset Z) (i : nat)
  (qs : list QuestionInstance) : list string :=
  match qs with
  | [] => []
  | question :: rest =>
      instance_errors set_pattern_id instance_ids i question
      ++ set_errors set_pattern_id ({[instance_id question]} ∪ instance_ids) (S i) rest
  end.

(** [QuestionValidator.validate_set] *)
Definition validate_set (question_set : QuestionSet) : bool * list string :=
  let errors :=
    (if negb (length (questions question_set) =? 10)%nat
     then ["Expected 10 questions, got " +:+ pretty (length (questions question_set))]
     else [])
    ++ set_errors (qs_pattern_id question_set) ∅ 0 (questions question_set) in
  ((length errors =? 0)%nat, errors).

End QuestionValidator.

(** [SolvabilityChecker.check_set]: the dictionary from instance id to the
    answer of [check]. *)
Definition check_set (question_set : Schemas.QuestionSet) : gmap Z (string * option string) :=
  foldl (fun results question =>
           <[Schemas.instance_id question := SolvabilityChecker.check question]> results)
        ∅ (Schemas.questions question_set).

Module ConsistencyChecker.

(** [ConsistencyChecker.check_variable_consistency]. The two dictionaries
    enter as the sequences of their keys, in insertion order: the function
    reads nothing else of them. *)
Definition check_variable_consistency (question_variables pattern_variables : list string)
  : list string :=
  map (fun var_name => "Variable '" +:+ var_name +:+ "' not defined in pattern")
      (List.filter (fun var_name => negb (bool_decide (var_name ∈ pattern_variables)))
                   question_variables)
  ++ map (fun var_name => "Pattern variable '" +:+ var_name +:+ "' not instantiated")
         (List.filter (fun var_name => negb (bool_decide (var_name ∈ question_variables)))
                      pattern_variables).

End ConsistencyChecker.

Module QuestionGenerator.
Import PyStr Schemas QuestionValidator.

(** The body of the loop of [validate_questions]. *)
Definition question_errors (set_pattern_id : Z) (instance_ids : gset Z)
  (question : QuestionInstance) : list string :=
  let label := "Instance " +:+ pretty (instance_id question) in
  (if bool_decide (instance_id question ∈ instance_ids)
   then ["Duplicate instance_id: " +:+ pretty (instance_id question)] else [])
  ++ (if negb (q_pattern_id question =? set_pattern_id)%Z
      then [label +:+ ": pattern_id mismatch ("
            +:+ pretty (q_pattern_id question) +:+ " vs " +:+ pretty set_pattern_id +:+ ")"]
      else [])
  ++ (if missing (question_text question) 10
      then [label +:+ ": question_text too short"] else [])
  ++ (if missing (correct_answer question) 1
      then [label +:+ ": correct_answer is empty"] else [])
  ++ (if missing (tikz_code question) 5
      then [label +:+ ": tikz_code too short"] else []).

Fixpoint loop_errors (set_pattern_id : Z) (instance_ids : gset Z)
  (qs : list QuestionInstance) : list string :=
  match qs with
  | [] => []
  | question :: rest =>
      question_errors set_pattern_id instance_ids question
      ++ loop_errors set_pattern_id ({[instance_id question]} ∪ instance_ids) rest
  end.

(** [QuestionGenerator.validate_questions] of [src/llm_questions.py] *)
Definition validate_questions (question_set : QuestionSet) : list string :=
  (if negb (Z.of_nat (length (questions question_set)) =? Pipeline.QUESTIONS_PER_PATTERN)%Z
   then ["Expected " +:+ pretty Pipeline.QUESTIONS_PER_PATTERN +:+ " questions, got "
         +:+ pretty (length (questions question_set))]
   else [])
  ++ loop_errors (qs_pattern_id question_set) ∅ (questions question_set).

End QuestionGenerator.

(** A question set that passes every validator: ten questions on circles. *)
Module ValidSet.
Import Schemas.

Definition circle (i : Z) : QuestionInstance :=
  mkQuestion i 3 "Geometry"
    ("Find the area of a circle of radius " +:+ pretty (i + 1)%Z +:+ " cm.")
    (pretty ((i + 1) * (i + 1))%Z +:+ " pi")
    ("\draw (0,0) circle (" +:+ pretty (i + 1)%Z +:+ ");")
    "easy" "pending" {[ "radius" := PInt (i + 1)%Z ]}.

Definition circles : QuestionSet :=
  mkQuestionSet 3 "Area of a circle" (map circle [0; 1; 2; 3; 4; 5; 6; 7; 8; 9]%Z)
    "Geometry".

End ValidSet.

(** ** Counting the runs of the external compiler *)

(** [invokes_at_most n p]: whatever the environment answers, the block [p]
    calls the external compiler at most [n] times. *)
Inductive invokes_at_most {A : Type} : nat -> Eff.prog A -> Prop :=
| invokes_ret (n : nat) (a : A) : invokes_at_most n (Eff.Ret a)
| invokes_other (n : nat) (X : Type) (ev : Eff.Event X) (k : X -> Eff.prog A) :
    (forall x, Eff.is_tectonic_call (Eff.Answered X ev x) = false) ->
    (forall x, invokes_at_most n (k x)) ->
    invokes_at_most n (Eff.Vis ev k)
| invokes_compiler (n : nat) (X : Type) (ev : Eff.Event X) (k : X -> Eff.prog A) :
    (forall x, invokes_at_most n (k x)) ->
    invokes_at_most (S n) (Eff.Vis ev k).

(** The same for a Python block, from every state of its locals. *)
Definition costs {St A : Type} (n : nat) (m : Eff.py St A) : Prop :=
  forall s : St, invokes_at_most n (m s).

(** What [render] keeps of the record it starts from: the output path and
    the source it was called with, and as completed steps a prefix of the
    five step names with at least the first two. *)
Definition kept (tikz_code output_png : string) (md : Renderer.RenderMetadata) : Prop :=
  Renderer.output_png md = output_png /\
  Renderer.md_tikz_code md = tikz_code /\
  Renderer.steps_completed md `prefix_of` all_steps /\
  2 <= length (Renderer.steps_completed md).

(** * Properties *)

(** ** Solvability heuristic *)

Section SolvabilityFacts.
Import PyStr Schemas SolvabilityChecker.



End SolvabilityFacts.

Section SolvabilityStatus.
Import PyStr Schemas SolvabilityChecker.

Lemma check_invalid_or_valid (q : QuestionInstance) :
  fst (check q) = "invalid" \/ fst (check q) = "valid".
Proof.
  unfold check.
  repeat match goal with
         | |- context [if ?b then _ else _] => destruct b
         end; simpl; auto.
Qed.




End SolvabilityStatus.

(** ** Reasoning about blocks *)

Section EffFacts.
Import Eff.

Lemma always_mono {A} (P Q : A -> Prop) (p : prog A) :
  (forall a, P a -> Q a) -> always P p -> always Q p.
Proof.
  intros HPQ H. induction H as [a Ha | X ev k _ IH]; constructor; auto.
Qed.

Lemma always_pbind {A B} (Q : B -> Prop) (p : prog A) (f : A -> prog B) :
  always (fun a => always Q (f a)) p -> always Q (pbind p f).
Proof.
  intros H. induction H as [a Ha | X ev k _ IH]; simpl; [exact Ha |].
  constructor. exact IH.
Qed.

Lemma always_exec {A W} (Q : A -> Prop) (p : prog A) (h : handler W) (w : W) :
  always Q p -> Q (exec h p w).1.1.
Proof.
  intros H. revert w. induction H as [a Ha | X ev k _ IH]; intros w; simpl; [exact Ha |].
  destruct (h X ev w) as [x w1]. specialize (IH x w1).
  destruct (exec h (k x) w1) as [[a w2] tr]. exact IH.
Qed.

Lemma exec_pbind {A B W} (h : handler W) (p : prog A) (f : A -> prog B) (w : W) :
  exec h (pbind p f) w =
  let '(a, w1, tr1) := exec h p w in
  let '(b, w2, tr2) := exec h (f a) w1 in
  (b, w2, tr1 ++ tr2).
Proof.
  revert w. induction p as [a | X ev k IH]; intros w; simpl.
  - destruct (exec h (f a) w) as [[b w2] tr2]. reflexivity.
  - destruct (h X ev w) as [x w1]. rewrite IH.
    destruct (exec h (k x) w1) as [[a w2] tr1].
    destruct (exec h (f a) w2) as [[b w3] tr2]. reflexivity.
Qed.

Lemma post_mono {St A} (m : py St A) s (P Q : St -> result A -> Prop) :
  (forall s' r, P s' r -> Q s' r) -> post m s P -> post m s Q.
Proof. intros H. apply always_mono. intros [s' r]. apply H. Qed.

Lemma post_ret {St A} (a : A) (s : St) Q : Q s (Ok a) -> post (ret a) s Q.
Proof. intros H. constructor. exact H. Qed.

Lemma post_raise {St A} (e : exn) (s : St) (Q : St -> result A -> Prop) :
  Q s (Err e) -> post (raise e) s Q.
Proof. intros H. constructor. exact H. Qed.

Lemma post_get {St} (s : St) Q : Q s (Ok s) -> post get s Q.
Proof. intros H. constructor. exact H. Qed.

Lemma post_modify {St} (f : St -> St) (s : St) Q : Q (f s) (Ok tt) -> post (modify f) s Q.
Proof. intros H. constructor. exact H. Qed.

Lemma post_call {St X} (ev : Event (result X)) (s : St) Q :
  (forall r, Q s r) -> post (call ev) s Q.
Proof. intros H. constructor. intros r. constructor. apply H. Qed.

Lemma post_trigger {St X} (ev : Event X) (s : St) Q :
  (forall x, Q s (Ok x)) -> post (trigger ev) s Q.
Proof. intros H. constructor. intros x. constructor. apply H. Qed.

Lemma post_bind {St A B} (m : py St A) (f : A -> py St B) s Q :
  post m s (fun s' r => match r with
                        | Ok a => post (f a) s' Q
                        | Err e => Q s' (Err e)
                        end) ->
  post (bind m f) s Q.
Proof.
  intros H. unfold post, bind. apply always_pbind.
  eapply always_mono; [| exact H]. intros [s' [a|e]]; simpl; intros Ha.
  - exact Ha.
  - constructor. exact Ha.
Qed.

Lemma post_try_except {St A} (body : py St A) (handler : exn -> py St A) s Q :
  post body s (fun s' r => match r with
                           | Ok a => Q s' (Ok a)
                           | Err e => post (handler e) s' Q
                           end) ->
  post (try_except body handler) s Q.
Proof.
  intros H. unfold post, try_except. apply always_pbind.
  eapply always_mono; [| exact H]. intros [s' [a|e]]; simpl; intros Ha.
  - constructor. exact Ha.
  - exact Ha.
Qed.

Lemma post_try_finally {St A} (body : py St A) (fin : py St unit) s Q :
  post body s (fun s' r =>
    post fin s' (fun s'' r' => match r' with
                               | Ok _ => Q s'' r
                               | Err e' => Q s'' (Err e')
                               end)) ->
  post (try_finally body fin) s Q.
Proof.
  intros H. unfold post, try_finally. apply always_pbind.
  eapply always_mono; [| exact H]. intros [s' r]; simpl; intros Ha.
  apply always_pbind. eapply always_mono; [| exact Ha].
  intros [s'' [[]|e']]; simpl; intros Hb; constructor; exact Hb.
Qed.

Lemma post_scope {St T A} (init : T) (body : py T A) (s : St) Q :
  post body init (fun t r => match r with
                             | Ok a => Q s (Ok (t, a))
                             | Err e => Q s (Err e)
                             end) ->
  post (scope init body) s Q.
Proof.
  intros H. unfold post, scope. apply always_pbind.
  eapply always_mono; [| exact H]. intros [t [a|e]]; simpl; intros Ha;
    constructor; exact Ha.
Qed.

Lemma post_when {St} (b : bool) (m : py St unit) s Q :
  (b = true -> post m s Q) -> (b = false -> Q s (Ok tt)) -> post (when b m) s Q.
Proof.
  destruct b; simpl; intros H1 H2; [apply H1 | apply post_ret, H2]; reflexivity.
Qed.

Lemma safe_post {St A} (m : py St A) :
  safe m <-> forall s, post m s (fun _ r => exists a, r = Ok a).
Proof. reflexivity. Qed.

Lemma safe_ret {St A} (a : A) : safe (ret (St:=St) a).
Proof. intros s. apply post_ret. eauto. Qed.

Lemma safe_modify {St} (f : St -> St) : safe (modify f).
Proof. intros s. apply post_modify. eauto. Qed.

Lemma safe_get {St} : safe (get (St:=St)).
Proof. intros s. apply post_get. eauto. Qed.

Lemma safe_trigger {St X} (ev : Event X) : safe (trigger (St:=St) ev).
Proof. intros s. apply post_trigger. eauto. Qed.

Lemma safe_bind {St A B} (m : py St A) (f : A -> py St B) :
  safe m -> (forall a, safe (f a)) -> safe (bind m f).
Proof.
  intros Hm Hf s. apply post_bind. eapply post_mono; [| apply Hm].
  intros s' r [a ->]. apply Hf.
Qed.

Lemma safe_when {St} (b : bool) (m : py St unit) : safe m -> safe (when b m).
Proof. intros H. destruct b; [exact H | apply safe_ret]. Qed.

(** [try: ... except Exception] with a handler that does not raise is safe,
    whatever the body does. *)
Lemma safe_try_except {St A} (body : py St A) (handler : exn -> py St A) :
  (forall e, safe (handler e)) -> safe (try_except body handler).
Proof.
  intros Hh s. apply post_try_except.
  assert (H : always (fun _ => True) (body s)).
  { generalize (body s). intros p. induction p; constructor; auto. }
  eapply always_mono; [| exact H]. intros [s' [a|e]] _; simpl; [eauto | apply Hh].
Qed.

Lemma safe_try_finally {St A} (body : py St A) (fin : py St unit) :
  safe body -> safe fin -> safe (try_finally body fin).
Proof.
  intros Hb Hf s. apply post_try_finally. eapply post_mono; [| apply Hb].
  intros s' r [a ->]. eapply post_mono; [| apply Hf].
  intros s'' r' [[] ->]. eauto.
Qed.

Lemma safe_scope {St T A} (init : T) (body : py T A) :
  safe body -> safe (scope (St:=St) init body).
Proof.
  intros Hb s. apply post_scope. eapply post_mono; [| apply Hb].
  intros t r [a ->]. eauto.
Qed.

Lemma safe_for_range {St A} (n attempt : nat) (body : nat -> py St (option A)) :
  (forall i, safe (body i)) -> safe (for_range n attempt body).
Proof.
  intros Hb. revert attempt. induction n as [|n IH]; intros attempt; simpl.
  - apply safe_ret.
  - apply safe_bind; [apply Hb |]. intros [a|]; [apply safe_ret | apply IH].
Qed.

Lemma safe_for_each {St X} (l : list X) (body : X -> py St unit) :
  (forall x, safe (body x)) -> safe (for_each l body).
Proof.
  intros Hb. induction l as [|x l IH]; simpl; [apply safe_ret |].
  apply safe_bind; [apply Hb | intros _; exact IH].
Qed.

End EffFacts.

(** ** Diagram compiler: no step raises *)

Section RendererSafety.
Import PyStr Schemas Eff Renderer.
Variable clean : string -> string.
Variable format_mb : Z -> string.

Ltac safety :=
  repeat first
    [ apply safe_ret | apply safe_modify | apply safe_get | apply safe_trigger
    | apply safe_when | apply safe_try_except | apply safe_for_range
    | apply safe_for_each | apply safe_scope
    | apply safe_bind | intro ].

Lemma backoff_safe {St} (self : RobustTikZRenderer) (attempt : nat) (unit_ms : Z) :
  safe (backoff (St:=St) self attempt unit_ms).
Proof. unfold backoff. safety. Qed.

Lemma append_error_safe (msg : string) : safe (append_error msg).
Proof. unfold append_error. safety. Qed.

Lemma convert_error_safe (msg : string) : safe (convert_error msg).
Proof. unfold convert_error. safety. Qed.

Lemma write_standalone_tex_file_safe (self : RobustTikZRenderer) (tikz_code : string) :
  safe (_write_standalone_tex_file self tikz_code).
Proof.
  unfold _write_standalone_tex_file.
  apply safe_for_range. intros attempt. unfold write_attempt.
  apply safe_try_except. intros e.
  apply safe_bind; [apply append_error_safe | intros _].
  apply safe_bind; [apply backoff_safe | intros _]. apply safe_ret.
Qed.

Lemma compile_with_tectonic_safe (self : RobustTikZRenderer) (tex_file : Path) :
  safe (_compile_with_tectonic self tex_file).
Proof.
  unfold _compile_with_tectonic.
  apply safe_for_range. intros attempt. unfold compile_attempt.
  apply safe_try_except. intros e.
  destruct (exn_cls e);
    (apply safe_bind; [apply append_error_safe | intros _];
     apply safe_bind; [apply backoff_safe | intros _]; apply safe_ret).
Qed.

Lemma close_pdf_doc_safe : safe close_pdf_doc.
Proof.
  unfold close_pdf_doc. apply safe_bind; [apply safe_get | intros st].
  destruct (cv_pdf_doc st); [| apply safe_ret].
  apply safe_bind; [| intros _; unfold set_pdf_doc; apply safe_modify].
  apply safe_try_except. intros _. apply safe_ret.
Qed.

Lemma convert_to_png_safe (self : RobustTikZRenderer) (pdf_file : Path) (output_png : string) :
  safe (_convert_to_png_with_pypdfium2 self pdf_file output_png).
Proof.
  unfold _convert_to_png_with_pypdfium2.
  apply safe_bind; [| intros done; apply safe_ret].
  apply safe_for_range. intros attempt. unfold convert_attempt.
  apply safe_try_finally; [| apply close_pdf_doc_safe].
  apply safe_try_except. intros e.
  apply safe_bind; [apply convert_error_safe | intros _].
  apply safe_bind; [apply backoff_safe | intros _]. apply safe_ret.
Qed.

Lemma validate_final_png_safe (output_png : string) :
  safe (_validate_final_png format_mb output_png).
Proof.
  unfold _validate_final_png. apply safe_try_except. intros e.
  apply safe_bind; [apply append_error_safe | intros _]. apply safe_ret.
Qed.

(** The cleanup neither raises nor touches the caller's locals. *)
Lemma cleanup_post {St} (files : list (string * string)) (s : St) :
  post (_cleanup_intermediate_files files) s (fun s' r => s' = s /\ r = Ok tt).
Proof.
  unfold _cleanup_intermediate_files.
  induction files as [|[file_type file_path] files IH]; simpl.
  - apply post_ret. auto.
  - apply post_bind. apply post_try_except. apply post_bind. apply post_call.
    intros [present|e]; [| apply post_ret; exact IH].
    destruct present; simpl.
    + apply post_call. intros [[]|e]; [exact IH | apply post_ret; exact IH].
    + apply post_ret. exact IH.
Qed.

End RendererSafety.

(** ** Diagram compiler: what [render] returns *)

Section RenderOutcome.
Import PyStr Schemas Eff Renderer.
Variable clean : string -> string.
Variable format_mb : Z -> string.

(** A step run in a scope of its own and known not to raise hands its locals
    and its value to the caller, whose locals it leaves alone. *)
Lemma post_scope_safe {St T A} (init : T) (body : py T A) (s : St) Q :
  safe body -> (forall t a, Q s (Ok (t, a))) -> post (scope init body) s Q.
Proof.
  intros Hsafe HQ. apply post_scope. eapply post_mono; [| apply Hsafe].
  intros t r [a ->]. apply HQ.
Qed.

Lemma render_steps_post (self : RobustTikZRenderer) (tikz_code output_png : string) :
  post (render_steps clean format_mb self tikz_code output_png)
       (mkMetadata false output_png tikz_code [] [] [] 0 [])
       (fun md r =>
          warnings md = snd (_generate_clean_tikz_code clean tikz_code) /\
          match r with
          | Ok _ => md_success md = true /\ steps_completed md = all_steps
          | Err e => md_success md = false /\ In (exn_msg e) stage_failures
          end).
Proof.
  unfold render_steps.
  destruct (_generate_clean_tikz_code clean tikz_code) as [cleaned step1_errors].
  apply post_bind, post_modify. apply post_bind, post_modify.
  apply post_bind, post_scope_safe; [apply write_standalone_tex_file_safe |].
  intros step2_errors tex_file.
  apply post_bind, post_modify. apply post_bind, post_modify.
  apply post_bind, post_modify.
  destruct tex_file as [tex_file|]; [| apply post_raise; simpl; auto 10].
  apply post_bind, post_scope_safe; [apply compile_with_tectonic_safe |].
  intros step3_errors pdf_file.
  apply post_bind, post_modify.
  destruct pdf_file as [pdf_file|].
  2:{ apply post_bind, post_ret. apply post_bind, post_modify.
      apply post_raise; simpl; auto 10. }
  apply post_bind, post_modify. apply post_bind, post_modify.
  apply post_bind, post_scope_safe; [apply convert_to_png_safe |].
  intros step4_locals png_success.
  apply post_bind, post_modify. apply post_bind, post_modify.
  destruct png_success; simpl; [| apply post_raise; simpl; auto 10].
  apply post_bind, post_scope_safe; [apply validate_final_png_safe |].
  intros step5_errors png_validated.
  apply post_bind, post_modify. apply post_bind, post_modify.
  destruct png_validated; simpl; [| apply post_raise; simpl; auto 10].
  apply post_modify. simpl. auto.
Qed.

Lemma render_finally_post (self : RobustTikZRenderer) (start_time : Z)
  (md : RenderMetadata) Q :
  (forall t, Q (set_execution_time t md) (Ok tt)) ->
  post (render_finally self start_time) md Q.
Proof.
  intros HQ. unfold render_finally. apply post_bind.
  assert (Hrest : post (trigger Now) md
            (fun s' r => match r with
                         | Ok finished =>
                             post (modify (set_execution_time (finished - start_time))) s' Q
                         | Err e => Q s' (Err e)
                         end)).
  { apply post_trigger. intros finished. apply post_modify. apply HQ. }
  apply post_when; intros _.
  - apply post_bind, post_get. eapply post_mono; [| apply cleanup_post].
    intros s' r [-> ->]. apply post_bind. exact Hrest.
  - apply post_bind. exact Hrest.
Qed.

(** [render] ends in a metadata record and leaves the caller's locals as
    they were: nothing raised inside it gets out. *)
Lemma render_ends_in_a_record {St} (self : RobustTikZRenderer)
  (tikz_code output_png : string) (s : St) :
  post (render clean format_mb self tikz_code output_png) s
    (fun s' r => s' = s /\ exists md, r = Ok md).
Proof.
  unfold render. apply post_bind, post_trigger. intros start_time.
  apply post_bind, post_scope, post_try_finally, post_try_except.
  eapply post_mono; [| apply render_steps_post].
  intros md [[]|e] _.
  - apply render_finally_post. intros t. apply post_ret. eauto.
  - apply post_modify. apply render_finally_post. intros t. apply post_ret. eauto.
Qed.

(** The outcome record named in C2, as the code has it: for every source
    and every output path [render] ends without an exception, in a metadata
    record; the messages of step 1 are the record's [warnings]; a record
    with [success = true] has completed all five steps; and a record with
    [success = false] ends its [errors] with the entry "Pipeline failed: "
    followed by the reason of the step (2 to 5) that failed. The caller's
    own locals are not touched. *)
Theorem render_returns_a_record {St} (self : RobustTikZRenderer)
  (tikz_code output_png : string) (s : St) :
  post (render clean format_mb self tikz_code output_png) s
    (fun s' r =>
       s' = s /\
       exists md, r = Ok md /\
         warnings md = snd (_generate_clean_tikz_code clean tikz_code) /\
         (md_success md = true -> steps_completed md = all_steps) /\
         (md_success md = false ->
          exists reason, In reason stage_failures /\
            last (errors md) = Some ("Pipeline failed: " +:+ reason))).
Proof.
  unfold render. apply post_bind, post_trigger. intros start_time.
  apply post_bind, post_scope, post_try_finally, post_try_except.
  eapply post_mono; [| apply render_steps_post].
  intros md [[]|e] [Hw Hr].
  - destruct Hr as [Hs Hsteps]. apply render_finally_post. intros t.
    apply post_ret. split; [reflexivity |]. eexists. split; [reflexivity |].
    simpl. repeat split; auto. intros Hf. congruence.
  - destruct Hr as [Hs Hin]. apply post_modify. apply render_finally_post. intros t.
    apply post_ret. split; [reflexivity |]. eexists. split; [reflexivity |].
    simpl. repeat split; auto; [congruence |].
    intros _. exists (exn_msg e). split; [exact Hin |]. apply last_snoc.
Qed.

End RenderOutcome.

(** ** Diagram compiler: step 1 is a warning, and the elapsed time *)

Section RenderExamples.
Import PyStr Schemas Eff Renderer Stub Samples.

(** C2 as stated fails at step 1. Rendering the empty source with a working
    toolchain: step 1 fails (the source is empty), its message is not in
    [errors], which stays empty, and the render succeeds. *)
Lemma step1_failure_is_not_an_error :
  exists md w tr,
    exec (stub working_toolchain)
         (render no_cleaning megabytes sample_renderer "" "output/diagrams/d.png" tt)
         fresh_world = ((tt, Ok md), w, tr) /\
    snd (_generate_clean_tikz_code no_cleaning "")
      = ["TikZ code cleaning failed: TikZ code is empty or too short"] /\
    ~ In "TikZ code cleaning failed: TikZ code is empty or too short" (errors md) /\
    errors md = [] /\
    md_success md = true.
Proof.
  do 3 eexists. split; [vm_compute; reflexivity |].
  split; [reflexivity |]. split; [intros [] | split; reflexivity].
Qed.

End RenderExamples.

Section RenderTime.
Import PyStr Schemas Eff Renderer Pipeline Stub Samples.
Variable clean : string -> string.
Variable format_mb : Z -> string.

(** The dictionary [render] returns has no key "render_time": the elapsed
    time is stored under "execution_time". *)
Lemma no_render_time_key (md : RenderMetadata) :
  md_get "render_time" md = None /\
  md_get "execution_time" md = Some (MMillis (execution_time md)).
Proof. split; reflexivity. Qed.

(** C8, what the code does. [_render_single_diagram] always ends in a
    Rendered Diagram (it raises nothing), and the [render_time] of that
    record is 0 on every path: the rejected source gets the literal 0.0, and
    the rendered one gets the default of [render_result.get("render_time",
    0.0)], a key [render] never sets. *)
Theorem render_time_is_never_recorded {St} (self : Pipeline.Pipeline)
  (question : QuestionInstance) (pattern_idx : nat) (s : St) :
  post (_render_single_diagram clean format_mb self question pattern_idx) s
    (fun s' r => s' = s /\ exists diagram, r = Ok diagram /\ render_time diagram = 0%Z).
Proof.
  unfold _render_single_diagram.
  destruct (RobustTikZValidator.validate (tikz_code question)) as [is_valid error].
  destruct is_valid; simpl.
  - apply post_bind. eapply post_mono; [| apply render_ends_in_a_record].
    intros s' r [-> [md ->]]. apply post_ret. eauto.
  - apply post_ret. eauto.
Qed.

End RenderTime.

(** C8 on the specification's own scenario: the compiler fails twice, then
    succeeds, with [max_retries = 3]. [render] measures 600 ms (the two
    backoff sleeps, 0.2 s and 0.4 s); the Rendered Diagram handed to the
    orchestrator is successful and says 0. *)
Lemma flaky_compile_elapsed_time_is_lost :
  (exists md w tr,
     Eff.exec (Stub.stub Samples.flaky_toolchain)
       (Renderer.render Samples.no_cleaning Samples.megabytes Samples.sample_renderer
          Samples.segment "output/diagrams/pattern_00_question_00.png" tt)
       Stub.fresh_world = ((tt, Eff.Ok md), w, tr) /\
     Renderer.md_success md = true /\ Renderer.execution_time md = 600%Z /\
     Eff.compiler_invocations tr = 3) /\
  (exists diagram w tr,
     Eff.exec (Stub.stub Samples.flaky_toolchain)
       (Pipeline._render_single_diagram Samples.no_cleaning Samples.megabytes
          Samples.sample_pipeline (Samples.sample_question 0 0 Samples.segment) 0 tt)
       Stub.fresh_world = ((tt, Eff.Ok diagram), w, tr) /\
     Schemas.success diagram = true /\ Schemas.render_time diagram = 0%Z).
Proof.
  split; do 3 eexists; (split; [vm_compute; reflexivity |]); repeat split.
Qed.

(** ** Sanitation before compiling *)

Section Sanitation.
Import PyStr Schemas Eff Renderer Pipeline.
Variable clean : string -> string.
Variable format_mb : Z -> string.

Lemma startswith_lower (p s : string) :
  startswith p s = true -> startswith (lower p) (lower s) = true.
Proof.
  revert s. induction p as [|a p IH]; intros s H; [reflexivity |].
  destruct s as [|b s]; simpl in *; [discriminate |].
  destruct (Ascii.eqb a b) eqn:Hab; [| discriminate].
  apply Ascii.eqb_eq in Hab. subst b. rewrite Ascii.eqb_refl. auto.
Qed.

Lemma contains_lower (p s : string) :
  contains p s = true -> contains (lower p) (lower s) = true.
Proof.
  induction s as [|b s IH]; simpl; intros H.
  - apply orb_true_iff in H. destruct H as [H|H]; [| discriminate].
    apply startswith_lower in H. simpl in H. rewrite H. reflexivity.
  - apply orb_true_iff in H. apply orb_true_iff. destruct H as [H|H].
    + left. apply (startswith_lower p (String b s)). exact H.
    + right. auto.
Qed.

Lemma forbidden_patterns_are_lower_case (pattern : string) :
  In pattern RobustTikZValidator.forbidden_patterns -> lower pattern = pattern.
Proof.
  unfold RobustTikZValidator.forbidden_patterns. simpl.
  intros H. repeat (destruct H as [<-|H]; [reflexivity |]). destruct H.
Qed.

Lemma validate_rejects (tikz_code : string) :
  unsafe_source tikz_code ->
  exists message,
    RobustTikZValidator.validate tikz_code = (false, Some message) /\ message <> "".
Proof.
  intros Hbad. unfold RobustTikZValidator.validate.
  destruct (empty_or_too_short tikz_code); [eexists; split; [reflexivity | discriminate] |].
  destruct (count "{"%char tikz_code =? count "}"%char tikz_code)%nat eqn:Hbraces;
    cbn [negb]; [| eexists; split; [reflexivity | discriminate]].
  destruct (count "["%char tikz_code =? count "]"%char tikz_code)%nat eqn:Hbrackets;
    cbn [negb]; [| eexists; split; [reflexivity | discriminate]].
  destruct (first_forbidden RobustTikZValidator.forbidden_patterns tikz_code)
    as [found|] eqn:Hfound; [eexists; split; [reflexivity | discriminate] |].
  exfalso. apply Nat.eqb_eq in Hbraces, Hbrackets.
  destruct Hbad as [H|[H|[pattern [Hin Hc]]]]; [contradiction | contradiction |].
  assert (Hlow : contains pattern (lower tikz_code) = true).
  { destruct Hc as [Hc|Hc]; [| exact Hc]. apply contains_lower in Hc.
    rewrite (forbidden_patterns_are_lower_case pattern Hin) in Hc. exact Hc. }
  unfold first_forbidden in Hfound.
  pose proof (List.find_none _ _ Hfound pattern Hin) as Hnone. simpl in Hnone. congruence.
Qed.

(** C3. A source with unbalanced braces or brackets, or with a deny-listed
    directive, is rejected by [RobustTikZValidator.validate]; then
    [_render_single_diagram] is the plain return of a failed Rendered Diagram
    with a non-empty error message: it performs no call at all, so in every
    environment its run leaves the world as it was and invokes the external
    compiler zero times. *)
Theorem unsafe_source_is_rejected_before_compiling {St} (self : Pipeline.Pipeline)
  (question : QuestionInstance) (pattern_idx : nat) (s : St) :
  unsafe_source (tikz_code question) ->
  exists diagram message,
    fst (RobustTikZValidator.validate (tikz_code question)) = false /\
    _render_single_diagram clean format_mb self question pattern_idx s
      = Ret (s, Ok diagram) /\
    success diagram = false /\
    error_message diagram = Some message /\ message <> "" /\
    forall W (h : handler W) (w : W),
      exec h (_render_single_diagram clean format_mb self question pattern_idx s) w
        = ((s, Ok diagram), w, []) /\
      compiler_invocations
        (exec h (_render_single_diagram clean format_mb self question pattern_idx s) w).2
        = 0.
Proof.
  intros Hbad. destruct (validate_rejects _ Hbad) as [message [Hv Hne]].
  exists (mkRenderedDiagram (tikz_code question) "" "" 0 false (Some message)), message.
  assert (Hret : _render_single_diagram clean format_mb self question pattern_idx s
                 = Ret (s, Ok (mkRenderedDiagram (tikz_code question) "" "" 0 false
                                                 (Some message)))).
  { unfold _render_single_diagram. rewrite Hv. reflexivity. }
  rewrite Hv, Hret. repeat split; auto.
Qed.

End Sanitation.

(** A source with unbalanced braces, as in the repository's own test. *)
Lemma unsafe_source_is_rejected_before_compiling_witness :
  unsafe_source (Schemas.tikz_code (Samples.sample_question 0 0 Samples.unbalanced)) /\
  exists diagram message,
    fst (Renderer.RobustTikZValidator.validate
           (Schemas.tikz_code (Samples.sample_question 0 0 Samples.unbalanced))) = false /\
    Pipeline._render_single_diagram Samples.no_cleaning Samples.megabytes
      Samples.sample_pipeline (Samples.sample_question 0 0 Samples.unbalanced) 0 tt
      = Eff.Ret (tt, Eff.Ok diagram) /\
    Schemas.success diagram = false /\
    Schemas.error_message diagram = Some message /\ message <> "" /\
    forall W (h : Eff.handler W) (w : W),
      Eff.exec h (Pipeline._render_single_diagram Samples.no_cleaning Samples.megabytes
                    Samples.sample_pipeline
                    (Samples.sample_question 0 0 Samples.unbalanced) 0 tt) w
        = ((tt, Eff.Ok diagram), w, []) /\
      Eff.compiler_invocations
        (Eff.exec h (Pipeline._render_single_diagram Samples.no_cleaning Samples.megabytes
                       Samples.sample_pipeline
                       (Samples.sample_question 0 0 Samples.unbalanced) 0 tt) w).2
        = 0.
Proof.
  assert (H : unsafe_source
                (Schemas.tikz_code (Samples.sample_question 0 0 Samples.unbalanced))).
  { left. vm_compute. lia. }
  split; [exact H |].
  exact (unsafe_source_is_rejected_before_compiling Samples.no_cleaning Samples.megabytes
           Samples.sample_pipeline (Samples.sample_question 0 0 Samples.unbalanced) 0 tt H).
Defined.

(** ** Running blocks in the stubbed environment *)

Section StubRuns.
Import PyStr Schemas Eff Renderer Stub.
Variable tc : Toolchain.


Lemma runs_ret {St A} (a : A) (s : St) w : runs_to tc (ret a) s w s (Ok a) w 0.
Proof. exists []. split; reflexivity. Qed.







Lemma runs_bind_err {St A B} (m : py St A) (f : A -> py St B) s w s1 e w1 n1 :
  runs_to tc m s w s1 (Err e) w1 n1 ->
  runs_to tc (bind m f) s w s1 (Err e) w1 n1.
Proof.
  intros [tr1 [H1 <-]]. exists (tr1 ++ []).
  unfold bind. rewrite exec_pbind, H1. simpl.
  split; [reflexivity | rewrite app_nil_r; reflexivity].
Qed.





Lemma runs_scope_err {St T A} (init : T) (body : py T A) (s : St) w t e w1 n1 :
  runs_to tc body init w t (Err e) w1 n1 ->
  runs_to tc (scope init body) s w s (Err e) w1 n1.
Proof.
  intros [tr1 [H1 <-]]. exists (tr1 ++ []).
  unfold scope. rewrite exec_pbind, H1. simpl.
  split; [reflexivity | rewrite app_nil_r; reflexivity].
Qed.

Lemma runs_for_range_done {St A} (attempt : nat) (body : nat -> py St (option A)) s w :
  runs_to tc (for_range 0 attempt body) s w s (Ok None) w 0.
Proof. apply runs_ret. Qed.



(** What holds of every run holds of the run in the stubbed environment. *)
Lemma runs_post {St A} (m : py St A) s w s' r w' n Q :
  post m s Q -> runs_to tc m s w s' r w' n -> Q s' r.
Proof.
  intros Hpost [tr [H _]]. pose proof (always_exec _ _ (stub tc) w Hpost) as HQ.
  rewrite H in HQ. exact HQ.
Qed.

End StubRuns.

(** ** External compilation with an empty artifact *)

Section EmptyArtifact.
Import PyStr Schemas Eff Renderer Stub.
Variable tc : Toolchain.
Variable clean : string -> string.
Variable format_mb : Z -> string.
#[local] Arguments PyStr.replace : simpl never.
#[local] Arguments PyStr.len : simpl never.
#[local] Arguments String.append : simpl never.





(** Every invocation exits with code zero and writes an empty artifact. *)
Hypothesis empty_artifact :
  forall i, exists err, compiler tc i = Exits 0 err (Some 0%Z).








End EmptyArtifact.



(** ** Parallel rendering: results are indexed by instance position *)

Section ParallelOrder.
Import Schemas Pipeline.

(** Storing completed results by index: what slot [i] holds afterwards, when
    no index completes twice. *)
Lemma store_by_index_lookup (done : list (nat * RenderedDiagram))
  (rendered : list (option RenderedDiagram)) (i : nat) :
  NoDup done.*1 ->
  foldl (fun acc '(idx, diagram) => <[idx := Some diagram]> acc) rendered done !! i
  = match (list_to_map done : gmap nat RenderedDiagram) !! i with
    | Some diagram => if decide (i < length rendered) then Some (Some diagram) else None
    | None => rendered !! i
    end.
Proof.
  revert rendered. induction done as [|[j d] done IH]; intros rendered Hnodup.
  - simpl. rewrite lookup_empty. reflexivity.
  - simpl in Hnodup. apply NoDup_cons in Hnodup as [Hfresh Hnodup].
    simpl. rewrite IH by exact Hnodup. rewrite length_insert.
    destruct (decide (i = j)) as [->|Hne].
    + rewrite lookup_insert_eq.
      rewrite (not_elem_of_list_to_map_1 _ _ Hfresh).
      destruct (decide (j < length rendered)) as [Hlt|Hge].
      * apply list_lookup_insert_eq. exact Hlt.
      * rewrite list_insert_ge by lia. apply lookup_ge_None. lia.
    + rewrite lookup_insert_ne by congruence.
      destruct (list_to_map done !! i); [reflexivity |].
      apply list_lookup_insert_ne. congruence.
Qed.


End ParallelOrder.


(** ** Orchestrator: the manifest *)

Section Manifest.
Import PyStr Schemas Eff Renderer PDFBuilder Pipeline.
Variable clean : string -> string.
Variable format_mb : Z -> string.

Lemma always_any {A} (p : prog A) : always (fun _ => True) p.
Proof. induction p; constructor; auto. Qed.

(** A postcondition that every raised exit satisfies passes through a bind
    once the continuation establishes it. *)
Lemma post_bind_any {St A B} (m : py St A) (f : A -> py St B) s
  (Q : St -> result B -> Prop) :
  (forall s' e, Q s' (Err e)) ->
  (forall a s', post (f a) s' Q) ->
  post (bind m f) s Q.
Proof.
  intros Herr Hf. apply post_bind. unfold post.
  eapply always_mono; [| apply always_any].
  intros [s' [a|e]] _; simpl; [apply Hf | apply Herr].
Qed.

Lemma post_any_ok {St A} (m : py St A) s (P : A -> Prop) :
  (forall a, P a) -> post m s (fun _ r => forall a, r = Ok a -> P a).
Proof.
  intros HP. unfold post. eapply always_mono; [| apply always_any].
  intros [s' r] _ a _. apply HP.
Qed.

(** [imap_py] relates each input to the value its iteration returned. *)
Lemma post_imap_py {St X Y} (body : nat -> X -> py St Y) (R : X -> Y -> Prop)
  (l : list X) (i : nat) (s : St) :
  (forall i x s, post (body i x) s (fun _ r => forall y, r = Ok y -> R x y)) ->
  post (imap_py body i l) s (fun _ r => forall ys, r = Ok ys -> Forall2 R l ys).
Proof.
  intros Hbody. revert i s. induction l as [|x l IH]; intros i s; simpl.
  - apply post_ret. intros ys [= <-]. constructor.
  - apply post_bind. eapply post_mono; [| apply Hbody].
    intros s1 [y|e] Hy; [| intros ys [=]].
    apply post_bind. eapply post_mono; [| apply IH].
    intros s2 [ys|e] Hys; [| intros zs [=]].
    apply post_ret. intros zs [= <-]. constructor; auto.
Qed.

Lemma pages_from_ids (i : Z) (qs : list QuestionInstance)
  (diagrams : list (option RenderedDiagram)) (pages : list PDFPage) :
  pages_from i qs diagrams = Some pages ->
  map question_id pages = map instance_id qs.
Proof.
  revert i diagrams pages. induction qs as [|q qs IH]; intros i diagrams pages; simpl.
  - intros [= <-]. reflexivity.
  - destruct diagrams as [|d diagrams]; [discriminate |].
    destruct (pages_from (i + 1) qs diagrams) as [rest|] eqn:Hrest; [| discriminate].
    intros [= <-]. simpl. f_equal. eapply IH. exact Hrest.
Qed.

Lemma build_pdf_lists_instances {St} (qs : QuestionSet)
  (diagrams : list (option RenderedDiagram)) (output_pdf : string) (s : St) :
  post (build_pdf qs diagrams output_pdf) s
       (fun _ r => forall pdf, r = Ok pdf -> lists_instances qs pdf).
Proof.
  unfold build_pdf.
  destruct (length (questions qs) <? 1)%nat; [apply post_raise; intros ? [=] |].
  destruct (length diagrams <? 1)%nat; [apply post_raise; intros ? [=] |].
  destruct (pages_from 0 (questions qs) diagrams) as [pages|] eqn:Hpages;
    [| apply post_raise; intros ? [=]].
  apply post_bind, post_call. intros [[]|e]; [| intros ? [=]].
  apply post_ret. intros pdf [= <-]. split; [reflexivity |].
  simpl. eapply pages_from_ids. exact Hpages.
Qed.

Lemma Forall2_zip_fst {X Y Z'} (R : X -> Z' -> Prop) (xs : list X) (ys : list Y)
  (zs : list Z') :
  length xs = length ys ->
  Forall2 (fun p z => R p.1 z) (zip xs ys) zs -> Forall2 R xs zs.
Proof.
  revert ys zs. induction xs as [|x xs IH]; intros [|y ys] zs Hlen H;
    simpl in *; try discriminate.
  - inversion H. constructor.
  - inversion H; subst. constructor; [assumption |]. eapply IH; [| eassumption]. lia.
Qed.

(** Steps 3 to 5 on the generated question sets: totals and entries. *)
Lemma steps_3_to_5_post {St} (self : Pipeline.Pipeline) (topic : string)
  (num_patterns : Z) (sets : list QuestionSet) (s : St) :
  post (run_steps_3_to_5 clean format_mb self topic num_patterns sets) s
       (fun _ r => forall manifest, r = Ok manifest ->
          total_patterns manifest = num_patterns /\
          total_questions manifest = (num_patterns * QUESTIONS_PER_PATTERN)%Z /\
          Forall2 lists_instances sets (pdfs manifest)).
Proof.
  unfold run_steps_3_to_5.
  apply post_bind.
  eapply post_mono;
    [| apply (post_imap_py _ (fun _ _ => True)); intros; apply post_any_ok; auto].
  intros s1 [diagrams|e] Hd; [| intros ? [=]].
  specialize (Hd diagrams eq_refl). apply Forall2_length in Hd.
  apply post_bind.
  eapply post_mono;
    [| apply (post_imap_py _ (fun p pdf => lists_instances p.1 pdf));
       intros i [qs ds] s'; unfold _build_pdf; apply build_pdf_lists_instances].
  intros s2 [all_pdfs|e] Hp; [| intros ? [=]].
  specialize (Hp all_pdfs eq_refl). apply Forall2_zip_fst in Hp; [| exact Hd].
  apply post_bind, post_trigger. intros timestamp.
  apply post_bind, post_call. intros [[]|e]; [| intros ? [=]].
  apply post_ret. intros manifest [= <-]. simpl. auto.
Qed.

Lemma run_totals {St} (self : Pipeline.Pipeline) (topic grade_level : string)
  (num_patterns : option Z) (s : St) :
  post (run clean format_mb self topic grade_level num_patterns) s
       (fun _ r => forall manifest, r = Ok manifest ->
          total_patterns manifest = 10%Z /\ total_questions manifest = 100%Z).
Proof.
  unfold run.
  apply post_bind_any; [intros ? ? ? [=] | intros pattern_schema s1].
  apply post_bind_any; [intros ? ? ? [=] | intros _ s2].
  apply post_bind_any; [intros ? ? ? [=] | intros sets s3].
  apply post_bind_any; [intros ? ? ? [=] | intros _ s4].
  eapply post_mono; [| apply steps_3_to_5_post].
  intros s5 r H manifest Hr. destruct (H manifest Hr) as [Hp [Hq _]].
  split; [exact Hp | exact Hq].
Qed.

(** C10. Whatever [num_patterns] the caller passes, the first thing [run]
    does is to ask the pattern generator for 10 patterns, and every manifest
    it returns reports [total_patterns = 10] and [total_questions = 100]. *)
Theorem run_forces_ten_patterns {St} (self : Pipeline.Pipeline)
  (topic grade_level : string) (num_patterns : option Z) (s : St) :
  (exists k, run clean format_mb self topic grade_level num_patterns s
             = Vis (GeneratePatterns topic grade_level 10) k) /\
  post (run clean format_mb self topic grade_level num_patterns) s
       (fun _ r => forall manifest, r = Ok manifest ->
          total_patterns manifest = 10%Z /\ total_questions manifest = 100%Z).
Proof.
  split; [| apply run_totals]. eexists. reflexivity.
Qed.


End Manifest.


(** ** Structured-response recovery *)

Section Recovery.
Import PyStr Eff Re LlmUtils.

(** Without the marker the pre-pass gives the text back, whatever the fuel. *)
Lemma prepass_without_marker (fuel : nat) (text : string) :
  contains TIKZ_KEY text = false ->
  fix_tikz_json_parsing fuel text = Some text.
Proof.
  intros H. unfold fix_tikz_json_parsing. rewrite H. reflexivity.
Qed.

(** On a text that is not blank and has no marker, [parse_json_response] is
    its chain of strategies on the text itself. *)
Lemma parse_without_marker (L : Lib) (fuel : nat) (text : string) :
  strip text <> "" ->
  contains TIKZ_KEY text = false ->
  parse_json_response L fuel text = parse_strategies L text.
Proof.
  intros Hb Hm. unfold parse_json_response.
  rewrite (prepass_without_marker fuel text Hm).
  destruct (strip text); [contradiction | reflexivity].
Qed.

(** X3. A blank text raises [ValueError], before anything is decoded. *)
Lemma blank_response_raises (L : Lib) (fuel : nat) (text : string) :
  strip text = "" ->
  parse_json_response L fuel text
  = ([], Raised (mkExn ValueError "Empty response from LLM")).
Proof.
  intros H. unfold parse_json_response. rewrite H. reflexivity.
Qed.

(** The scan of a field's content makes no progress on an opening brace: it
    runs out of any fuel. *)
Lemma scan_stuck_on_opening_brace (text : string) (pos : nat) :
  String.get pos text = Some "{"%char ->
  forall (fuel : nat) (brace_count : Z) (in_escape : bool),
    scan_field_end fuel text pos brace_count in_escape = None.
Proof.
  intros Hget fuel. induction fuel as [|fuel IH]; intros brace_count in_escape.
  - reflexivity.
  - cbn [scan_field_end]. rewrite Hget. cbn. apply IH.
Qed.

(** Nor on a closing brace. *)
Lemma scan_stuck_on_closing_brace (text : string) (pos : nat) :
  String.get pos text = Some "}"%char ->
  forall (fuel : nat) (brace_count : Z) (in_escape : bool),
    scan_field_end fuel text pos brace_count in_escape = None.
Proof.
  intros Hget fuel. induction fuel as [|fuel IH]; intros brace_count in_escape.
  - reflexivity.
  - cbn [scan_field_end]. rewrite Hget. cbn. apply IH.
Qed.

(** C1 (as the code has it). A text that is not blank, has no [tikz_code]
    marker and that [json.loads] decodes to an array is answered with that
    array itself, so with as many records as the array has, and nothing is
    logged as an error; [process_llm_response] does so on every raw text
    that cleaning and extraction turn into such a text. The result is the
    decoded data alone: it has no flag beside it. *)
Theorem marker_free_array_is_returned (L : Lib) (fuel : nat) (text : string)
  (items : list pyval) :
  strip text <> "" ->
  contains TIKZ_KEY text = false ->
  json_loads L text = Ok (PList items) ->
  parse_json_response L fuel text = ([], Done (PList items))
  /\ record_count (PList items) = Some (length items)
  /\ (forall raw : string,
        extract_json_from_markdown (clean_response_text raw) = text ->
        process_llm_response L fuel raw = ([], Done (PList items))).
Proof.
  intros Hb Hm Hj.
  assert (Hp : parse_json_response L fuel text = ([], Done (PList items))).
  { rewrite parse_without_marker by assumption.
    unfold parse_strategies. rewrite Hj. reflexivity. }
  split; [exact Hp | split; [reflexivity |]].
  intros raw Hraw. unfold process_llm_response. rewrite Hraw. exact Hp.
Qed.

End Recovery.

Lemma marker_free_array_is_returned_witness :
  LlmUtils.parse_json_response Responses.recorded 0 Responses.two_records
  = ([], LlmUtils.Done Responses.two_records_value)
  /\ record_count Responses.two_records_value = Some 2
  /\ LlmUtils.process_llm_response Responses.recorded 0
       ("Here you are: " +:+ Responses.two_records)
     = ([], LlmUtils.Done Responses.two_records_value).
Proof.
  destruct (marker_free_array_is_returned Responses.recorded 0 Responses.two_records
              [PDict [("id", PInt 1)]; PDict [("id", PInt 2)]])
    as (Hp & Hc & Hr).
  - vm_compute. discriminate.
  - vm_compute. reflexivity.
  - vm_compute. reflexivity.
  - split; [exact Hp | split; [exact Hc |]].
    apply Hr. vm_compute. reflexivity.
Defined.

(** C1, where the claim fails on the code. The text of an array of one
    record whose diagram source is an opening brace is one that [json.loads]
    decodes, yet no amount of fuel lets [parse_json_response] or
    [process_llm_response] return on it: the pre-pass scans the field and
    stays on the brace. *)
Lemma brace_in_field_never_returns :
  LlmUtils.json_loads Responses.recorded Responses.brace_field
  = Eff.Ok Responses.brace_field_value
  /\ record_count Responses.brace_field_value = Some 1
  /\ (forall fuel : nat,
        LlmUtils.parse_json_response Responses.recorded fuel Responses.brace_field
        = ([], LlmUtils.OutOfFuel))
  /\ (forall fuel : nat,
        LlmUtils.process_llm_response Responses.recorded fuel Responses.brace_field
        = ([], LlmUtils.OutOfFuel)).
Proof.
  assert (Hfix : forall fuel,
             LlmUtils.fix_tikz_json_parsing fuel Responses.brace_field = None).
  { intros fuel. unfold LlmUtils.fix_tikz_json_parsing.
    replace (PyStr.contains LlmUtils.TIKZ_KEY Responses.brace_field) with true
      by (vm_compute; reflexivity).
    cbn [negb LlmUtils.fix_loop].
    replace (PyStr.contains LlmUtils.TIKZ_KEY Responses.brace_field) with true
      by (vm_compute; reflexivity).
    unfold LlmUtils.fix_single_tikz_field.
    replace (Re.search LlmUtils.tikz_open Responses.brace_field)
      with (Some (Re.mkFound 2 16 [])) by (vm_compute; reflexivity).
    cbn [Re.m_end].
    rewrite scan_stuck_on_opening_brace by (vm_compute; reflexivity).
    reflexivity. }
  assert (Hparse : forall fuel,
             LlmUtils.parse_json_response Responses.recorded fuel Responses.brace_field
             = ([], LlmUtils.OutOfFuel)).
  { intros fuel. unfold LlmUtils.parse_json_response. rewrite Hfix.
    replace (PyStr.strip Responses.brace_field) with Responses.brace_field
      by (vm_compute; reflexivity).
    vm_compute. reflexivity. }
  split; [vm_compute; reflexivity | split; [reflexivity | split; [exact Hparse |]]].
  intros fuel. unfold LlmUtils.process_llm_response.
  replace (LlmUtils.extract_json_from_markdown
             (LlmUtils.clean_response_text Responses.brace_field))
    with Responses.brace_field by (vm_compute; reflexivity).
  apply Hparse.
Qed.

(** The pre-pass does not leave a well-formed field alone: it writes the
    key again in front of the content, once per round, for ten rounds. *)
Lemma prepass_rewrites_a_plain_field :
  LlmUtils.fix_tikz_json_parsing 100 Responses.plain_field
  = Some (LlmUtils.quoted "[{'tikz_code': '"
          +:+ PyStr.join "" (repeat (LlmUtils.quoted "'tikz_code': '") 10)
          +:+ LlmUtils.quoted "abc'}]").
Proof. vm_compute. reflexivity. Qed.

Section Exhausted.
Import PyStr Eff Re LlmUtils.

Variable L : Lib.

(** X4. An exception of [json.loads] that is not a [JSONDecodeError] is not
    caught: it reaches the caller as it is, and nothing is logged as an
    error. *)
Lemma other_exceptions_propagate (fuel : nat) (text fixed : string) (e : exn) :
  strip text <> "" ->
  fix_tikz_json_parsing fuel text = Some fixed ->
  json_loads L fixed = Err e ->
  is_json_decode_error e = false ->
  parse_json_response L fuel text = ([], Raised e).
Proof.
  intros Hb Hf Hj He. unfold parse_json_response. rewrite Hf.
  destruct (strip text); [contradiction |].
  unfold parse_strategies. rewrite Hj, He. reflexivity.
Qed.


End Exhausted.



(** ** Parallel rendering: the method as a whole *)

Section ParallelProgram.
Import PyStr Schemas Eff Renderer Pipeline.
Variable clean : string -> string.
Variable format_mb : Z -> string.

(** [map_py] over a body that never raises and leaves the locals alone. *)
Lemma post_map_py_total {St X Y} (body : X -> py St Y) (R : X -> Y -> Prop)
  (l : list X) (s : St) :
  (forall x s, post (body x) s (fun s' r => s' = s /\ exists y, r = Ok y /\ R x y)) ->
  post (map_py body l) s (fun s' r => s' = s /\ exists ys, r = Ok ys /\ Forall2 R l ys).
Proof.
  intros Hbody. revert s. induction l as [|x l IH]; intros s; simpl.
  - apply post_ret. split; [reflexivity |]. exists []. split; [reflexivity | constructor].
  - apply post_bind. eapply post_mono; [| apply Hbody].
    intros s1 r [-> [y [-> Hy]]].
    apply post_bind. eapply post_mono; [| apply IH].
    intros s2 r [-> [ys [-> Hys]]].
    apply post_ret. split; [reflexivity |]. exists (y :: ys).
    split; [reflexivity | constructor; assumption].
Qed.

(** The Rendered Diagram of a question carries that question's source. *)
Lemma render_single_diagram_post {St} (self : Pipeline.Pipeline)
  (question : QuestionInstance) (pattern_idx : nat) (s : St) :
  post (_render_single_diagram clean format_mb self question pattern_idx) s
    (fun s' r => s' = s /\
       exists diagram, r = Ok diagram /\ rd_tikz_code diagram = tikz_code question).
Proof.
  unfold _render_single_diagram.
  destruct (RobustTikZValidator.validate (tikz_code question)) as [is_valid error].
  destruct is_valid; simpl.
  - apply post_bind. eapply post_mono; [| apply render_ends_in_a_record].
    intros s' r [-> [md ->]]. apply post_ret. eauto.
  - apply post_ret. eauto.
Qed.

Lemma assemble_length (n : nat) (done : list (nat * RenderedDiagram)) :
  length (assemble n done) = n.
Proof.
  unfold assemble. rewrite <- (length_replicate n (@None RenderedDiagram)) at 2.
  generalize (replicate n (@None RenderedDiagram)).
  induction done as [|[idx d] done IH]; intros rendered; simpl.
  - reflexivity.
  - rewrite IH. apply length_insert.
Qed.

Lemma completed_pairs (qs : list QuestionInstance) (order : list nat)
  (done : list (option (nat * RenderedDiagram))) :
  Forall (fun idx => idx < length qs) order ->
  Forall2 (completed qs) order done ->
  (omap id done).*1 = order /\
  Forall (fun p => exists q, qs !! p.1 = Some q /\ rd_tikz_code p.2 = tikz_code q)
         (omap id done).
Proof.
  intros Hlt H. induction H as [|idx r order done Hr H IH]; simpl.
  - split; constructor.
  - apply Forall_cons in Hlt as [Hidx Hlt]. destruct (IH Hlt) as [Hfst Hall].
    unfold completed in Hr.
    destruct (qs !! idx) as [q|] eqn:Hq.
    + destruct Hr as [d [-> Hd]]. simpl. split; [f_equal; exact Hfst |].
      constructor; [| exact Hall]. exists q. split; assumption.
    + apply lookup_ge_None in Hq. lia.
Qed.

Lemma assemble_completed (qs : list QuestionInstance) (order : list nat)
  (done : list (option (nat * RenderedDiagram))) :
  order ≡ₚ seq 0 (length qs) ->
  Forall2 (completed qs) order done ->
  Forall2 (fun q r => exists d, r = Some d /\ rd_tikz_code d = tikz_code q)
          qs (assemble (length qs) (omap id done)).
Proof.
  intros Hperm Hdone.
  assert (Hlt : Forall (fun idx => idx < length qs) order).
  { rewrite Hperm. apply Forall_forall. intros idx Hin.
    apply elem_of_seq in Hin. lia. }
  destruct (completed_pairs qs order done Hlt Hdone) as [Hfst Hall].
  assert (Hnodup : NoDup (omap id done).*1).
  { rewrite Hfst, Hperm. apply NoDup_seq. }
  apply Forall2_same_length_lookup. split; [symmetry; apply assemble_length |].
  intros i q r Hq Hr. unfold assemble in Hr.
  rewrite store_by_index_lookup in Hr by exact Hnodup.
  assert (Hi : i < length qs) by (eapply lookup_lt_Some; exact Hq).
  assert (Hin : i ∈ (omap id done).*1).
  { rewrite Hfst, Hperm. apply elem_of_seq. lia. }
  apply list_elem_of_fmap in Hin as [[j d] [Hj Hin]]. simpl in Hj. subst j.
  rewrite (elem_of_list_to_map_1 _ _ _ Hnodup Hin) in Hr.
  rewrite length_replicate, decide_True in Hr by exact Hi.
  injection Hr as <-. exists d. split; [reflexivity |].
  rewrite Forall_forall in Hall. destruct (Hall _ Hin) as [q' [Hq' Hd]].
  simpl in Hq', Hd. congruence.
Qed.

(** X1. [_render_diagrams_parallel] first asks the pool for the order in
    which the submitted tasks complete. Whatever permutation of the
    positions the pool answers, and whatever the environment answers to the
    calls of the tasks, the method raises nothing, leaves the caller's
    locals alone and returns one Rendered Diagram per Question Instance,
    the [i]-th being a diagram of the [i]-th instance's source. *)
Theorem parallel_results_follow_instances {St} (self : Pipeline.Pipeline)
  (question_set : QuestionSet) (pattern_idx : nat) (s : St) :
  exists k,
    _render_diagrams_parallel clean format_mb self question_set pattern_idx s
    = Vis (AsCompleted (length (questions question_set))) k /\
    forall order : list nat,
      order ≡ₚ seq 0 (length (questions question_set)) ->
      always (fun out =>
                out.1 = s /\
                exists rendered, out.2 = Ok rendered /\
                  Forall2 (fun q r => exists d, r = Some d /\
                                                rd_tikz_code d = tikz_code q)
                          (questions question_set) rendered)
             (k order).
Proof.
  eexists. split; [reflexivity |].
  intros order Hperm. cbn beta.
  set (n := length (questions question_set)).
  set (body := fun idx : nat =>
                 match questions question_set !! idx with
                 | Some question =>
                     bind (_render_single_diagram clean format_mb self question pattern_idx)
                          (fun diagram => ret (Some (idx, diagram)))
                 | None => ret None
                 end : py St (option (nat * RenderedDiagram))).
  change (post (bind (map_py body order)
                     (fun done => ret (assemble n (omap id done)))) s
               (fun s' r =>
                  s' = s /\
                  exists rendered, r = Ok rendered /\
                    Forall2 (fun q r => exists d, r = Some d /\
                                                  rd_tikz_code d = tikz_code q)
                            (questions question_set) rendered)).
  apply post_bind.
  eapply post_mono; [| apply (post_map_py_total body (completed (questions question_set)))].
  - intros s' r [-> [done [-> Hdone]]]. apply post_ret.
    split; [reflexivity |]. eexists. split; [reflexivity |].
    apply assemble_completed with (order := order); assumption.
  - intros idx s0. unfold body, completed.
    destruct (questions question_set !! idx) as [question|].
    + apply post_bind. eapply post_mono; [| apply render_single_diagram_post].
      intros s' r [-> [d [-> Hd]]]. apply post_ret.
      split; [reflexivity |]. eexists. split; [reflexivity |].
      exists d. split; [reflexivity | exact Hd].
    + apply post_ret. split; [reflexivity |]. eexists. split; reflexivity.
Qed.

End ParallelProgram.

Lemma blank_response_raises_witness :
  LlmUtils.parse_json_response Responses.recorded 0 "   "
  = ([], LlmUtils.Raised (Eff.mkExn Eff.ValueError "Empty response from LLM")).
Proof.
  apply (blank_response_raises Responses.recorded 0 "   "). reflexivity.
Defined.

Lemma other_exceptions_propagate_witness :
  LlmUtils.parse_json_response Digits.recorded 0 Digits.long_number
  = ([], LlmUtils.Raised Digits.digits_error).
Proof.
  apply (other_exceptions_propagate Digits.recorded 0 Digits.long_number
           Digits.long_number Digits.digits_error).
  - vm_compute. discriminate.
  - vm_compute. reflexivity.
  - reflexivity.
  - reflexivity.
Defined.

Section SequentialProgram.
Import PyStr Schemas Eff Renderer Pipeline.
Variable clean : string -> string.
Variable format_mb : Z -> string.

(** X2. [_render_diagrams_sequential] raises nothing, whatever the
    environment answers, leaves the caller's locals alone and returns one
    Rendered Diagram per Question Instance, in the order of the instances,
    each a diagram of its instance's source. *)
Theorem sequential_results_follow_instances {St} (self : Pipeline.Pipeline)
  (question_set : QuestionSet) (pattern_idx : nat) (s : St) :
  post (_render_diagrams_sequential clean format_mb self question_set pattern_idx) s
    (fun s' r =>
       s' = s /\
       exists rendered, r = Ok rendered /\
         Forall2 (fun q r => exists d, r = Some d /\ rd_tikz_code d = tikz_code q)
                 (questions question_set) rendered).
Proof.
  unfold _render_diagrams_sequential. apply post_bind.
  eapply post_mono;
    [| apply (post_map_py_total _ (fun q d => rd_tikz_code d = tikz_code q))].
  - intros s' r [-> [rendered [-> Hall]]]. apply post_ret.
    split; [reflexivity |]. eexists. split; [reflexivity |].
    apply Forall2_fmap_r. eapply Forall2_impl; [exact Hall |].
    intros q d Hd. exists d. split; [reflexivity | exact Hd].
  - intros question s0. apply render_single_diagram_post.
Qed.

End SequentialProgram.

(** ** The pre-pass never gives back a text in which a field opens *)

Section Prepass.
Import PyStr Eff Re LlmUtils.

#[local] Ltac len_lia := unfold len in *; cbn [String.length] in *; lia.

Lemma len_append (s1 s2 : string) : len (s1 +:+ s2) = len s1 + len s2.
Proof. induction s1 as [|c s1 IH]; simpl; [reflexivity | f_equal; exact IH]. Qed.

Lemma len_take (n : nat) (s : string) : len (take n s) = Nat.min n (len s).
Proof.
  revert n. induction s as [|c s IH]; intros [|n]; simpl; try reflexivity.
  f_equal. apply IH.
Qed.

Lemma len_drop (n : nat) (s : string) : len (drop n s) = len s - n.
Proof.
  revert n. induction s as [|c s IH]; intros [|n]; simpl; try reflexivity.
  apply IH.
Qed.

Lemma get_some_lt (n : nat) (s : string) (c : ascii) :
  String.get n s = Some c -> n < len s.
Proof.
  revert n. induction s as [|c' s IH]; intros [|n]; simpl; try discriminate.
  - intros _. unfold len. simpl. lia.
  - intros H. apply IH in H. unfold len in *. simpl. lia.
Qed.

(** Substituting at least one character for every match of a pattern that
    matches one character at a time does not shorten the text. *)
Lemma sub_from_single_len (r : regex) (repl : found -> string) :
  (forall prev s pos m, match_here r prev s pos = Some m -> m_end m = S pos) ->
  (forall m, 1 <= len (repl m)) ->
  forall s prev pos, len s <= len (sub_from r repl 0 prev s pos).
Proof.
  intros Hone Hrepl s. induction s as [|c s IH]; intros prev pos; [len_lia |].
  cbn [sub_from].
  destruct (match_here r prev (String c s) pos) as [m|] eqn:Hm.
  - rewrite (Hone _ _ _ _ Hm).
    replace (S pos - pos - 1) with 0 by lia.
    rewrite len_append. specialize (Hrepl m). specialize (IH (Some c) (S pos)).
    len_lia.
  - specialize (IH (Some c) (S pos)). len_lia.
Qed.

Lemma lone_backslash_single (prev : option ascii) (s : string) (pos : nat) (m : found) :
  match_here lone_backslash prev s pos = Some m -> m_end m = S pos.
Proof.
  unfold match_here, lone_backslash. cbn [go].
  destruct prev as [c|]; [destruct (Ascii.eqb bs c); [discriminate |] |];
    (destruct s as [|c' s]; [discriminate |]);
    (destruct (Ascii.eqb bs c'); [| discriminate]);
    intros [= <-]; reflexivity.
Qed.

Lemma replace_single_len (c : ascii) (new s : string) :
  1 <= len new -> len s <= len (replace (chr c) new s).
Proof.
  intros Hnew. unfold replace, chr.
  induction s as [|c' s IH]; [len_lia |].
  cbn [replace_from startswith].
  destruct (Ascii.eqb c c').
  - change (len (String c EmptyString) - 1) with 0. rewrite len_append. len_lia.
  - len_lia.
Qed.

(** Escaping does not shorten a field's content. *)
Lemma escape_tikz_content_len (content : string) :
  len content <= len (escape_tikz_content content).
Proof.
  unfold escape_tikz_content. cbv zeta.
  etransitivity; [| apply replace_single_len; vm_compute; lia].
  etransitivity; [| apply replace_single_len; vm_compute; lia].
  etransitivity; [| apply replace_single_len; vm_compute; lia].
  etransitivity; [| apply replace_single_len; vm_compute; lia].
  unfold sub, sub_with. apply sub_from_single_len.
  - apply lone_backslash_single.
  - intros m. vm_compute. lia.
Qed.

(** Where the scan of a field ends: at a position it visited, or at the
    last character of the text. *)
Lemma scan_field_end_range (fuel : nat) (text : string) (pos : nat) (brace_count : Z)
  (in_escape : bool) (end_pos : nat) :
  scan_field_end fuel text pos brace_count in_escape = Some end_pos ->
  pos <= end_pos < len text \/ end_pos = len text - 1.
Proof.
  revert pos brace_count in_escape.
  induction fuel as [|fuel IH]; intros pos brace_count in_escape; [discriminate |].
  cbn [scan_field_end].
  destruct (String.get pos text) as [char|] eqn:Hget; [| intros [= <-]; right; reflexivity].
  apply get_some_lt in Hget.
  repeat match goal with
         | |- context [if ?b then _ else _] => destruct b
         end;
    intros H; try (injection H as <-; left; lia);
    apply IH in H; lia.
Qed.

(** One round of the fix leaves the text as it is, when no field opens in
    it, or makes it longer by the key it writes in front of the content. *)
Lemma fix_single_tikz_field_len (fuel : nat) (text new_response : string) :
  fix_single_tikz_field fuel text = Some new_response ->
  match search tikz_open text with
  | None => new_response = text
  | Some _ => len text + 14 <= len new_response
  end.
Proof.
  unfold fix_single_tikz_field.
  destruct (search tikz_open text) as [m|]; [| intros [= <-]; reflexivity].
  destruct (scan_field_end fuel text (m_end m) 0 false) as [end_pos|] eqn:Hscan;
    [| discriminate].
  intros [= <-]. apply scan_field_end_range in Hscan.
  pose proof (escape_tikz_content_len (slice (m_end m) end_pos text)) as Hesc.
  unfold slice in Hesc. rewrite len_take, len_drop in Hesc.
  unfold slice, tikz_field. rewrite !len_append, len_take, len_drop.
  change (len TIKZ_KEY) with 12. change (len " ") with 1. change (len (chr dq)) with 1.
  lia.
Qed.

Lemma fix_loop_len (remaining fuel : nat) (text fixed : string) :
  fix_loop remaining fuel text = Some fixed -> len text <= len fixed.
Proof.
  revert text. induction remaining as [|remaining IH]; intros text; simpl.
  - intros [= <-]. lia.
  - destruct (contains TIKZ_KEY text); [| intros [= <-]; lia].
    destruct (fix_single_tikz_field fuel text) as [new_response|] eqn:Hfix;
      [| discriminate].
    destruct (String.eqb new_response text); [intros [= <-]; lia |].
    intros H. apply IH in H. apply fix_single_tikz_field_len in Hfix.
    destruct (search tikz_open text); [lia | subst; lia].
Qed.

Lemma fix_loop_grows (remaining fuel : nat) (text fixed : string) (m : found) :
  contains TIKZ_KEY text = true ->
  search tikz_open text = Some m ->
  fix_loop (S remaining) fuel text = Some fixed ->
  len text + 14 <= len fixed.
Proof.
  intros Hmarker Hopen. cbn [fix_loop]. rewrite Hmarker.
  destruct (fix_single_tikz_field fuel text) as [new_response|] eqn:Hfix; [| discriminate].
  apply fix_single_tikz_field_len in Hfix. rewrite Hopen in Hfix.
  assert (Hne : String.eqb new_response text = false).
  { apply String.eqb_neq. intros ->. lia. }
  rewrite Hne. intros H. apply fix_loop_len in H. lia.
Qed.

(** X5. Whenever the marker is in the text and a field opens after it (the
    marker, blanks, a quote), the pre-pass, if it returns at all, returns a
    text at least 14 characters longer than the one it was given: it never
    hands a well-formed response on to [json.loads] as it is. *)
Theorem prepass_never_keeps_a_field (fuel : nat) (text fixed : string) (m : found) :
  contains TIKZ_KEY text = true ->
  search tikz_open text = Some m ->
  fix_tikz_json_parsing fuel text = Some fixed ->
  len text + 14 <= len fixed /\ fixed <> text.
Proof.
  intros Hmarker Hopen. unfold fix_tikz_json_parsing. rewrite Hmarker. cbn [negb].
  intros H. apply (fix_loop_grows _ _ _ _ m Hmarker Hopen) in H.
  split; [exact H | intros ->; lia].
Qed.

End Prepass.

Lemma prepass_never_keeps_a_field_witness :
  PyStr.len Responses.plain_field + 14
  <= PyStr.len (LlmUtils.quoted "[{'tikz_code': '"
                +:+ PyStr.join "" (repeat (LlmUtils.quoted "'tikz_code': '") 10)
                +:+ LlmUtils.quoted "abc'}]")
  /\ LlmUtils.quoted "[{'tikz_code': '"
     +:+ PyStr.join "" (repeat (LlmUtils.quoted "'tikz_code': '") 10)
     +:+ LlmUtils.quoted "abc'}]"
     <> Responses.plain_field.
Proof.
  apply (prepass_never_keeps_a_field 100 Responses.plain_field _ (Re.mkFound 2 16 [])).
  - vm_compute. reflexivity.
  - vm_compute. reflexivity.
  - vm_compute. reflexivity.
Defined.

Section BraceInField.
Import PyStr Eff Re LlmUtils.

(** X6. When the content of the first field opens with a brace, the
    pre-pass runs out of any fuel, and so do [parse_json_response] and
    [process_llm_response], whatever the decoders would have answered: the
    call does not return. *)
Theorem field_opening_with_a_brace_never_returns (L : Lib) (text : string) (m : found) :
  strip text <> "" ->
  contains TIKZ_KEY text = true ->
  search tikz_open text = Some m ->
  String.get (m_end m) text = Some "{"%char
  \/ String.get (m_end m) text = Some "}"%char ->
  forall fuel : nat,
    fix_tikz_json_parsing fuel text = None
    /\ parse_json_response L fuel text = ([], OutOfFuel).
Proof.
  intros Hb Hmarker Hopen Hbrace fuel.
  assert (Hfix : fix_tikz_json_parsing fuel text = None).
  { unfold fix_tikz_json_parsing. rewrite Hmarker. cbn [negb].
    change 10 with (S 9). cbn [fix_loop]. rewrite Hmarker.
    unfold fix_single_tikz_field. rewrite Hopen.
    destruct Hbrace as [Hget|Hget].
    - rewrite (scan_stuck_on_opening_brace _ _ Hget). reflexivity.
    - rewrite (scan_stuck_on_closing_brace _ _ Hget). reflexivity. }
  split; [exact Hfix |].
  unfold parse_json_response. rewrite Hfix.
  destruct (strip text); [contradiction | reflexivity].
Qed.

End BraceInField.

Lemma field_opening_with_a_brace_never_returns_witness :
  LlmUtils.fix_tikz_json_parsing 1000 Responses.brace_field = None
  /\ LlmUtils.parse_json_response Responses.recorded 1000 Responses.brace_field
     = ([], LlmUtils.OutOfFuel).
Proof.
  apply (field_opening_with_a_brace_never_returns Responses.recorded
           Responses.brace_field (Re.mkFound 2 16 [])).
  - vm_compute. discriminate.
  - vm_compute. reflexivity.
  - vm_compute. reflexivity.
  - left. vm_compute. reflexivity.
Defined.

(** ** Response cleaning and escaping *)

Section Cleaning.
Import PyStr LlmUtils.

Lemma clean_char_not_stray (c : ascii) : is_stray_control (clean_char c) = false.
Proof.
  unfold clean_char. fold (is_stray_control c).
  destruct (is_stray_control c) eqn:H; [reflexivity | exact H].
Qed.

Lemma clean_char_fixed (c : ascii) : is_stray_control c = false -> clean_char c = c.
Proof. intros H. unfold clean_char. fold (is_stray_control c). rewrite H. reflexivity. Qed.

(** X7. [clean_response_text] keeps the length of the text, leaves no
    control character in it other than the line feed, the tab and the
    carriage return, changes nothing when applied a second time, and gives
    back a text that has no such character as it is. *)
Theorem clean_response_text_invariants (text : string) :
  len (clean_response_text text) = len text
  /\ any_char is_stray_control (clean_response_text text) = false
  /\ clean_response_text (clean_response_text text) = clean_response_text text
  /\ (any_char is_stray_control text = false -> clean_response_text text = text).
Proof.
  induction text as [|c text (Hlen & Hnone & Hidem & Hid)].
  - repeat split; reflexivity.
  - cbn [clean_response_text any_char]. repeat split.
    + unfold len in *. simpl. f_equal. exact Hlen.
    + rewrite clean_char_not_stray, Hnone. reflexivity.
    + rewrite (clean_char_fixed _ (clean_char_not_stray c)), Hidem. reflexivity.
    + intros H. apply orb_false_iff in H as [Hc Hrest].
      rewrite (clean_char_fixed _ Hc), (Hid Hrest). reflexivity.
Qed.

(** A backslash that is not the last character is doubled, whatever comes
    after it. *)
Lemma escape_backslashes_cons (a : ascii) (rest : string) :
  rest <> "" ->
  escape_backslashes (String a rest)
  = if Ascii.eqb a bs then chr bs +:+ chr bs +:+ escape_backslashes rest
    else String a (escape_backslashes rest).
Proof.
  intros Hne. destruct rest as [|next_char tail]; [contradiction |].
  cbn [escape_backslashes].
  destruct (Ascii.eqb a bs); [| reflexivity].
  destruct (isalpha next_char); [| destruct (existsb _ _)]; reflexivity.
Qed.

(** X8. [escape_backslashes] doubles every backslash of the text except one
    that is its last character: on a text followed by one more character it
    is [replace] of a backslash by two on the text, followed by that
    character as it is. The three branches of the source (a letter follows,
    a JSON escape follows, anything else follows) do the same. *)
Theorem escape_backslashes_doubles_all_but_last (text : string) (c : ascii) :
  escape_backslashes (text +:+ chr c)
  = replace (chr bs) (chr bs +:+ chr bs) text +:+ chr c.
Proof.
  unfold replace. induction text as [|a text IH]; [reflexivity |].
  change ((String a text) +:+ chr c) with (String a (text +:+ chr c)).
  rewrite escape_backslashes_cons by (destruct text; discriminate).
  rewrite IH. unfold chr. cbn [replace_from startswith].
  rewrite (Ascii.eqb_sym bs a).
  destruct (Ascii.eqb a bs); reflexivity.
Qed.

End Cleaning.

(** ** Substrings, [find], [split] and [join] *)

Section StringFacts.
Import PyStr.
#[local] Arguments String.append : simpl nomatch.

Lemma append_assoc (a b c : string) : (a +:+ b) +:+ c = a +:+ (b +:+ c).
Proof. induction a as [|x a IH]; simpl; [reflexivity | f_equal; exact IH]. Qed.

Lemma append_nil_r (a : string) : a +:+ "" = a.
Proof. induction a as [|x a IH]; simpl; [reflexivity | f_equal; exact IH]. Qed.

Lemma startswith_split (p s : string) :
  startswith p s = true -> exists b, s = p +:+ b.
Proof.
  revert s. induction p as [|x p IH]; intros s H; [exists s; reflexivity |].
  destruct s as [|y s]; simpl in H; [discriminate |].
  destruct (Ascii.eqb x y) eqn:Hxy; [| discriminate].
  apply Ascii.eqb_eq in Hxy. subst y.
  destruct (IH s H) as [b ->]. exists b. reflexivity.
Qed.

Lemma startswith_append (p b : string) : startswith p (p +:+ b) = true.
Proof. induction p as [|x p IH]; simpl; [reflexivity |]. rewrite Ascii.eqb_refl. exact IH. Qed.

Lemma contains_split (p s : string) :
  contains p s = true -> exists a b, s = a +:+ p +:+ b.
Proof.
  induction s as [|c s IH]; simpl; intros H.
  - apply orb_true_iff in H as [H|H]; [| discriminate].
    destruct (startswith_split _ _ H) as [b Hb]. exists "", b. exact Hb.
  - apply orb_true_iff in H as [H|H].
    + destruct (startswith_split _ _ H) as [b Hb]. exists "", b. exact Hb.
    + destruct (IH H) as [a [b ->]]. exists (String c a), b. reflexivity.
Qed.

Lemma contains_append (p a b : string) : contains p (a +:+ p +:+ b) = true.
Proof.
  induction a as [|c a IH].
  - simpl. destruct (p +:+ b) eqn:E; simpl; rewrite <- E, startswith_append; reflexivity.
  - simpl. rewrite IH. apply orb_true_r.
Qed.

(** A substring of a part is a substring of the whole. *)
Lemma contains_inside (p a s b : string) :
  contains p s = true -> contains p (a +:+ s +:+ b) = true.
Proof.
  intros H. destruct (contains_split _ _ H) as [a' [b' ->]].
  rewrite !append_assoc, <- (append_assoc a a'). apply contains_append.
Qed.

Lemma contains_find (p s : string) :
  contains p s = true ->
  exists i, find p s = Some i /\ startswith p (drop i s) = true.
Proof.
  induction s as [|c s IH]; intros H.
  - simpl in H. apply orb_true_iff in H as [H|H]; [| discriminate].
    exists 0. cbn [find]. rewrite H. split; [reflexivity | exact H].
  - cbn [find]. destruct (startswith p (String c s)) eqn:Hs.
    + exists 0. split; [reflexivity | exact Hs].
    + cbn [contains] in H. rewrite Hs in H. simpl in H.
      destruct (IH H) as [i [Hi Hd]]. exists (S i). rewrite Hi. split; [reflexivity | exact Hd].
Qed.

Lemma drop_drop (n m : nat) (s : string) : drop n (drop m s) = drop (m + n) s.
Proof.
  revert m. induction s as [|c s IH]; intros [|m]; simpl.
  - destruct n; reflexivity.
  - destruct n; reflexivity.
  - reflexivity.
  - apply IH.
Qed.

Lemma string_of_list_ascii_app (l1 l2 : list ascii) :
  string_of_list_ascii (l1 ++ l2) = string_of_list_ascii l1 +:+ string_of_list_ascii l2.
Proof. induction l1 as [|x l1 IH]; simpl; [reflexivity | f_equal; exact IH]. Qed.

Lemma join_cons (sep x y : string) (l : list string) :
  join sep (x :: y :: l) = x +:+ sep +:+ join sep (y :: l).
Proof. reflexivity. Qed.

(** Splitting at a one-character separator: [cur] holds, reversed, the
    characters read since the last separator. *)
Lemma join_split_from (c : ascii) (s : string) (cur : list ascii) :
  join (String c EmptyString) (split_from 0 (String c EmptyString) cur s)
  = string_of_list_ascii (rev cur) +:+ s.
Proof.
  revert cur. induction s as [|x s IH]; intros cur.
  - simpl. rewrite append_nil_r. reflexivity.
  - cbn [split_from startswith]. destruct (Ascii.eqb c x) eqn:Hcx.
    + apply Ascii.eqb_eq in Hcx. subst x.
      change (len (String c EmptyString) - 1) with 0.
      specialize (IH []). simpl in IH.
      destruct (split_from 0 (String c EmptyString) [] s) as [|piece rest] eqn:Hsp.
      { destruct s; simpl in Hsp; [discriminate |].
        destruct (Ascii.eqb c a); discriminate. }
      rewrite join_cons, IH. reflexivity.
    + rewrite IH. simpl. rewrite string_of_list_ascii_app, append_assoc. reflexivity.
Qed.

(** ['\n'.join(text.split('\n')) == text] *)
Lemma join_split (c : ascii) (s : string) :
  join (String c EmptyString) (split (String c EmptyString) s) = s.
Proof. unfold split. rewrite join_split_from. reflexivity. Qed.

(** Every piece of a split is a part of the text. *)
Lemma split_from_pieces (c : ascii) (s : string) (cur : list ascii) (piece : string) :
  In piece (split_from 0 (String c EmptyString) cur s) ->
  exists a b, string_of_list_ascii (rev cur) +:+ s = a +:+ piece +:+ b.
Proof.
  revert cur. induction s as [|x s IH]; intros cur.
  - simpl. intros [<-|[]]. exists "", "". rewrite append_nil_r. reflexivity.
  - cbn [split_from startswith]. destruct (Ascii.eqb c x) eqn:Hcx.
    + change (len (String c EmptyString) - 1) with 0. intros [<-|Hin].
      * exists "", (String x s). reflexivity.
      * destruct (IH [] Hin) as [a [b Hab]]. simpl in Hab.
        exists (string_of_list_ascii (rev cur) +:+ String x a), b.
        rewrite Hab, !append_assoc. reflexivity.
    + intros Hin. destruct (IH (x :: cur) Hin) as [a [b Hab]].
      exists a, b. rewrite <- Hab. simpl.
      rewrite string_of_list_ascii_app, append_assoc. reflexivity.
Qed.

Lemma split_pieces_contain (c : ascii) (p s piece : string) :
  In piece (split (String c EmptyString) s) ->
  contains p piece = true -> contains p s = true.
Proof.
  intros Hin Hp. destruct (split_from_pieces _ _ _ _ Hin) as [a [b Hab]].
  simpl in Hab. rewrite Hab. apply contains_inside. exact Hp.
Qed.

End StringFacts.

(** ** The fallbacks of the recovery chain on texts without the marker *)

Section MarkerFree.
Import PyStr Eff Re LlmUtils.
#[local] Arguments String.append : simpl nomatch.

(** A pattern that opens with a literal matches only where the literal is. *)
Lemma go_Lit {R} (lit : string) (rest : regex) (prev : option ascii) (s : string)
  (pos : nat) (caps : captures)
  (k : option ascii -> string -> nat -> captures -> option R) (x : R) :
  go (Lit lit rest) prev s pos caps k = Some x -> startswith lit s = true.
Proof.
  revert prev s pos. induction lit as [|c lit IH]; intros prev s pos H; [reflexivity |].
  cbn [Lit go] in H. destruct s as [|c' s]; [discriminate |].
  cbn [startswith]. destruct (Ascii.eqb c c'); [| discriminate].
  eapply IH. exact H.
Qed.

Lemma match_here_Lit (lit : string) (rest : regex) (prev : option ascii) (s : string)
  (pos : nat) :
  startswith lit s = false -> match_here (Lit lit rest) prev s pos = None.
Proof.
  intros Hs. unfold match_here.
  destruct (go (Lit lit rest) prev s pos [] _) eqn:Hgo; [| reflexivity].
  apply go_Lit in Hgo. congruence.
Qed.

(** Substitution of a pattern that opens with a literal leaves a text
    without the literal as it is. *)
Lemma sub_from_Lit_absent (lit : string) (rest : regex) (repl : found -> string)
  (s : string) (prev : option ascii) (pos : nat) :
  contains lit s = false -> sub_from (Lit lit rest) repl 0 prev s pos = s.
Proof.
  revert prev pos. induction s as [|c s IH]; intros prev pos H; [reflexivity |].
  cbn [contains] in H. apply orb_false_iff in H as [Hs Hc].
  cbn [sub_from]. rewrite (match_here_Lit _ _ _ _ _ Hs), (IH _ _ Hc). reflexivity.
Qed.

Lemma fix_lines_without_marker (lines : list string) (in_tikz : bool) :
  Forall (fun line => contains TIKZ_KEY line = false) lines ->
  in_tikz = false ->
  fix_lines in_tikz lines = lines.
Proof.
  intros Hall ->. induction Hall as [|line lines Hline Hall IH]; [reflexivity |].
  cbn [fix_lines]. rewrite Hline. cbn [andb]. rewrite IH. reflexivity.
Qed.

(** X9. On a text without the marker [manually_fix_tikz_quotes] returns the
    text itself: the substitution finds no field, and the line-by-line pass
    that follows escapes quotes only after a line that has the marker. *)
Theorem manually_fix_tikz_quotes_without_marker (text : string) :
  contains TIKZ_KEY text = false ->
  manually_fix_tikz_quotes text = text.
Proof.
  intros Hm. unfold manually_fix_tikz_quotes, sub_with, tikz_escaped_field.
  rewrite (sub_from_Lit_absent _ _ _ _ _ _ Hm). cbv zeta. rewrite String.eqb_refl.
  rewrite fix_lines_without_marker; [apply join_split | | reflexivity].
  apply Forall_forall. intros line Hin.
  destruct (contains TIKZ_KEY line) eqn:Hline; [| reflexivity].
  apply list_elem_of_In in Hin.
  rewrite (split_pieces_contain _ _ _ _ Hin Hline) in Hm. discriminate.
Qed.

Lemma dict_set_fresh (key value : string) (d : list (string * string)) :
  has_key key d = false -> Renderer.dict_set key value d = d ++ [(key, value)].
Proof.
  induction d as [|[k v] d IH]; [reflexivity |].
  cbn [has_key existsb fst Renderer.dict_set]. intros H.
  apply orb_false_iff in H as [Hk Hd]. rewrite Hk.
  unfold has_key in IH. rewrite (IH Hd). reflexivity.
Qed.

(** What the special handling of [tikz_code] reads: the first two quotes
    from the marker on are the quotes of the key itself. *)
Lemma manual_tikz_content_is_the_key (text : string) :
  contains TIKZ_KEY text = true -> manual_tikz_content text = Some "tikz_code".
Proof.
  intros Hm. destruct (contains_find _ _ Hm) as [i [Hfind Hstart]].
  destruct (startswith_split _ _ Hstart) as [b Hb].
  unfold manual_tikz_content. rewrite Hfind.
  unfold find_at. rewrite Hb.
  change (find (chr dq) (TIKZ_KEY +:+ b)) with (Some 0).
  cbn [fmap option_fmap option_map].
  replace (i + 0 + 1) with (i + 1) by lia.
  rewrite <- (drop_drop 1 i text), Hb.
  change (find (chr dq) (drop 1 (TIKZ_KEY +:+ b))) with (Some 9).
  cbn [fmap option_fmap option_map].
  unfold slice. rewrite <- (drop_drop 1 i text), Hb.
  replace (i + 1 + 9 - (i + 1)) with 9 by lia.
  reflexivity.
Qed.

(** X10. Whenever the text has the marker and no pair read by the pattern
    has the key [tikz_code], [extract_simple_kv_pairs] adds the entry
    [tikz_code] with the value 'tikz_code': its special handling takes the
    two quotes of the key for the quotes of the content, so what it stores
    is the name of the key and never the diagram source. *)
Theorem extract_simple_kv_pairs_stores_the_key (text : string) :
  contains TIKZ_KEY text = true ->
  has_key "tikz_code" (kv_pairs text) = false ->
  extract_simple_kv_pairs text = Some (kv_pairs text ++ [("tikz_code", "tikz_code")]).
Proof.
  intros Hm Hfresh. unfold extract_simple_kv_pairs. fold (kv_pairs text). cbv zeta.
  assert (Hname : contains "tikz_code" text = true).
  { destruct (contains_split _ _ Hm) as [a [b ->]].
    change TIKZ_KEY with (chr dq +:+ "tikz_code" +:+ (chr dq +:+ ":")).
    rewrite !append_assoc, <- (append_assoc a (chr dq)). apply contains_append. }
  rewrite Hname, Hfresh, (manual_tikz_content_is_the_key _ Hm). cbn [andb negb].
  rewrite (dict_set_fresh _ _ _ Hfresh).
  destruct (kv_pairs text); reflexivity.
Qed.

End MarkerFree.

Lemma manually_fix_tikz_quotes_without_marker_witness :
  LlmUtils.manually_fix_tikz_quotes Responses.two_records = Responses.two_records.
Proof.
  apply (manually_fix_tikz_quotes_without_marker Responses.two_records).
  vm_compute. reflexivity.
Defined.

Lemma extract_simple_kv_pairs_stores_the_key_witness :
  LlmUtils.extract_simple_kv_pairs (LlmUtils.quoted "{'id': '7', 'tikz_code': null}")
  = Some [("id", "7"); ("tikz_code", "tikz_code")].
Proof.
  apply (extract_simple_kv_pairs_stores_the_key
           (LlmUtils.quoted "{'id': '7', 'tikz_code': null}")).
  - vm_compute. reflexivity.
  - vm_compute. reflexivity.
Defined.

Section Reconstruction.
Import PyStr Eff Re LlmUtils.

Lemma star_any_then_absent {R} (c : ascii) (s : string) :
  count c s = 0 ->
  forall (prev : option ascii) (pos : nat) (caps : captures)
         (k : option ascii -> string -> nat -> captures -> option R),
    go (Seq (Star Any) (Chr c)) prev s pos caps k = None.
Proof.
  induction s as [|x s IH]; intros Hc prev pos caps k.
  - reflexivity.
  - cbn [count] in Hc. destruct (Ascii.eqb c x) eqn:Hcx; [discriminate |].
    specialize (IH Hc (Some x) (S pos) caps k).
    cbn [go Any String.length] in *. 
    replace (pos <? S pos)%nat with true by (symmetry; apply Nat.ltb_lt; lia).
    rewrite IH, Hcx. reflexivity.
Qed.

Lemma search_bracketed_absent (s : string) (prev : option ascii) (pos : nat) :
  count "]"%char s = 0 -> search_from bracketed prev s pos = None.
Proof.
  revert prev pos. induction s as [|x s IH]; intros prev pos Hc; [reflexivity |].
  cbn [count] in Hc. destruct (Ascii.eqb "]"%char x) eqn:Hx; [discriminate |].
  cbn [search_from]. rewrite (IH _ _ Hc).
  unfold match_here, bracketed. cbn [go].
  destruct (Ascii.eqb "["%char x); [| reflexivity].
  pose proof (star_any_then_absent (R := found) "]"%char s Hc (Some x) (S pos) []
                (fun _ _ pos' caps => Some (mkFound pos pos' caps))) as H.
  cbn [go] in H. rewrite H. reflexivity.
Qed.

Lemma object_starts_absent (s : string) (pos : nat) :
  count "{"%char s = 0 -> object_starts s pos = [].
Proof.
  revert pos. induction s as [|x s IH]; intros pos Hc; [reflexivity |].
  cbn [count] in Hc. cbn [object_starts]. rewrite (Ascii.eqb_sym x "{"%char).
  destruct (Ascii.eqb "{"%char x); [discriminate |]. apply IH. exact Hc.
Qed.

(** X11. On a text with no opening brace and no closing bracket
    [reconstruct_json_from_partial] finds no object and no array: it raises
    its [ValueError] without calling a decoder. *)
Theorem reconstruct_needs_a_brace_or_a_bracket (L : Lib) (text : string) :
  count "{"%char text = 0 ->
  count "]"%char text = 0 ->
  reconstruct_json_from_partial L text
  = Err (mkExn ValueError "Failed to reconstruct any valid JSON from response").
Proof.
  intros Hbrace Hbracket. unfold reconstruct_json_from_partial, search.
  rewrite (object_starts_absent _ _ Hbrace), (search_bracketed_absent _ _ _ Hbracket).
  reflexivity.
Qed.

End Reconstruction.

Lemma reconstruct_needs_a_brace_or_a_bracket_witness :
  LlmUtils.reconstruct_json_from_partial Responses.recorded "[1, 2"
  = Eff.Err (Eff.mkExn Eff.ValueError "Failed to reconstruct any valid JSON from response").
Proof.
  apply (reconstruct_needs_a_brace_or_a_bracket Responses.recorded "[1, 2"); reflexivity.
Defined.

(** ** Fenced blocks *)

Section Fences.
Import PyStr LlmUtils.
#[local] Arguments String.append : simpl nomatch.

Lemma split_from_skip (sep : string) (k : nat) (s : string) (cur : list ascii) :
  split_from k sep cur s = split_from 0 sep cur (drop k s).
Proof.
  revert k. induction s as [|c s IH]; intros [|k]; try reflexivity.
  cbn [split_from drop]. apply IH.
Qed.

(** [s.split(sep)] cuts at the first place where [sep] is found, and goes on
    after it. *)
Lemma split_from_find (sep : string) (s : string) (cur : list ascii) :
  sep <> "" ->
  split_from 0 sep cur s
  = match find sep s with
    | Some i =>
        (string_of_list_ascii (rev cur) +:+ take i s)
          :: split_from 0 sep [] (drop (i + len sep) s)
    | None => [string_of_list_ascii (rev cur) +:+ s]
    end.
Proof.
  intros Hsep. revert cur. induction s as [|c s IH]; intros cur.
  - cbn [find split_from]. destruct sep as [|x sep]; [contradiction |].
    cbn [startswith]. rewrite append_nil_r. reflexivity.
  - cbn [find split_from]. destruct (startswith sep (String c s)) eqn:Hs.
    + rewrite split_from_skip. cbn [take]. rewrite append_nil_r.
      destruct sep as [|x sep]; [contradiction |].
      cbn [len String.length Nat.sub Nat.add drop]. rewrite Nat.sub_0_r. reflexivity.
    + rewrite IH. destruct (find sep s) as [i|]; cbn [fmap option_fmap option_map].
      * cbn [rev take Nat.add drop].
        rewrite string_of_list_ascii_app, append_assoc. reflexivity.
      * cbn [rev]. rewrite string_of_list_ascii_app, append_assoc. reflexivity.
Qed.

Lemma find_absent (c : ascii) (sep s : string) :
  count c s = 0 -> find (String c sep) s = None.
Proof.
  induction s as [|x s IH]; intros Hc; [reflexivity |].
  cbn [count] in Hc. cbn [find startswith].
  destruct (Ascii.eqb c x); [discriminate |]. rewrite (IH Hc). reflexivity.
Qed.

Lemma find_after (c : ascii) (sep a s : string) :
  count c a = 0 ->
  find (String c sep) (a +:+ s) = (fun i => len a + i) <$> find (String c sep) s.
Proof.
  induction a as [|x a IH]; intros Hc.
  - cbn [String.append len String.length]. destruct (find (String c sep) s); reflexivity.
  - cbn [count] in Hc. change (String x a +:+ s) with (String x (a +:+ s)).
    cbn [find startswith]. destruct (Ascii.eqb c x); [discriminate |].
    rewrite (IH Hc). destruct (find (String c sep) s); reflexivity.
Qed.

Lemma take_append (a s : string) : take (len a) (a +:+ s) = a.
Proof. induction a as [|x a IH]; [destruct s; reflexivity |]. simpl. f_equal. exact IH. Qed.

Lemma drop_append (a s : string) : drop (len a) (a +:+ s) = s.
Proof. induction a as [|x a IH]; [reflexivity |]. simpl. exact IH. Qed.

Lemma contains_absent (c : ascii) (sep s : string) :
  count c s = 0 -> contains (String c sep) s = false.
Proof.
  induction s as [|x s IH]; intros Hc; [reflexivity |].
  cbn [count] in Hc. cbn [contains startswith].
  destruct (Ascii.eqb c x); [discriminate |]. apply IH. exact Hc.
Qed.

(** Where a fence, with or without a tag after it, is found. *)
Lemma find_fence_after (tag a s : string) :
  count "`"%char a = 0 ->
  find (fence +:+ tag) (a +:+ s) = (fun i => len a + i) <$> find (fence +:+ tag) s.
Proof. exact (find_after "`"%char ("``" +:+ tag) a s). Qed.

Lemma find_fence_absent (tag s : string) :
  count "`"%char s = 0 -> find (fence +:+ tag) s = None.
Proof. exact (find_absent "`"%char ("``" +:+ tag) s). Qed.

Lemma find_fence_here (tag post : string) :
  count "`"%char post = 0 ->
  find (fence +:+ tag) (fence +:+ post) = if startswith tag post then Some 0 else None.
Proof.
  intros Hpost.
  change (fence +:+ post) with (String "`"%char (String "`"%char (String "`"%char post))).
  change (fence +:+ tag) with (String "`"%char (String "`"%char (String "`"%char tag))).
  cbn [find startswith]. rewrite !Ascii.eqb_refl.
  destruct (startswith tag post); [reflexivity |].
  change (String "`"%char (String "`"%char (String "`"%char tag))) with (fence +:+ tag).
  rewrite (find_fence_absent _ _ Hpost).
  destruct post as [|p0 post]; [reflexivity |].
  cbn [count] in Hpost. destruct (Ascii.eqb "`"%char p0); [discriminate | reflexivity].
Qed.

Lemma append_fence_nil (tag : string) : fence +:+ tag <> "".
Proof. discriminate. Qed.

(** The first piece of the text after an opening fence, cut at the next
    fence: the body of the block. *)
Lemma first_piece_of_block (tag body post : string) :
  count "`"%char body = 0 ->
  count "`"%char post = 0 ->
  nth 0 (split fence (nth 0 (split (fence +:+ tag) (body +:+ fence +:+ post)) "")) ""
  = body.
Proof.
  intros Hbody Hpost. unfold split.
  rewrite (split_from_find (fence +:+ tag)) by apply append_fence_nil.
  rewrite (find_fence_after _ _ _ Hbody), (find_fence_here _ _ Hpost).
  pose proof (split_from_find (fence +:+ "") body [] (append_fence_nil "")) as Hin1.
  rewrite (find_fence_absent _ _ Hbody) in Hin1.
  pose proof (split_from_find (fence +:+ "") (body +:+ fence +:+ post) []
                (append_fence_nil "")) as Hin2.
  rewrite (find_fence_after _ _ _ Hbody), (find_fence_here "" _ Hpost) in Hin2.
  change (fence +:+ "") with fence in Hin1, Hin2.
  destruct (startswith tag post); cbn [fmap option_fmap option_map nth].
  - rewrite Nat.add_0_r, take_append.
    change (string_of_list_ascii (rev []) +:+ body) with body.
    rewrite Hin1. reflexivity.
  - change (string_of_list_ascii (rev []) +:+ (body +:+ fence +:+ post))
      with (body +:+ fence +:+ post).
    rewrite Hin2. cbn [startswith fmap option_fmap option_map nth].
    rewrite Nat.add_0_r, take_append. reflexivity.
Qed.

(** A text with one block fenced by three backticks and the tag json, and
    no other backtick before, inside or after it, is answered with the body
    of the block, stripped. *)
Lemma fenced_block_body (pre body post : string) :
  count "`"%char pre = 0 ->
  count "`"%char body = 0 ->
  count "`"%char post = 0 ->
  extract_json_from_markdown (pre +:+ (fence +:+ "json") +:+ body +:+ fence +:+ post)
  = strip body.
Proof.
  intros Hpre Hbody Hpost. unfold extract_json_from_markdown.
  change "```json" with (fence +:+ "json").
  rewrite contains_append. f_equal.
  unfold split at 2.
  rewrite (split_from_find (fence +:+ "json")) by apply append_fence_nil.
  rewrite (find_fence_after _ _ _ Hpre).
  change (find (fence +:+ "json") ((fence +:+ "json") +:+ body +:+ fence +:+ post))
    with (Some 0).
  cbn [fmap option_fmap option_map nth].
  rewrite Nat.add_0_r, <- (drop_drop (len (fence +:+ "json")) (len pre)), !drop_append.
  apply (first_piece_of_block "json"); assumption.
Qed.

End Fences.

(** ** Validators *)

Section Validators.
Import PyStr Schemas Renderer QuestionValidator.

Lemma strip_empty_len (s : string) : len s = 0 -> len (strip s) = 0.
Proof. destruct s; [reflexivity | discriminate]. Qed.

(** [not s or len(s.strip()) < n] fails exactly when the stripped text has
    at least [n] characters, for [n] at least 1. *)
Lemma missing_false (s : string) (n : nat) :
  0 < n -> (missing s n = false <-> n <= len (strip s)).
Proof.
  intros Hn. unfold missing. rewrite orb_false_iff, Nat.eqb_neq, Nat.ltb_ge.
  split; [tauto |]. intros H. split; [| exact H].
  intros H0. apply strip_empty_len in H0. lia.
Qed.

Lemma validate_instance_valid (question : QuestionInstance) :
  fst (validate_instance question) = true <->
  10 <= len (strip (question_text question)) /\
  1 <= len (strip (correct_answer question)) /\
  variables question <> ∅ /\
  fst (TikZValidator.validate (tikz_code question)) = true.
Proof.
  rewrite <- (missing_false (question_text question) 10) by lia.
  rewrite <- (missing_false (correct_answer question) 1) by lia.
  rewrite <- (map_size_non_empty_iff (variables question)).
  unfold validate_instance.
  destruct (TikZValidator.validate (tikz_code question)) as [tikz_valid tikz_error].
  destruct (missing (question_text question) 10),
           (missing (correct_answer question) 1),
           (size (variables question)) as [|n], tikz_valid;
    cbn; intuition (try discriminate; try lia).
Qed.

Lemma validate_instance_errors (question : QuestionInstance) :
  fst (validate_instance question) = false -> snd (validate_instance question) <> [].
Proof.
  unfold validate_instance.
  destruct (TikZValidator.validate (tikz_code question)) as [tikz_valid tikz_error].
  cbn [fst snd]. intros H Hnil. rewrite Hnil in H. discriminate.
Qed.

Lemma instance_errors_nil (pid : Z) (seen : gset Z) (i : nat) (q : QuestionInstance) :
  instance_errors pid seen i q = [] <->
  (instance_id q ∉ seen) /\ q_pattern_id q = pid /\ fst (validate_instance q) = true.
Proof.
  unfold instance_errors.
  pose proof (validate_instance_errors q) as Herr.
  destruct (validate_instance q) as [valid q_errors]. cbn [fst snd] in *.
  destruct (bool_decide (instance_id q ∈ seen)) eqn:Hseen;
    [apply bool_decide_eq_true in Hseen | apply bool_decide_eq_false in Hseen];
    destruct (q_pattern_id q =? pid)%Z eqn:Hpid;
    [apply Z.eqb_eq in Hpid | apply Z.eqb_neq in Hpid
     | apply Z.eqb_eq in Hpid | apply Z.eqb_neq in Hpid];
    destruct valid; cbn [negb app];
    try (split; [discriminate | intros (? & ? & ?); try contradiction; discriminate]).
  - split; [intros _; auto | reflexivity].
  - split; [| intros (_ & _ & ?); discriminate].
    intros H. apply fmap_nil_inv in H. destruct (Herr eq_refl H).
Qed.

Lemma set_errors_nil (pid : Z) (seen : gset Z) (i : nat) (qs : list QuestionInstance) :
  set_errors pid seen i qs = [] <->
  Forall (fun q => instance_id q ∉ seen) qs /\
  NoDup (map instance_id qs) /\
  Forall (fun q => q_pattern_id q = pid /\ fst (validate_instance q) = true) qs.
Proof.
  revert seen i. induction qs as [|q qs IH]; intros seen i.
  - cbn. split; [intros _; repeat split; constructor | reflexivity].
  - cbn [set_errors map]. rewrite app_nil, instance_errors_nil, IH.
    rewrite !Forall_cons, NoDup_cons, list_elem_of_fmap.
    split.
    + intros ((Hseen & Hpid & Hvalid) & Hrest & Hnodup & Hall).
      repeat split; try assumption.
      * eapply Forall_impl; [exact Hrest |]. intros q' Hq'.
        apply not_elem_of_union in Hq'. tauto.
      * intros [q' [Heq Hin]]. rewrite Forall_forall in Hrest.
        apply (Hrest q' Hin). apply elem_of_union. left.
        apply elem_of_singleton. symmetry. exact Heq.
    + intros ((Hseen & Hrest) & (Hfresh & Hnodup) & (Hpid & Hvalid) & Hall).
      repeat split; try assumption.
      apply Forall_forall. intros q' Hin. rewrite Forall_forall in Hrest.
      specialize (Hrest q' Hin).
      apply not_elem_of_union. split; [| exact Hrest].
      apply not_elem_of_singleton. intros Heq. apply Hfresh. eauto.
Qed.


End Validators.

Section ValidatorsAgree.
Import PyStr Schemas Renderer QuestionValidator QuestionGenerator.

Lemma tikz_validator_not_short (tikz_code : string) :
  fst (TikZValidator.validate tikz_code) = true -> missing tikz_code 5 = false.
Proof.
  unfold TikZValidator.validate, missing, empty_or_too_short.
  destruct ((len tikz_code =? 0)%nat || (len (strip tikz_code) <? 5)%nat);
    [discriminate | reflexivity].
Qed.

Lemma loop_errors_nil (pid : Z) (seen : gset Z) (qs : list QuestionInstance) :
  Forall (fun q => instance_id q ∉ seen) qs ->
  NoDup (map instance_id qs) ->
  Forall (fun q => q_pattern_id q = pid /\ fst (validate_instance q) = true) qs ->
  loop_errors pid seen qs = [].
Proof.
  revert seen. induction qs as [|q qs IH]; intros seen Hseen Hnodup Hall; [reflexivity |].
  apply Forall_cons in Hseen as [Hq Hseen]. apply Forall_cons in Hall as [[Hpid Hvalid] Hall].
  cbn [map] in Hnodup. apply NoDup_cons in Hnodup as [Hfresh Hnodup].
  cbn [loop_errors]. rewrite IH; try assumption.
  - apply validate_instance_valid in Hvalid as (Htext & Hanswer & _ & Htikz).
    apply (missing_false _ 10) in Htext; [| lia].
    apply (missing_false _ 1) in Hanswer; [| lia].
    apply tikz_validator_not_short in Htikz.
    unfold question_errors. rewrite Htext, Hanswer, Htikz.
    rewrite bool_decide_eq_false_2 by exact Hq.
    apply Z.eqb_eq in Hpid. rewrite Hpid. reflexivity.
  - apply Forall_forall. intros q' Hin. rewrite Forall_forall in Hseen.
    apply not_elem_of_union. split; [| apply Hseen; exact Hin].
    apply not_elem_of_singleton. intros Heq. apply Hfresh.
    apply list_elem_of_fmap. eauto.
Qed.

(** X14. A question set that [QuestionValidator.validate_set] accepts gets
    no error from [QuestionGenerator.validate_questions], the check the
    orchestrator runs after generation: the validator of [src/validator.py]
    is at least as strict. *)
Theorem validate_set_implies_validate_questions (question_set : QuestionSet) :
  fst (validate_set question_set) = true ->
  validate_questions question_set = [].
Proof.
  unfold validate_set. cbn [fst]. rewrite Nat.eqb_eq, length_zero_iff_nil, app_nil.
  intros [Hcount Hset]. apply set_errors_nil in Hset as (Hseen & Hnodup & Hall).
  unfold validate_questions. rewrite (loop_errors_nil _ _ _ Hseen Hnodup Hall).
  destruct (length (questions question_set) =? 10)%nat eqn:Hlen; [| discriminate].
  apply Nat.eqb_eq in Hlen. rewrite Hlen. reflexivity.
Qed.

Lemma check_set_snoc (qs : list QuestionInstance) (q : QuestionInstance)
  (id : Z) (name topic : string) :
  check_set (mkQuestionSet id name (qs ++ [q]) topic)
  = <[instance_id q := SolvabilityChecker.check q]>
      (check_set (mkQuestionSet id name qs topic)).
Proof. unfold check_set. cbn [questions]. rewrite foldl_app. reflexivity. Qed.

(** X15. The dictionary [SolvabilityChecker.check_set] returns has an entry
    exactly for the instance ids of the set; when the ids are pairwise
    distinct the entry of each question is the answer of [check] on it; and
    it has never more entries than the set has questions (two questions
    with one id share an entry, which the later one takes). *)
Theorem check_set_entries (question_set : QuestionSet) :
  (forall id : Z,
      is_Some (check_set question_set !! id)
      <-> id ∈ map instance_id (questions question_set))
  /\ (NoDup (map instance_id (questions question_set)) ->
      forall q, q ∈ questions question_set ->
                check_set question_set !! instance_id q
                = Some (SolvabilityChecker.check q))
  /\ size (check_set question_set) <= length (questions question_set).
Proof.
  destruct question_set as [pid name qs topic]. cbn [questions].
  induction qs as [|q qs (Hdom & Hget & Hsize)] using rev_ind.
  - repeat split.
    + intros [x Hx]. unfold check_set in Hx. cbn in Hx. rewrite lookup_empty in Hx.
      discriminate.
    + intros H. apply elem_of_nil in H. destruct H.
    + intros _ q H. apply elem_of_nil in H. destruct H.
    + unfold check_set. cbn. rewrite map_size_empty. lia.
  - rewrite check_set_snoc. repeat split.
    + rewrite map_app. cbn [map]. intros H. apply elem_of_app.
      destruct (decide (id = instance_id q)) as [->|Hne].
      * right. apply list_elem_of_singleton. reflexivity.
      * left. rewrite lookup_insert_ne in H by congruence. apply Hdom. exact H.
    + rewrite map_app. cbn [map]. intros H. apply elem_of_app in H.
      destruct (decide (id = instance_id q)) as [->|Hne].
      * rewrite lookup_insert_eq. eauto.
      * rewrite lookup_insert_ne by congruence. apply Hdom.
        destruct H as [H|H]; [exact H |].
        apply list_elem_of_singleton in H. contradiction.
    + rewrite map_app. cbn [map]. intros Hnodup q' Hin.
      apply NoDup_app in Hnodup as (Hnodup & Hdisj & _).
      apply elem_of_app in Hin as [Hin|Hin].
      * assert (Hne : instance_id q' <> instance_id q).
        { intros Heq. apply (Hdisj (instance_id q')).
          - apply list_elem_of_fmap. eauto.
          - rewrite Heq. apply list_elem_of_singleton. reflexivity. }
        rewrite lookup_insert_ne by congruence. apply Hget; assumption.
      * apply list_elem_of_singleton in Hin. subst q'. apply lookup_insert_eq.
    + rewrite length_app. cbn [length].
      destruct (check_set (mkQuestionSet pid name qs topic) !! instance_id q) eqn:Hl.
      * rewrite map_size_insert_Some by (rewrite Hl; eauto). lia.
      * rewrite map_size_insert_None by exact Hl. lia.
Qed.

Lemma filter_nil_iff {A} (f : A -> bool) (l : list A) :
  List.filter f l = [] <-> (forall x, In x l -> f x = false).
Proof.
  induction l as [|a l IH]; cbn [List.filter].
  - split; [intros _ x [] | reflexivity].
  - destruct (f a) eqn:Hfa.
    + split; [discriminate |]. intros H. rewrite (H a) in Hfa by (left; reflexivity).
      discriminate.
    + rewrite IH. split.
      * intros H x [<-|Hin]; [exact Hfa | apply H; exact Hin].
      * intros H x Hin. apply H. right. exact Hin.
Qed.

(** X16. [ConsistencyChecker.check_variable_consistency] reports no error
    exactly when the instance and the pattern have the same variable names. *)
Theorem check_variable_consistency_empty (question_variables pattern_variables : list string) :
  ConsistencyChecker.check_variable_consistency question_variables pattern_variables = []
  <-> (forall var_name : string,
          var_name ∈ question_variables <-> var_name ∈ pattern_variables).
Proof.
  unfold ConsistencyChecker.check_variable_consistency.
  rewrite app_nil. split.
  - intros [Hq Hp] var_name.
    apply fmap_nil_inv in Hq. apply fmap_nil_inv in Hp.
    rewrite filter_nil_iff in Hq, Hp.
    split; intros Hin; apply list_elem_of_In in Hin.
    + specialize (Hq _ Hin). apply negb_false_iff, bool_decide_eq_true in Hq. exact Hq.
    + specialize (Hp _ Hin). apply negb_false_iff, bool_decide_eq_true in Hp. exact Hp.
  - intros Hsame. split.
    + replace (List.filter _ question_variables) with (@nil string); [reflexivity |].
      symmetry. apply filter_nil_iff. intros x Hin.
      apply negb_false_iff, bool_decide_eq_true, Hsame, list_elem_of_In. exact Hin.
    + replace (List.filter _ pattern_variables) with (@nil string); [reflexivity |].
      symmetry. apply filter_nil_iff. intros x Hin.
      apply negb_false_iff, bool_decide_eq_true, Hsame, list_elem_of_In. exact Hin.
Qed.

(** X17. A diagram source that [RobustTikZValidator.validate] accepts (the
    check of the orchestrator) is accepted by the renderer's own
    [_validate_tikz_code]: the renderer's deny-list is part of the
    validator's, and its other tests are among the validator's. *)
Theorem robust_validator_implies_renderer_check (tikz_code : string) :
  fst (RobustTikZValidator.validate tikz_code) = true ->
  _validate_tikz_code tikz_code = (true, None).
Proof.
  unfold RobustTikZValidator.validate, _validate_tikz_code.
  destruct (empty_or_too_short tikz_code); [discriminate |].
  destruct (count "{"%char tikz_code =? count "}"%char tikz_code)%nat; [| discriminate].
  destruct (count "["%char tikz_code =? count "]"%char tikz_code)%nat; [| discriminate].
  cbn [negb].
  destruct (first_forbidden RobustTikZValidator.forbidden_patterns tikz_code)
    as [pattern|] eqn:Hrobust; [discriminate |].
  intros _.
  destruct (first_forbidden renderer_forbidden_patterns tikz_code) as [pattern|] eqn:Hown;
    [| reflexivity].
  unfold first_forbidden in *. apply List.find_some in Hown as [Hin Hfound].
  assert (Hsub : In pattern RobustTikZValidator.forbidden_patterns).
  { unfold renderer_forbidden_patterns in Hin.
    unfold RobustTikZValidator.forbidden_patterns. cbn in *. tauto. }
  pose proof (List.find_none _ _ Hrobust pattern Hsub) as Hnone. cbn in Hnone. congruence.
Qed.

End ValidatorsAgree.

Lemma validate_set_implies_validate_questions_witness :
  QuestionGenerator.validate_questions ValidSet.circles = [].
Proof.
  apply (validate_set_implies_validate_questions ValidSet.circles).
  vm_compute. reflexivity.
Defined.

Lemma robust_validator_implies_renderer_check_witness :
  Renderer._validate_tikz_code "\draw (0,0) circle (2);" = (true, None).
Proof.
  apply (robust_validator_implies_renderer_check "\draw (0,0) circle (2);").
  vm_compute. reflexivity.
Defined.

(** ** The external compiler is run at most [max_retries] times *)

Section CompilerRuns.
Import PyStr Schemas Eff Renderer Pipeline.
Variable clean : string -> string.
Variable format_mb : Z -> string.

Lemma invokes_mono {A} (n m : nat) (p : prog A) :
  n <= m -> invokes_at_most n p -> invokes_at_most m p.
Proof.
  intros Hle H. revert m Hle.
  induction H as [n a | n X ev k Hev _ IH | n X ev k _ IH]; intros m Hle.
  - apply invokes_ret.
  - apply invokes_other; [exact Hev |]. intros x. apply IH. exact Hle.
  - destruct m as [|m]; [lia |]. apply invokes_compiler. intros x. apply IH. lia.
Qed.

Lemma invokes_pbind {A B} (a b : nat) (p : prog A) (f : A -> prog B) :
  invokes_at_most a p -> (forall x, invokes_at_most b (f x)) ->
  invokes_at_most (a + b) (pbind p f).
Proof.
  intros H Hf. induction H as [n x | n X ev k Hev _ IH | n X ev k _ IH]; cbn [pbind].
  - eapply invokes_mono; [| apply Hf]. lia.
  - apply invokes_other; [exact Hev | exact IH].
  - cbn [Nat.add]. apply invokes_compiler. exact IH.
Qed.

(** What the bound says of a run: the trace of any run has at most [n]
    compiler calls. *)
Lemma invokes_exec {A} (n : nat) (p : prog A) :
  invokes_at_most n p ->
  forall W (h : handler W) (w : W), compiler_invocations (exec h p w).2 <= n.
Proof.
  intros H. induction H as [n a | n X ev k Hev _ IH | n X ev k _ IH]; intros W h w.
  - cbn. lia.
  - cbn [exec]. destruct (h X ev w) as [x w1].
    specialize (IH x W h w1). destruct (exec h (k x) w1) as [[a w2] tr].
    cbn [snd] in *. unfold compiler_invocations in *.
    rewrite filter_cons_False; [exact IH |].
    cbn. rewrite (Hev x). discriminate.
  - cbn [exec]. destruct (h X ev w) as [x w1].
    specialize (IH x W h w1). destruct (exec h (k x) w1) as [[a w2] tr].
    cbn [snd] in *. unfold compiler_invocations in *.
    destruct (decide (is_tectonic_call (Answered X ev x) = true)) as [Ht|Hf].
    + rewrite filter_cons_True by exact Ht. cbn [length]. lia.
    + rewrite filter_cons_False by exact Hf. lia.
Qed.

Lemma costs_mono {St A} (n m : nat) (p : py St A) : n <= m -> costs n p -> costs m p.
Proof. intros Hle H s. eapply invokes_mono; [exact Hle | apply H]. Qed.

Lemma costs_ret {St A} (a : A) : costs (St:=St) 0 (ret a).
Proof. intros s. apply invokes_ret. Qed.

Lemma costs_raise {St A} (e : exn) : costs (St:=St) (A:=A) 0 (raise e).
Proof. intros s. apply invokes_ret. Qed.

Lemma costs_get {St} : costs (St:=St) 0 get.
Proof. intros s. apply invokes_ret. Qed.

Lemma costs_modify {St} (f : St -> St) : costs 0 (modify f).
Proof. intros s. apply invokes_ret. Qed.

Lemma costs_call {St X} (ev : Event (result X)) :
  (forall x, is_tectonic_call (Answered _ ev x) = false) -> costs (St:=St) 0 (call ev).
Proof. intros Hev s. apply invokes_other; [exact Hev |]. intros x. apply invokes_ret. Qed.

Lemma costs_compiler_call {St X} (ev : Event (result X)) : costs (St:=St) 1 (call ev).
Proof. intros s. apply invokes_compiler. intros x. apply invokes_ret. Qed.

Lemma costs_trigger {St X} (ev : Event X) :
  (forall x, is_tectonic_call (Answered _ ev x) = false) -> costs (St:=St) 0 (trigger ev).
Proof. intros Hev s. apply invokes_other; [exact Hev |]. intros x. apply invokes_ret. Qed.

Lemma costs_bind {St A B} (a b : nat) (m : py St A) (f : A -> py St B) :
  costs a m -> (forall x, costs b (f x)) -> costs (a + b) (bind m f).
Proof.
  intros Hm Hf s. unfold bind. apply invokes_pbind; [apply Hm |].
  intros [s' [x|e]]; [apply Hf | apply invokes_ret].
Qed.

Lemma costs_try_except {St A} (a b : nat) (body : py St A) (handler : exn -> py St A) :
  costs a body -> (forall e, costs b (handler e)) -> costs (a + b) (try_except body handler).
Proof.
  intros Hm Hf s. unfold try_except. apply invokes_pbind; [apply Hm |].
  intros [s' [x|e]]; [apply invokes_ret | apply Hf].
Qed.

Lemma costs_try_finally {St A} (a b : nat) (body : py St A) (fin : py St unit) :
  costs a body -> costs b fin -> costs (a + b) (try_finally body fin).
Proof.
  intros Hm Hf s. unfold try_finally. apply invokes_pbind; [apply Hm |].
  intros [s' r]. rewrite <- (Nat.add_0_r b). apply invokes_pbind; [apply Hf |].
  intros [s'' [[]|e']]; apply invokes_ret.
Qed.

Lemma costs_scope {St T A} (n : nat) (init : T) (body : py T A) :
  costs n body -> costs (St:=St) n (scope init body).
Proof.
  intros Hm s. unfold scope. rewrite <- (Nat.add_0_r n). apply invokes_pbind; [apply Hm |].
  intros [t [x|e]]; apply invokes_ret.
Qed.

Lemma costs_when {St} (n : nat) (b : bool) (m : py St unit) :
  costs n m -> costs n (when b m).
Proof.
  intros Hm. destruct b; [exact Hm |].
  eapply costs_mono; [| apply costs_ret]. lia.
Qed.

Lemma costs_for_range {St A} (c n : nat) (body : nat -> py St (option A)) (i : nat) :
  (forall i, costs c (body i)) -> costs (n * c) (for_range n i body).
Proof.
  intros Hbody. revert i. induction n as [|n IH]; intros i; cbn [for_range Nat.mul].
  - apply costs_ret.
  - apply costs_bind; [apply Hbody |]. intros [x|]; [| apply IH].
    eapply costs_mono; [| apply costs_ret]. lia.
Qed.

Lemma costs_for_each {St X} (l : list X) (body : X -> py St unit) :
  (forall x, costs 0 (body x)) -> costs 0 (for_each l body).
Proof.
  intros Hbody. induction l as [|x l IH]; cbn [for_each]; [apply costs_ret |].
  apply (costs_bind 0 0); [apply Hbody | intros _; exact IH].
Qed.

Lemma costs_map_py {St X Y} (c : nat) (body : X -> py St Y) (l : list X) :
  (forall x, costs c (body x)) -> costs (length l * c) (map_py body l).
Proof.
  intros Hbody. induction l as [|x l IH]; cbn [map_py length Nat.mul]; [apply costs_ret |].
  apply costs_bind; [apply Hbody | intros y].
  rewrite <- (Nat.add_0_r (length l * c)).
  apply costs_bind; [exact IH | intros ys; apply costs_ret].
Qed.

(** Blocks that never call the compiler. *)
Ltac quiet :=
  repeat first
    [ apply costs_ret | apply costs_raise | apply costs_get | apply costs_modify
    | apply costs_call; intros ?; reflexivity
    | apply costs_trigger; intros ?; reflexivity
    | apply (costs_when 0)
    | apply (costs_scope 0)
    | apply costs_for_each
    | apply (costs_bind 0 0)
    | apply (costs_try_except 0 0)
    | apply (costs_try_finally 0 0)
    | match goal with
      | |- forall _, _ => intro
      | |- costs _ (if ?b then _ else _) => destruct b
      | |- costs _ (match ?x with _ => _ end) => destruct x
      | |- costs _ (let '(_, _) := ?x in _) => destruct x
      end ].

Lemma backoff_quiet {St} (self : RobustTikZRenderer) (attempt : nat) (unit_ms : Z) :
  costs 0 (backoff (St:=St) self attempt unit_ms).
Proof. unfold backoff. quiet. Qed.

Lemma append_error_quiet (msg : string) : costs 0 (append_error msg).
Proof. unfold append_error. quiet. Qed.

Lemma write_standalone_tex_file_quiet (self : RobustTikZRenderer) (tikz_code : string) :
  costs 0 (_write_standalone_tex_file self tikz_code).
Proof.
  unfold _write_standalone_tex_file.
  eapply costs_mono; [| apply (costs_for_range 0)]; [lia |].
  intros attempt. unfold write_attempt, append_error, backoff. quiet.
Qed.

Lemma compile_attempt_once (self : RobustTikZRenderer) (tex_file pdf_file : Path)
  (attempt : nat) :
  costs 1 (compile_attempt self tex_file pdf_file attempt).
Proof.
  unfold compile_attempt.
  apply (costs_try_except 1 0).
  - apply (costs_bind 0 1); [quiet | intros stale].
    apply (costs_bind 0 1); [quiet | intros _].
    apply (costs_bind 1 0); [apply costs_compiler_call | intros result].
    unfold append_error, backoff. quiet.
  - intros e. unfold append_error, backoff. quiet.
Qed.

Lemma compile_with_tectonic_bound (self : RobustTikZRenderer) (tex_file : Path) :
  costs (Z.to_nat (max_retries self)) (_compile_with_tectonic self tex_file).
Proof.
  unfold _compile_with_tectonic.
  eapply costs_mono; [| apply (costs_for_range 1)]; [lia |].
  intros attempt. apply compile_attempt_once.
Qed.

Lemma convert_to_png_quiet (self : RobustTikZRenderer) (pdf_file : Path)
  (output_png : string) :
  costs 0 (_convert_to_png_with_pypdfium2 self pdf_file output_png).
Proof.
  unfold _convert_to_png_with_pypdfium2.
  apply (costs_bind 0 0); [| quiet].
  eapply costs_mono; [| apply (costs_for_range 0)]; [lia |].
  intros attempt.
  unfold convert_attempt, guarded, close_pdf_doc, convert_error, set_pdf_doc, backoff.
  quiet.
Qed.

Lemma validate_final_png_quiet (output_png : string) :
  costs 0 (_validate_final_png format_mb output_png).
Proof. unfold _validate_final_png, append_error. quiet. Qed.

Lemma cleanup_quiet {St} (files : list (string * string)) :
  costs (St:=St) 0 (_cleanup_intermediate_files files).
Proof. unfold _cleanup_intermediate_files. quiet. Qed.

Lemma render_steps_bound (self : RobustTikZRenderer) (tikz_code output_png : string) :
  costs (Z.to_nat (max_retries self)) (render_steps clean format_mb self tikz_code output_png).
Proof.
  set (n := Z.to_nat (max_retries self)).
  unfold render_steps.
  destruct (_generate_clean_tikz_code clean tikz_code) as [cleaned step1_errors].
  apply (costs_bind 0 n); [quiet | intros _].
  apply (costs_bind 0 n); [quiet | intros _].
  apply (costs_bind 0 n);
    [apply costs_scope, write_standalone_tex_file_quiet | intros [step2_errors tex_file]].
  apply (costs_bind 0 n); [quiet | intros _].
  apply (costs_bind 0 n); [quiet | intros _].
  apply (costs_bind 0 n); [quiet | intros _].
  destruct tex_file as [tex_file|];
    [| eapply costs_mono; [| apply costs_raise]; lia].
  rewrite <- (Nat.add_0_r n).
  apply (costs_bind n 0);
    [apply costs_scope, compile_with_tectonic_bound | intros [step3_errors pdf_file]].
  apply (costs_bind 0 0); [quiet | intros _].
  apply (costs_bind 0 0); [quiet | intros _].
  apply (costs_bind 0 0); [quiet | intros _].
  destruct pdf_file as [pdf_file|]; [| quiet].
  apply (costs_bind 0 0);
    [apply costs_scope, convert_to_png_quiet | intros [step4_locals png_success]].
  apply (costs_bind 0 0); [quiet | intros _].
  apply (costs_bind 0 0); [quiet | intros _].
  destruct (negb png_success); [quiet |].
  apply (costs_bind 0 0);
    [apply costs_scope, validate_final_png_quiet | intros [step5_errors png_validated]].
  quiet.
Qed.

Lemma render_bound {St} (self : RobustTikZRenderer) (tikz_code output_png : string) :
  costs (St:=St) (Z.to_nat (max_retries self))
        (render clean format_mb self tikz_code output_png).
Proof.
  set (n := Z.to_nat (max_retries self)).
  unfold render.
  apply (costs_bind 0 n); [quiet | intros start_time].
  rewrite <- (Nat.add_0_r n).
  apply (costs_bind n 0); [| quiet].
  apply costs_scope.
  rewrite <- (Nat.add_0_r n). apply costs_try_finally.
  - rewrite <- (Nat.add_0_r n). apply costs_try_except; [apply render_steps_bound | quiet].
  - unfold render_finally. apply (costs_bind 0 0).
    + apply costs_when. apply (costs_bind 0 0); [quiet | intros md; apply cleanup_quiet].
    + quiet.
Qed.

(** X18. In every environment, one call of [render] runs the external
    compiler at most [max_retries] times (never, when [max_retries] is not
    positive), whatever the compiler, the file system and the rasteriser
    answer. *)
Theorem render_runs_the_compiler_at_most_max_retries {St W} (h : handler W) (w : W)
  (self : RobustTikZRenderer) (tikz_code output_png : string) (s : St) :
  compiler_invocations (exec h (render clean format_mb self tikz_code output_png s) w).2
  <= Z.to_nat (max_retries self).
Proof. apply invokes_exec. apply render_bound. Qed.

Lemma render_single_diagram_bound {St} (self : Pipeline.Pipeline)
  (question : QuestionInstance) (pattern_idx : nat) :
  costs (St:=St) (Z.to_nat (max_retries (tikz_renderer self)))
        (_render_single_diagram clean format_mb self question pattern_idx).
Proof.
  unfold _render_single_diagram.
  destruct (RobustTikZValidator.validate (tikz_code question)) as [is_valid error].
  destruct (negb is_valid).
  - eapply costs_mono; [| apply costs_ret]. lia.
  - rewrite <- (Nat.add_0_r (Z.to_nat _)).
    apply costs_bind; [apply render_bound | intros render_result; apply costs_ret].
Qed.

(** X19. Rendering the diagrams of a question set, in sequence or in
    parallel, runs the external compiler at most [max_retries] times per
    Question Instance, in every environment in which the pool hands back
    each submitted task once. *)
Theorem render_diagrams_runs_the_compiler_at_most {St W} (h : handler W) (w : W)
  (self : Pipeline.Pipeline) (question_set : QuestionSet) (pattern_idx : nat) (s : St) :
  (h _ (AsCompleted (length (questions question_set))) w).1
    ≡ₚ seq 0 (length (questions question_set)) ->
  compiler_invocations
    (exec h (_render_diagrams clean format_mb self question_set pattern_idx s) w).2
  <= length (questions question_set) * Z.to_nat (max_retries (tikz_renderer self)).
Proof.
  intros Hperm. set (r := Z.to_nat (max_retries (tikz_renderer self))).
  unfold _render_diagrams. destruct (parallel_rendering self).
  - unfold _render_diagrams_parallel.
    cbn [bind trigger pbind exec].
    destruct (h _ (AsCompleted (length (questions question_set))) w) as [order w1].
    cbn [fst] in Hperm.
    match goal with
    | |- context [exec h ?p w1] =>
        assert (Hrest : invokes_at_most (length (questions question_set) * r) p)
    end.
    { replace (length (questions question_set)) with (length order)
        by (rewrite (Permutation_length Hperm); apply length_seq).
      rewrite <- (Nat.add_0_r (length order * r)).
      apply (costs_bind (length order * r) 0); [| intros done; apply costs_ret].
      apply costs_map_py. intros idx.
      destruct (questions question_set !! idx) as [question|].
      - rewrite <- (Nat.add_0_r r).
        apply costs_bind; [apply render_single_diagram_bound | intros d; apply costs_ret].
      - eapply costs_mono; [| apply costs_ret]. lia. }
    pose proof (invokes_exec _ _ Hrest W h w1) as Hbound.
    match goal with
    | |- context [exec h ?p w1] => destruct (exec h p w1) as [[out w2] tr]
    end.
    cbn [snd] in *. unfold compiler_invocations in *.
    rewrite filter_cons_False; [exact Hbound |]. cbn. discriminate.
  - apply invokes_exec. unfold _render_diagrams_sequential.
    rewrite <- (Nat.add_0_r (_ * r)).
    apply (costs_bind (length (questions question_set) * r) 0);
      [| intros rendered; apply costs_ret].
    apply costs_map_py. intros question. apply render_single_diagram_bound.
Qed.

End CompilerRuns.

(** Three questions rendered in parallel with a compiler that always fails:
    nine runs, three per question. *)
Lemma render_diagrams_runs_the_compiler_at_most_witness :
  (Stub.stub (Samples.failing_toolchain "boom") _ (Eff.AsCompleted 3) Stub.fresh_world).1
    ≡ₚ seq 0 3
  /\ Eff.compiler_invocations
       (Eff.exec (Stub.stub (Samples.failing_toolchain "boom"))
          (Pipeline._render_diagrams Samples.no_cleaning Samples.megabytes
             Samples.sample_pipeline
             (Samples.three_questions (Schemas.mkQuestionPattern 0 "Distance Formula")
                "Coordinate Geometry") 0 tt)
          Stub.fresh_world).2
     <= 3 * 3.
Proof.
  assert (H : (Stub.stub (Samples.failing_toolchain "boom") _ (Eff.AsCompleted 3)
                 Stub.fresh_world).1 ≡ₚ seq 0 3).
  { cbn. symmetry. apply (Permutation_rev [0; 1; 2]). }
  split; [exact H |].
  exact (render_diagrams_runs_the_compiler_at_most Samples.no_cleaning Samples.megabytes
           (Stub.stub (Samples.failing_toolchain "boom")) Stub.fresh_world
           Samples.sample_pipeline
           (Samples.three_questions (Schemas.mkQuestionPattern 0 "Distance Formula")
              "Coordinate Geometry") 0 tt H).
Defined.

(** ** The document assembler: pages *)

Section Pages.
Import PyStr Schemas Eff PDFBuilder.

Lemma pages_from_spec (qs : list QuestionInstance)
  (diagrams : list (option RenderedDiagram)) (i : Z) :
  match pages_from i qs diagrams with
  | Some pages =>
      length qs <= length diagrams /\
      length pages = length qs /\
      forall (j : nat) (q : QuestionInstance),
        qs !! j = Some q ->
        exists d, diagrams !! j = Some d /\
                  pages !! j
                  = Some (mkPDFPage (i + Z.of_nat j + 1) (instance_id q) (question_text q)
                                    (tikz_code q) (correct_answer q) (page_image_path d))
  | None => length diagrams < length qs
  end.
Proof.
  revert diagrams i. induction qs as [|q qs IH]; intros diagrams i; cbn [pages_from].
  - repeat split; [cbn; lia |]. intros j q Hq. rewrite lookup_nil in Hq. discriminate.
  - destruct diagrams as [|d diagrams]; [cbn; lia |].
    specialize (IH diagrams (i + 1)%Z).
    destruct (pages_from (i + 1) qs diagrams) as [pages|]; [| cbn; lia].
    destruct IH as (Hle & Hlen & Hpages). repeat split; [cbn; lia | cbn; lia |].
    intros [|j] q' Hq'.
    + injection Hq' as <-. exists d. split; [reflexivity |].
      change ((?x :: pages) !! 0) with (Some x).
      do 2 f_equal. lia.
    + change (qs !! j = Some q') in Hq'.
      destruct (Hpages j q' Hq') as [d' [Hd' Hp]]. exists d'.
      split; [exact Hd' |].
      change ((?x :: pages) !! S j) with (pages !! j).
      rewrite Hp. do 2 f_equal. lia.
Qed.

(** X20. [build_pdf] builds a document only for a question set that is not
    empty and has a diagram for each of its questions: with fewer diagrams
    than questions it raises before the document is touched. The pattern
    document it returns has one page per question, in order, numbered from
    1, with the question's id, text, source and answer, and as image path
    the PNG of the diagram at the same position when that diagram
    succeeded, the empty string otherwise; diagrams beyond the last question
    are ignored. *)
Theorem build_pdf_pages {St} (question_set : QuestionSet)
  (diagrams : list (option RenderedDiagram)) (output_pdf : string) (s : St) :
  (length diagrams < length (questions question_set) \/ questions question_set = [] ->
   exists e, build_pdf question_set diagrams output_pdf s = Ret (s, Err e))
  /\ post (build_pdf question_set diagrams output_pdf) s
       (fun s' r =>
          s' = s /\
          forall pdf, r = Ok pdf ->
            1 <= length (questions question_set) <= length diagrams /\
            pp_pdf_path pdf = output_pdf /\
            length (pages pdf) = length (questions question_set) /\
            forall (j : nat) (q : QuestionInstance),
              questions question_set !! j = Some q ->
              exists d, diagrams !! j = Some d /\
                        pages pdf !! j
                        = Some (mkPDFPage (Z.of_nat j + 1) (instance_id q)
                                  (question_text q) (tikz_code q) (correct_answer q)
                                  (page_image_path d))).
Proof.
  pose proof (pages_from_spec (questions question_set) diagrams 0) as Hspec.
  unfold build_pdf. split.
  - intros Hshort.
    destruct (length (questions question_set) <? 1)%nat eqn:Hq; [eauto |].
    destruct (length diagrams <? 1)%nat eqn:Hd; [eauto |].
    destruct (pages_from 0 (questions question_set) diagrams) as [pages|]; [| eauto].
    apply Nat.ltb_ge in Hq. destruct Hshort as [Hlt|Hnil]; [lia |].
    rewrite Hnil in Hq. cbn in Hq. lia.
  - destruct (length (questions question_set) <? 1)%nat eqn:Hq;
      [apply post_raise; split; [reflexivity | discriminate] |].
    destruct (length diagrams <? 1)%nat eqn:Hd;
      [apply post_raise; split; [reflexivity | discriminate] |].
    apply Nat.ltb_ge in Hq.
    destruct (pages_from 0 (questions question_set) diagrams) as [built|];
      [| apply post_raise; split; [reflexivity | discriminate]].
    destruct Hspec as (Hle & Hlen & Hpages).
    apply post_bind, post_call. intros [[]|e]; [| split; [reflexivity | discriminate]].
    apply post_ret. split; [reflexivity |]. intros pdf [= <-]. cbn [pages pp_pdf_path].
    repeat split; try lia; try assumption.
Qed.

End Pages.

(** ** Question generation: no question is left pending *)

Section GenerateQuestions.
Import PyStr Schemas Eff Pipeline.

(** X21. With [validate_solvability] on, every question of the set that
    [_generate_questions] returns has the status 'valid' or 'invalid' (the
    answer of [SolvabilityChecker.check] on the question as generated), the
    set has as many questions as the generator gave, in the same order and
    otherwise unchanged; the warnings of [validate_questions] are logged
    only and fail nothing. *)
Theorem generate_questions_settles_every_status {St} (self : Pipeline.Pipeline)
  (pattern : QuestionPattern) (topic : string) (s : St) :
  validate_solvability self = true ->
  post (_generate_questions self pattern topic) s
    (fun s' r =>
       s' = s /\
       forall question_set, r = Ok question_set ->
         Forall (fun q => solvability_check q = "valid" \/ solvability_check q = "invalid")
                (questions question_set)
         /\ exists generated,
              qs_pattern_id question_set = qs_pattern_id generated /\
              Forall2 (fun q g =>
                         q = set_solvability (fst (SolvabilityChecker.check g)) g)
                      (questions question_set) (questions generated)).
Proof.
  intros Hon. unfold _generate_questions. rewrite Hon.
  apply post_bind, post_call. intros [generated|e]; [| split; [reflexivity | discriminate]].
  apply post_bind, post_call. intros [errors|e]; [| split; [reflexivity | discriminate]].
  apply post_ret. split; [reflexivity |]. intros question_set [= <-].
  cbn [questions set_questions qs_pattern_id]. split.
  - apply Forall_forall. intros q Hin. apply list_elem_of_In, in_map_iff in Hin.
    destruct Hin as [g [<- _]]. cbn [solvability_check set_solvability].
    destruct (check_invalid_or_valid g) as [H|H]; rewrite H; auto.
  - exists generated. split; [reflexivity |].
    induction (questions generated) as [|g gs IH]; constructor; [reflexivity | exact IH].
Qed.

End GenerateQuestions.

Lemma generate_questions_settles_every_status_witness :
  Eff.post (Pipeline._generate_questions Samples.sample_pipeline
              (Schemas.mkQuestionPattern 0 "Distance Formula") "Coordinate Geometry") tt
    (fun s' r =>
       s' = tt /\
       forall question_set, r = Eff.Ok question_set ->
         Forall (fun q => Schemas.solvability_check q = "valid"
                          \/ Schemas.solvability_check q = "invalid")
                (Schemas.questions question_set)
         /\ exists generated,
              Schemas.qs_pattern_id question_set = Schemas.qs_pattern_id generated /\
              Forall2 (fun q g =>
                         q = Pipeline.set_solvability (fst (SolvabilityChecker.check g)) g)
                      (Schemas.questions question_set) (Schemas.questions generated)).
Proof.
  apply (generate_questions_settles_every_status Samples.sample_pipeline
           (Schemas.mkQuestionPattern 0 "Distance Formula") "Coordinate Geometry" tt).
  reflexivity.
Defined.

Section AcceptedInstances.
Import PyStr Schemas SolvabilityChecker QuestionValidator.


End AcceptedInstances.


(** ** Extraction and parsing of whole responses *)

Section WholeResponses.
Import PyStr Eff Re LlmUtils.
#[local] Arguments String.append : simpl nomatch.

Lemma star_class_then_absent {R} (p : ascii -> bool) (c : ascii) (s : string) :
  count c s = 0 ->
  forall (prev : option ascii) (pos : nat) (caps : captures)
         (k : option ascii -> string -> nat -> captures -> option R),
    go (Seq (Star (Cls p)) (Chr c)) prev s pos caps k = None.
Proof.
  induction s as [|x s IH]; intros Hc prev pos caps k.
  - reflexivity.
  - cbn [count] in Hc. destruct (Ascii.eqb c x) eqn:Hcx; [discriminate |].
    specialize (IH Hc (Some x) (S pos) caps k).
    cbn [go String.length] in *.
    replace (pos <? S pos)%nat with true by (symmetry; apply Nat.ltb_lt; lia).
    rewrite IH, Hcx. destruct (p x); reflexivity.
Qed.

Lemma search_array_start_absent (s : string) (prev : option ascii) (pos : nat) :
  count "{"%char s = 0 -> search_from array_start prev s pos = None.
Proof.
  revert prev pos. induction s as [|x s IH]; intros prev pos Hc; [reflexivity |].
  cbn [count] in Hc. destruct (Ascii.eqb "{"%char x) eqn:Hx; [discriminate |].
  cbn [search_from]. rewrite (IH _ _ Hc).
  unfold match_here, array_start. cbn [go].
  destruct (Ascii.eqb "["%char x); [| reflexivity].
  pose proof (star_class_then_absent (R := found) isspace "{"%char s Hc (Some x) (S pos) []
                (fun _ _ pos' caps => Some (mkFound pos pos' caps))) as H.
  unfold Space. cbn [go] in H. cbn [go]. rewrite H. reflexivity.
Qed.

Lemma search_object_start_absent (s : string) (prev : option ascii) (pos : nat) :
  count "{"%char s = 0 -> search_from object_start prev s pos = None.
Proof.
  revert prev pos. induction s as [|x s IH]; intros prev pos Hc; [reflexivity |].
  cbn [count] in Hc. destruct (Ascii.eqb "{"%char x) eqn:Hx; [discriminate |].
  cbn [search_from]. rewrite (IH _ _ Hc).
  unfold match_here, object_start. cbn [go]. rewrite Hx. reflexivity.
Qed.

(** X23. A text with no backtick and no opening brace has no fenced block,
    no array of records and no object: [extract_json_from_markdown] only
    strips it. *)
Theorem extract_without_fence_or_brace (text : string) :
  count "`"%char text = 0 ->
  count "{"%char text = 0 ->
  extract_json_from_markdown text = strip text.
Proof.
  intros Htick Hbrace. unfold extract_json_from_markdown, balanced_span, search.
  change "```json" with (String "`"%char "``json").
  change fence with (String "`"%char "``").
  rewrite !(contains_absent _ _ _ Htick).
  rewrite (search_array_start_absent _ _ _ Hbrace), (search_object_start_absent _ _ _ Hbrace).
  reflexivity.
Qed.

Lemma clean_response_text_app (a b : string) :
  clean_response_text (a +:+ b) = clean_response_text a +:+ clean_response_text b.
Proof. induction a as [|x a IH]; [reflexivity |]. simpl. f_equal. exact IH. Qed.

Lemma clean_response_text_keeps_backticks (s : string) :
  count "`"%char (clean_response_text s) = count "`"%char s.
Proof.
  induction s as [|x s IH]; [reflexivity |].
  cbn [clean_response_text count]. rewrite IH. f_equal.
  unfold clean_char.
  destruct ((code x <? 32)%N && _) eqn:Hctl; [| reflexivity].
  apply andb_true_iff in Hctl as [Hlt _]. apply N.ltb_lt in Hlt.
  destruct (Ascii.eqb "`"%char x) eqn:Hx; [| reflexivity].
  apply Ascii.eqb_eq in Hx. subst x. cbn in Hlt. lia.
Qed.

(** X12. A text with one block fenced by three backticks and the tag json,
    and no other backtick before, inside or after it:
    [extract_json_from_markdown] answers with the body of the block,
    stripped; and when the cleaned, stripped body is not blank, has no
    [tikz_code] marker and is decoded by [json.loads], the whole of
    [process_llm_response] returns the decoded body, with nothing logged as
    an error. What stands before and after the block is dropped. *)
Theorem fenced_json_block_is_extracted (pre body post : string) :
  count "`"%char pre = 0 ->
  count "`"%char body = 0 ->
  count "`"%char post = 0 ->
  extract_json_from_markdown (pre +:+ (fence +:+ "json") +:+ body +:+ fence +:+ post)
  = strip body
  /\ forall (L : Lib) (fuel : nat) (data : pyval),
       strip (strip (clean_response_text body)) <> "" ->
       contains TIKZ_KEY (strip (clean_response_text body)) = false ->
       json_loads L (strip (clean_response_text body)) = Ok data ->
       process_llm_response L fuel
         (pre +:+ (fence +:+ "json") +:+ body +:+ fence +:+ post)
       = ([], Done data).
Proof.
  intros Hpre Hbody Hpost. split; [apply fenced_block_body; assumption |].
  intros L fuel data Hblank Hmarker Hjson. unfold process_llm_response.
  rewrite !clean_response_text_app.
  change (clean_response_text fence) with fence.
  change (clean_response_text "json") with "json".
  rewrite fenced_block_body
    by (rewrite clean_response_text_keeps_backticks; assumption).
  rewrite parse_without_marker by assumption.
  unfold parse_strategies. rewrite Hjson. reflexivity.
Qed.

End WholeResponses.

Lemma extract_without_fence_or_brace_witness :
  LlmUtils.extract_json_from_markdown "  hello [1, 2] " = "hello [1, 2]".
Proof.
  etransitivity.
  - apply (extract_without_fence_or_brace "  hello [1, 2] "); reflexivity.
  - vm_compute. reflexivity.
Defined.

Lemma fenced_json_block_is_extracted_witness :
  LlmUtils.extract_json_from_markdown
    (("Here are the questions:" +:+ LlmUtils.chr LlmUtils.lf)
     +:+ (LlmUtils.fence +:+ "json")
     +:+ (LlmUtils.chr LlmUtils.lf +:+ Responses.two_records +:+ LlmUtils.chr LlmUtils.lf)
     +:+ LlmUtils.fence +:+ " Good luck!")
  = Responses.two_records
  /\ LlmUtils.process_llm_response Responses.recorded 0
       (("Here are the questions:" +:+ LlmUtils.chr LlmUtils.lf)
        +:+ (LlmUtils.fence +:+ "json")
        +:+ (LlmUtils.chr LlmUtils.lf +:+ Responses.two_records +:+ LlmUtils.chr LlmUtils.lf)
        +:+ LlmUtils.fence +:+ " Good luck!")
     = ([], LlmUtils.Done Responses.two_records_value).
Proof.
  destruct (fenced_json_block_is_extracted
              ("Here are the questions:" +:+ LlmUtils.chr LlmUtils.lf)
              (LlmUtils.chr LlmUtils.lf +:+ Responses.two_records +:+ LlmUtils.chr LlmUtils.lf)
              " Good luck!") as [Hextract Hprocess]; try reflexivity.
  split.
  - etransitivity; [exact Hextract | vm_compute; reflexivity].
  - apply Hprocess.
    + vm_compute. discriminate.
    + vm_compute. reflexivity.
    + vm_compute. reflexivity.
Defined.

(** ** The render record: what every run keeps *)

Section RenderRecord.
Import PyStr Schemas Eff Renderer.
Variable clean : string -> string.
Variable format_mb : Z -> string.

Lemma render_steps_keep (self : RobustTikZRenderer) (tikz_code output_png : string) :
  post (render_steps clean format_mb self tikz_code output_png)
       (mkMetadata false output_png tikz_code [] [] [] 0 [])
       (fun md r =>
          kept tikz_code output_png md /\
          match r with
          | Ok _ => md_success md = true
          | Err _ => True
          end).
Proof.
  unfold render_steps, kept.
  destruct (_generate_clean_tikz_code clean tikz_code) as [cleaned step1_errors].
  apply post_bind, post_modify. apply post_bind, post_modify.
  apply post_bind, post_scope_safe; [apply write_standalone_tex_file_safe |].
  intros step2_errors tex_file.
  apply post_bind, post_modify. apply post_bind, post_modify.
  apply post_bind, post_modify.
  destruct tex_file as [tex_file|].
  2:{ apply post_raise. cbn. repeat split; try lia. eexists. reflexivity. }
  apply post_bind, post_scope_safe; [apply compile_with_tectonic_safe |].
  intros step3_errors pdf_file.
  apply post_bind, post_modify.
  destruct pdf_file as [pdf_file|].
  2:{ apply post_bind, post_ret. apply post_bind, post_modify.
      apply post_raise. cbn. repeat split; try lia. eexists. reflexivity. }
  apply post_bind, post_modify. apply post_bind, post_modify.
  apply post_bind, post_scope_safe; [apply convert_to_png_safe |].
  intros step4_locals png_success.
  apply post_bind, post_modify. apply post_bind, post_modify.
  destruct png_success; cbn [negb].
  2:{ apply post_raise. cbn. repeat split; try lia. eexists. reflexivity. }
  apply post_bind, post_scope_safe; [apply validate_final_png_safe |].
  intros step5_errors png_validated.
  apply post_bind, post_modify. apply post_bind, post_modify.
  destruct png_validated; cbn [negb].
  2:{ apply post_raise. cbn. repeat split; try lia. eexists. reflexivity. }
  apply post_modify. cbn. repeat split; try lia. exists []. reflexivity.
Qed.

(** X24. Whatever the environment answers, the record [render] returns
    names the output path and the source it was called with, lists as
    completed steps a prefix of the five step names that has at least the
    first two, and, when [success] is false, has at least one entry in
    [errors]. *)
Theorem render_record_invariants {St} (self : RobustTikZRenderer)
  (tikz_code output_png : string) (s : St) :
  post (render clean format_mb self tikz_code output_png) s
    (fun s' r =>
       exists md, r = Ok md /\
         Renderer.output_png md = output_png /\
         md_tikz_code md = tikz_code /\
         steps_completed md `prefix_of` all_steps /\
         2 <= length (steps_completed md) /\
         (md_success md = false -> errors md <> [])).
Proof.
  unfold render. apply post_bind, post_trigger. intros start_time.
  apply post_bind, post_scope, post_try_finally, post_try_except.
  eapply post_mono; [| apply render_steps_keep].
  intros md [[]|e] [(Hpng & Hcode & Hsteps & Hlen) Hr].
  - apply render_finally_post. intros t. apply post_ret.
    eexists. split; [reflexivity |]. cbn. repeat split; try assumption.
    intros Hf. congruence.
  - apply post_modify. apply render_finally_post. intros t. apply post_ret.
    eexists. split; [reflexivity |]. cbn. repeat split; try assumption.
    intros _ Hnil. apply app_eq_nil in Hnil as [_ Hnil]. discriminate.
Qed.

End RenderRecord.

(** ** When the pre-pass changes nothing, and when the entry point returns *)

Section PrepassIdentity.
Import PyStr Eff Re LlmUtils.

(** X25. On a text without the marker [parse_json_response] always returns
    or raises: its result is the same for every amount of fuel and is never
    the loop that runs on. A blank text is the [ValueError] for an empty
    response. *)
Theorem parse_returns_without_marker (L : Lib) (text : string) :
  contains TIKZ_KEY text = false ->
  exists (log : list string) (out : outcome pyval),
    out <> OutOfFuel /\
    (strip text = "" -> out = Raised (mkExn ValueError "Empty response from LLM")) /\
    forall fuel : nat, parse_json_response L fuel text = (log, out).
Proof.
  intros Hm. destruct (strip text) eqn:Hstrip.
  - exists [], (Raised (mkExn ValueError "Empty response from LLM")).
    split; [discriminate |]. split; [reflexivity |].
    intros fuel. unfold parse_json_response. rewrite Hstrip. reflexivity.
  - assert (Hparse : forall fuel, parse_json_response L fuel text = parse_strategies L text).
    { intros fuel. apply parse_without_marker; [rewrite Hstrip; discriminate | exact Hm]. }
    exists (fst (parse_strategies L text)), (snd (parse_strategies L text)).
    split; [| split; [discriminate |]].
    + unfold parse_strategies.
      destruct (json_loads L text) as [data|e]; [discriminate |].
      destruct (is_json_decode_error e); [| discriminate].
      destruct (json5_loads L text); [discriminate |].
      destruct (json5_loads L _); [discriminate |].
      destruct (json5_loads L _); [discriminate |].
      destruct (reconstruct_json_from_partial L text); discriminate.
    + intros fuel. rewrite Hparse. destruct (parse_strategies L text). reflexivity.
Qed.


End PrepassIdentity.

Lemma parse_returns_without_marker_witness :
  exists (log : list string) (out : LlmUtils.outcome pyval),
    out <> LlmUtils.OutOfFuel /\
    (PyStr.strip "hello" = "" ->
     out = LlmUtils.Raised (Eff.mkExn Eff.ValueError "Empty response from LLM")) /\
    forall fuel : nat, LlmUtils.parse_json_response Responses.recorded fuel "hello" = (log, out).
Proof.
  apply (parse_returns_without_marker Responses.recorded "hello"). reflexivity.
Defined.

